(** * APEX trading bot: transport, risk engine and trading cycle

    A shallow embedding of the Python sources
      - [src/api/models.py]   (order and signal records, payload serialisation),
      - [src/api/auth.py]     (request signing headers),
      - [src/api/client.py]   (token bucket, retrying transport),
      - [src/risk/manager.py] (Kelly sizing, validation, daily ledger),
      - [main.py]             (one trading cycle),
      - [src/utils/helpers.py], [config/settings.py] and
        [src/strategies/base.py] (money helpers, endpoint selection and the
        strategy pipeline),
    followed by the properties the specification states about them and by
    further properties of the code.

    Conventions of the embedding.
      - Python [int] is [Z].  Python [float] is read in two ways.  Module
        [Risk64] models the sizing, validation and order construction of the
        risk manager on binary64 itself (Rocq's primitive floats): every
        property about a contract count, an accept or refuse decision, a
        sign or a price in cents is stated there.  Modules [Risk] and [Main]
        idealise floats as exact rationals ([Q], equalities stated with
        [==]); they carry the properties of the ledger, of the bookkeeping
        and of the control flow of a cycle, where a dollar amount may differ
        from the program's in its last bit.
      - A [dict] with string keys is a [gmap string _]; where the order of
        its items matters it is an association list in insertion order.
      - Reading the clock is an explicit input: risk-manager operations take
        the UTC date [today] they would read, the transport threads a [world]
        holding the clock, [time.sleep d] advances that clock by [d] and a
        request by the time it takes.
      - Exceptions are values of [exn]; a computation returns [Ret v],
        [Raise e], or [Diverge] when the fuel of an unbounded loop runs out. *)

From Stdlib Require Import ZArith QArith Qround Qminmax Qpower Lqa Lia.
From Stdlib Require Import Ascii String List Bool.
From Stdlib Require Import Floats.
From stdpp Require Import gmap strings pretty.
From Stdlib Require Import Sorted.
Import ListNotations.

Open Scope Q_scope.

(** A decimal literal in [float_scope] denotes the nearest double, as it
    does in Python. *)
Set Warnings "-inexact-float".

(** ** Python numeric built-ins on the idealised numbers *)

Module Py.

(** [int(x)] on a float: truncation toward zero. *)
Definition int (x : Q) : Z := Z.quot (Qnum x) (Zpos (Qden x)).

Definition ltb (a b : Q) : bool := negb (Qle_bool b a).

(** [max(a, b)]: the first of the largest, [min(a, b)]: the first of the
    smallest. *)
Definition max (a b : Q) : Q := if ltb a b then b else a.
Definition min (a b : Q) : Q := if ltb b a then b else a.

(** [abs(x)]. *)
Definition abs (x : Q) : Q := if ltb x 0 then - x else x.

(** [sum(d.values())]. *)
Definition sum_values (d : gmap string Q) : Q :=
  map_fold (fun _ v acc => acc + v) 0 d.

(** [o or d] for an optional integer: [None] and [0] are falsy. *)
Definition or_int (o : option Z) (d : Z) : Z :=
  match o with
  | Some v => if (v =? 0)%Z then d else v
  | None => d
  end.

End Py.

(** ** [src/api/models.py] *)

Module Models.

Inductive OrderSide := YES | NO.
Inductive OrderAction := BUY | SELL.
Inductive OrderType := LIMIT | MARKET.

Definition OrderSide_value (s : OrderSide) : string :=
  match s with YES => "yes" | NO => "no" end.
Definition OrderAction_value (a : OrderAction) : string :=
  match a with BUY => "buy" | SELL => "sell" end.
Definition OrderType_value (t : OrderType) : string :=
  match t with LIMIT => "limit" | MARKET => "market" end.

Definition OrderSide_eqb (a b : OrderSide) : bool :=
  match a, b with YES, YES | NO, NO => true | _, _ => false end.

(** The JSON values that occur in request and response bodies. *)
Inductive jvalue :=
| JStr (s : string)
| JInt (n : Z)
| JBool (b : bool).

Record OrderRequest := {
  o_ticker : string;
  o_side : OrderSide;
  o_action : OrderAction;
  o_count : Z;
  order_type : OrderType;
  yes_price : option Z;
  no_price : option Z;
  client_order_id : string;
  time_in_force : string;
  buy_max_cost : option Z;
  post_only : bool
}.

Definition nonempty (s : string) : bool :=
  match s with EmptyString => false | _ => true end.

(** [OrderRequest.to_api_payload]. *)
Definition to_api_payload (o : OrderRequest) : gmap string jvalue :=
  let payload : gmap string jvalue :=
    <["type" := JStr (OrderType_value (order_type o))]>
    (<["count" := JInt (o_count o)]>
    (<["action" := JStr (OrderAction_value (o_action o))]>
    (<["side" := JStr (OrderSide_value (o_side o))]>
    (<["ticker" := JStr (o_ticker o)]> ∅)))) in
  let payload :=
    match yes_price o with
    | Some p => <["yes_price" := JInt p]> payload
    | None => payload
    end in
  let payload :=
    match no_price o with
    | Some p => <["no_price" := JInt p]> payload
    | None => payload
    end in
  let payload :=
    if nonempty (client_order_id o)
    then <["client_order_id" := JStr (client_order_id o)]> payload
    else payload in
  let payload :=
    if nonempty (time_in_force o)
    then <["time_in_force" := JStr (time_in_force o)]> payload
    else payload in
  let payload :=
    match buy_max_cost o with
    | Some c => <["buy_max_cost" := JInt c]> payload
    | None => payload
    end in
  if post_only o then <["post_only" := JBool true]> payload else payload.

(** [TradeSignal]; its creation [timestamp] plays no part in any
    operation modelled here and is left out. *)
Record TradeSignal := {
  ticker : string;
  side : OrderSide;
  action : OrderAction;
  confidence : Q;
  estimated_probability : Q;
  market_probability : Q;
  expected_value : Q;
  strategy_name : string;
  reasoning : string;
  suggested_price : option Z;
  suggested_count : option Z
}.

Definition edge (s : TradeSignal) : Q :=
  Py.abs (estimated_probability s - market_probability s).

End Models.

(** ** [src/risk/manager.py] on exact numbers *)

(** The risk manager with its floats read as the rationals they stand for,
    and every operation exact.  This reading carries the ledger, the
    exposure bookkeeping and the trading cycle; a dollar amount it computes
    can differ from the program's in the last bit, and so can a comparison
    or an [int(...)] at a boundary.  The sizes, decisions and prices of the
    program itself are those of [Risk64] below. *)

Module Risk.
Import Models.

Record DailyPnL := {
  date : string;
  realized_pnl : Q;
  unrealized_pnl : Q;
  trades_count : Z;
  wins : Z;
  losses : Z
}.

(** [DailyPnL(date=d)]: every other field takes its default. *)
Definition DailyPnL_new (d : string) : DailyPnL :=
  {| date := d; realized_pnl := 0; unrealized_pnl := 0;
     trades_count := 0; wins := 0; losses := 0 |}.

Definition total_pnl (d : DailyPnL) : Q := realized_pnl d + unrealized_pnl d.

Definition win_rate (d : DailyPnL) : Q :=
  if (trades_count d =? 0)%Z then 0
  else inject_Z (wins d) / inject_Z (trades_count d).

(** One entry of [_trades_today]. *)
Record trade_entry := {
  t_ticker : string;
  t_cost : Q;
  t_pnl : Q;
  t_time : string
}.

Record RiskManager := {
  max_daily_loss : Q;
  max_position_size : Z;
  max_trade_cost : Q;
  max_portfolio_exposure_pct : Q;
  kelly_fraction : Q;
  _daily_pnl : DailyPnL;
  _open_positions : gmap string Q;
  _trades_today : list trade_entry
}.

(** [RiskManager.__init__], with [today] the date read by [_today()]. *)
Definition __init__ (today : string)
    (max_daily_loss : Q) (max_position_size : Z) (max_trade_cost : Q)
    (max_portfolio_exposure_pct : Q) (kelly_fraction : Q) : RiskManager :=
  {| max_daily_loss := max_daily_loss;
     max_position_size := max_position_size;
     max_trade_cost := max_trade_cost;
     max_portfolio_exposure_pct := max_portfolio_exposure_pct;
     kelly_fraction := kelly_fraction;
     _daily_pnl := DailyPnL_new today;
     _open_positions := ∅;
     _trades_today := [] |}.

Definition set_ledger (rm : RiskManager) (d : DailyPnL)
    (ts : list trade_entry) : RiskManager :=
  {| max_daily_loss := max_daily_loss rm;
     max_position_size := max_position_size rm;
     max_trade_cost := max_trade_cost rm;
     max_portfolio_exposure_pct := max_portfolio_exposure_pct rm;
     kelly_fraction := kelly_fraction rm;
     _daily_pnl := d;
     _open_positions := _open_positions rm;
     _trades_today := ts |}.

Definition set_positions (rm : RiskManager) (p : gmap string Q)
    : RiskManager :=
  {| max_daily_loss := max_daily_loss rm;
     max_position_size := max_position_size rm;
     max_trade_cost := max_trade_cost rm;
     max_portfolio_exposure_pct := max_portfolio_exposure_pct rm;
     kelly_fraction := kelly_fraction rm;
     _daily_pnl := _daily_pnl rm;
     _open_positions := p;
     _trades_today := _trades_today rm |}.

(** [_reset_daily_if_needed]. *)
Definition _reset_daily_if_needed (today : string) (rm : RiskManager)
    : RiskManager :=
  if negb (String.eqb (date (_daily_pnl rm)) today)
  then set_ledger rm (DailyPnL_new today) []
  else rm.

(** [kelly_criterion]. *)
Definition kelly_criterion (rm : RiskManager) (probability odds_decimal : Q)
    : Q :=
  if Qle_bool probability 0 || Qle_bool 1 probability
     || Qle_bool odds_decimal 0
  then 0
  else
    let q := 1 - probability in
    let kelly := (probability * odds_decimal - q) / odds_decimal in
    Py.max 0 kelly * kelly_fraction rm.

(** [calculate_position_size]; returns the size and the manager after the
    lazy ledger rollover. *)
Definition calculate_position_size (today : string) (rm : RiskManager)
    (signal : TradeSignal) (balance : Q) (cost_per_contract_cents : Z)
    : Z * RiskManager :=
  let rm := _reset_daily_if_needed today rm in
  if (cost_per_contract_cents <=? 0)%Z || Qle_bool balance 0 then (0%Z, rm)
  else
    let cost_per_contract := inject_Z cost_per_contract_cents / 100 in
    let payout := 1 in
    let profit_if_win := payout - cost_per_contract in
    if Qle_bool profit_if_win 0 then (0%Z, rm)
    else
      let odds := profit_if_win / cost_per_contract in
      let kelly_frac :=
        kelly_criterion rm (estimated_probability signal) odds in
      let kelly_amount := balance * kelly_frac in
      let max_from_kelly :=
        if Py.ltb 0 cost_per_contract
        then Py.int (kelly_amount / cost_per_contract) else 0%Z in
      let max_from_position := max_position_size rm in
      let max_from_cost :=
        if Py.ltb 0 cost_per_contract
        then Py.int (max_trade_cost rm / cost_per_contract) else 0%Z in
      let current_exposure := Py.sum_values (_open_positions rm) in
      let max_exposure :=
        balance * (max_portfolio_exposure_pct rm / 100) in
      let remaining_exposure := Py.max 0 (max_exposure - current_exposure) in
      let max_from_exposure :=
        if Py.ltb 0 cost_per_contract
        then Py.int (remaining_exposure / cost_per_contract) else 0%Z in
      let remaining_daily :=
        Py.max 0 (max_daily_loss rm
                  - Py.abs (Py.min 0 (total_pnl (_daily_pnl rm)))) in
      let max_from_daily :=
        if Py.ltb 0 cost_per_contract
        then Py.int (remaining_daily / cost_per_contract) else 0%Z in
      let size :=
        Z.min max_from_kelly
          (Z.min max_from_position
             (Z.min max_from_cost
                (Z.min max_from_exposure max_from_daily))) in
      let size := Z.max 0 size in
      (size, rm).

(** The reason returned by [validate_trade], with the numbers its message
    formats. *)
Inductive reason :=
| DailyLossLimitReached (pnl : Q)
| ConfidenceTooLow (confidence min_confidence : Q)
| ExpectedValueTooLow (ev min_ev : Q)
| InsufficientBalance
| ExposureLimitReached (current_exposure max_exposure : Q)
| TradeApproved.

(** The literal text each message starts with. *)
Definition reason_text (r : reason) : string :=
  match r with
  | DailyLossLimitReached _ => "Daily loss limit reached"
  | ConfidenceTooLow _ _ => "Confidence too low"
  | ExpectedValueTooLow _ _ => "Expected value too low"
  | InsufficientBalance => "Insufficient balance"
  | ExposureLimitReached _ _ => "Portfolio exposure limit reached"
  | TradeApproved => "Trade approved"
  end.

(** [validate_trade]. *)
Definition validate_trade (today : string) (rm : RiskManager)
    (signal : TradeSignal) (balance min_confidence min_ev : Q)
    : (bool * reason) * RiskManager :=
  let rm := _reset_daily_if_needed today rm in
  if Qle_bool (total_pnl (_daily_pnl rm)) (- max_daily_loss rm)
  then ((false, DailyLossLimitReached (total_pnl (_daily_pnl rm))), rm)
  else if Py.ltb (confidence signal) min_confidence
  then ((false, ConfidenceTooLow (confidence signal) min_confidence), rm)
  else if Py.ltb (expected_value signal) min_ev
  then ((false, ExpectedValueTooLow (expected_value signal) min_ev), rm)
  else if Qle_bool balance 0
  then ((false, InsufficientBalance), rm)
  else
    let current_exposure := Py.sum_values (_open_positions rm) in
    let max_exposure := balance * (max_portfolio_exposure_pct rm / 100) in
    if Qle_bool max_exposure current_exposure
    then ((false, ExposureLimitReached current_exposure max_exposure), rm)
    else ((true, TradeApproved), rm).

(** The cost per contract [build_order] derives from the signal. *)
Definition cost_cents_of (signal : TradeSignal) : Z :=
  match side signal with
  | YES =>
      Py.or_int (suggested_price signal)
        (Py.int (market_probability signal * 100))
  | NO =>
      Py.or_int (suggested_price signal)
        (Py.int ((1 - market_probability signal) * 100))
  end.

(** [build_order]. *)
Definition build_order (today : string) (rm : RiskManager)
    (signal : TradeSignal) (balance : Q)
    : option OrderRequest * RiskManager :=
  let cost_cents := cost_cents_of signal in
  if (cost_cents <=? 0)%Z || (100 <=? cost_cents)%Z then (None, rm)
  else
    let '(count, rm) :=
      calculate_position_size today rm signal balance cost_cents in
    if (count <=? 0)%Z then (None, rm)
    else
      (Some {| o_ticker := ticker signal;
               o_side := side signal;
               o_action := action signal;
               o_count := count;
               order_type := LIMIT;
               yes_price :=
                 if OrderSide_eqb (side signal) YES
                 then Some cost_cents else None;
               no_price :=
                 if OrderSide_eqb (side signal) NO
                 then Some cost_cents else None;
               client_order_id := "";
               time_in_force := "gtc";
               buy_max_cost := None;
               post_only := true |}, rm).

(** [record_trade]; [stamp] is the ISO time stored with the entry. *)
Definition record_trade (today stamp : string) (rm : RiskManager)
    (ticker : string) (cost_dollars pnl : Q) : RiskManager :=
  let rm := _reset_daily_if_needed today rm in
  let d := _daily_pnl rm in
  let d' :=
    {| date := date d;
       realized_pnl := realized_pnl d + pnl;
       unrealized_pnl := unrealized_pnl d;
       trades_count := (trades_count d + 1)%Z;
       wins := if Py.ltb 0 pnl then (wins d + 1)%Z else wins d;
       losses :=
         if Py.ltb 0 pnl then losses d
         else if Py.ltb pnl 0 then (losses d + 1)%Z else losses d |} in
  let entry :=
    {| t_ticker := ticker; t_cost := cost_dollars; t_pnl := pnl;
       t_time := stamp |} in
  let rm := set_ledger rm d' (_trades_today rm ++ [entry]) in
  set_positions rm
    (<[ticker := default 0 (_open_positions rm !! ticker) + cost_dollars]>
       (_open_positions rm)).

(** [update_position]. *)
Definition update_position (rm : RiskManager) (ticker : string)
    (exposure_dollars : Q) : RiskManager :=
  if Qle_bool exposure_dollars 0
  then set_positions rm (delete ticker (_open_positions rm))
  else set_positions rm (<[ticker := exposure_dollars]> (_open_positions rm)).

(** The dictionary returned by [get_daily_summary]. *)
Record summary := {
  s_date : string;
  s_realized_pnl : Q;
  s_trades_count : Z;
  s_win_rate : Q;
  s_total_exposure : Q;
  s_open_positions : Z;
  s_remaining_daily_loss_budget : Q
}.

(** [get_daily_summary]. *)
Definition get_daily_summary (today : string) (rm : RiskManager)
    : summary * RiskManager :=
  let rm := _reset_daily_if_needed today rm in
  ({| s_date := date (_daily_pnl rm);
      s_realized_pnl := realized_pnl (_daily_pnl rm);
      s_trades_count := trades_count (_daily_pnl rm);
      s_win_rate := win_rate (_daily_pnl rm);
      s_total_exposure := Py.sum_values (_open_positions rm);
      s_open_positions := Z.of_nat (size (_open_positions rm));
      s_remaining_daily_loss_budget :=
        max_daily_loss rm + total_pnl (_daily_pnl rm) |}, rm).

(** A call of one public operation of the manager. *)
Inductive op :=
| KellyCriterion (probability odds_decimal : Q)
| CalculatePositionSize (signal : TradeSignal) (balance : Q) (cents : Z)
| ValidateTrade (signal : TradeSignal) (balance min_confidence min_ev : Q)
| BuildOrder (signal : TradeSignal) (balance : Q)
| RecordTrade (ticker : string) (cost_dollars pnl : Q) (stamp : string)
| UpdatePosition (ticker : string) (exposure_dollars : Q)
| GetDailySummary.

(** The manager after a call made on the UTC date [today]. *)
Definition step (rm : RiskManager) (c : string * op) : RiskManager :=
  let today := fst c in
  match snd c with
  | KellyCriterion _ _ => rm
  | CalculatePositionSize s b cents =>
      snd (calculate_position_size today rm s b cents)
  | ValidateTrade s b mc me => snd (validate_trade today rm s b mc me)
  | BuildOrder s b => snd (build_order today rm s b)
  | RecordTrade t c p stamp => record_trade today stamp rm t c p
  | UpdatePosition t e => update_position rm t e
  | GetDailySummary => snd (get_daily_summary today rm)
  end.

(** The manager after a sequence of dated calls. *)
Definition run (calls : list (string * op)) (rm : RiskManager)
    : RiskManager :=
  fold_left step calls rm.

End Risk.

(** ** Exceptions and results of effectful calls *)

Module Exn.
Import Models.

Inductive exn :=
| KalshiAPIError (status_code : Z) (message : jvalue)
    (response_body : gmap string jvalue)
| ConnectionError (msg : string)
| Timeout (msg : string)
| JSONDecodeError
| ZeroDivisionError
| ValueError
| OverflowError
| AttributeError
| OtherError (msg : string).

(** The outcome of a call: a value, a raised exception, or no outcome
    within the fuel given to an unbounded loop. *)
Inductive res (A : Type) :=
| Ret (a : A)
| Raise (e : exn)
| Diverge.
Arguments Ret {A} a.
Arguments Raise {A} e.
Arguments Diverge {A}.

(** [except KalshiAPIError]. *)
Definition is_api_error (e : exn) : bool :=
  match e with KalshiAPIError _ _ _ => true | _ => false end.

(** [except (requests.ConnectionError, requests.Timeout)]. *)
Definition is_transport_error (e : exn) : bool :=
  match e with ConnectionError _ | Timeout _ => true | _ => false end.

End Exn.

(** ** [src/api/auth.py] *)

Module Auth.

(** [path.split("?")[0]]. *)
Fixpoint path_without_query (path : string) : string :=
  match path with
  | EmptyString => EmptyString
  | String c rest =>
      if Ascii.eqb c "?"%char then EmptyString
      else String c (path_without_query rest)
  end.

Definition upper_char (c : ascii) : ascii :=
  let n := Ascii.nat_of_ascii c in
  if (Nat.leb 97 n && Nat.leb n 122)%bool
  then Ascii.ascii_of_nat (n - 32) else c.

(** [str.upper] on ASCII text. *)
Fixpoint upper (s : string) : string :=
  match s with
  | EmptyString => EmptyString
  | String c rest => String (upper_char c) (upper rest)
  end.

Section Signing.

(** The base64 text of the RSA-PSS signature of a message under a key,
    for the salt drawn at that call: the salt makes two signatures of
    one message differ. *)
Variable rsa_pss_sign : string -> string -> nat -> string.

(** [sign_request]. *)
Definition sign_request (private_key : string)
    (timestamp_ms method path : string) (salt : nat) : string :=
  let message := timestamp_ms +:+ method +:+ path_without_query path in
  rsa_pss_sign private_key message salt.

(** [get_auth_headers], with [now] the reading of [time.time()]. *)
Definition get_auth_headers (api_key private_key method path : string)
    (now : Q) (salt : nat) : gmap string string :=
  let timestamp_ms := pretty (Py.int (now * 1000)) in
  let signature :=
    sign_request private_key timestamp_ms (upper method) path salt in
  <["Content-Type" := "application/json"]>
  (<["KALSHI-ACCESS-TIMESTAMP" := timestamp_ms]>
  (<["KALSHI-ACCESS-SIGNATURE" := signature]>
  (<["KALSHI-ACCESS-KEY" := api_key]> ∅))).

End Signing.

End Auth.

(** ** [src/api/client.py] *)

Module Client.
Import Models Exn.

(** A JSON document as [response.json()] returns it: a [dict] for an
    object, and a [list], a scalar or [None] otherwise, none of which has
    a [get] method. *)
Inductive json_doc :=
| JObject (fields : gmap string jvalue)
| JArray (items : list jvalue)
| JScalar (v : jvalue)
| JNull.

(** The UTF-8 bytes of a code point, and of a Python [str] given as its
    code points. *)
Definition utf8_char (c : N) : string :=
  let byte (n : N) := String (Ascii.ascii_of_N n) EmptyString in
  if (c <? 128)%N then byte c
  else if (c <? 2048)%N then
    byte (192 + c / 64)%N +:+ byte (128 + c mod 64)%N
  else if (c <? 65536)%N then
    byte (224 + c / 4096)%N +:+ byte (128 + (c / 64) mod 64)%N
    +:+ byte (128 + c mod 64)%N
  else
    byte (240 + c / 262144)%N +:+ byte (128 + (c / 4096) mod 64)%N
    +:+ byte (128 + (c / 64) mod 64)%N +:+ byte (128 + c mod 64)%N.

Definition utf8 (s : list N) : string :=
  foldr (fun c rest => utf8_char c +:+ rest) EmptyString s.

Record response := {
  status_code : Z;
  (** [response.json()]: [None] when the body is not JSON. *)
  json : option json_doc;
  (** [response.text], a Python [str]: its code points. *)
  text : list N
}.

(** What [session.request] does on one call, and the seconds the call
    takes: it answers, or it raises (a timeout after its 30 seconds). *)
Inductive net_outcome :=
| Responded (r : response) (elapsed : Q)
| Failed (e : exn) (elapsed : Q).

Definition elapsed_of (o : net_outcome) : Q :=
  match o with
  | Responded _ t => t
  | Failed _ t => t
  end.

Inductive event :=
| Slept (d : Q)
| Sent (at_time : Q) (method url : string)
    (params json_body : option (gmap string jvalue))
    (headers : gmap string string).

(** The world the client runs in: the clock in seconds, how many requests
    were sent and how many signature salts were drawn so far, and the log
    of what happened, newest first. *)
Record world := {
  clock : Q;
  requests_made : nat;
  salts_drawn : nat;
  log : list event
}.

(** The log in the order things happened. *)
Definition history (w : world) : list event := rev (log w).

(** [time.sleep(d)]: a negative duration raises [ValueError]. *)
Definition sleep (d : Q) (w : world) : res unit * world :=
  if Py.ltb d 0 then (Raise ValueError, w)
  else (Ret tt,
        {| clock := clock w + d;
           requests_made := requests_made w;
           salts_drawn := salts_drawn w;
           log := Slept d :: log w |}).

Record RateLimiter := {
  max_per_second : Z;
  tokens : Q;
  last_refill : Q
}.

(** [RateLimiter.__init__]. *)
Definition RateLimiter_init (max_per_second : Z) (w : world) : RateLimiter :=
  {| max_per_second := max_per_second;
     tokens := inject_Z max_per_second;
     last_refill := clock w |}.

(** [RateLimiter.acquire]; [fuel] bounds the iterations of [while True]. *)
Fixpoint acquire (fuel : nat) (b : RateLimiter) (w : world)
    : res unit * RateLimiter * world :=
  match fuel with
  | O => (Diverge, b, w)
  | S fuel' =>
      let now := clock w in
      let elapsed := now - last_refill b in
      let refilled :=
        Py.min (inject_Z (max_per_second b))
               (tokens b + elapsed * inject_Z (max_per_second b)) in
      let b1 :=
        {| max_per_second := max_per_second b;
           tokens := refilled;
           last_refill := now |} in
      if Qle_bool 1 (tokens b1)
      then (Ret tt,
            {| max_per_second := max_per_second b1;
               tokens := tokens b1 - 1;
               last_refill := last_refill b1 |}, w)
      else if (max_per_second b1 =? 0)%Z
      then (Raise ZeroDivisionError, b1, w)
      else
        let sleep_time := (1 - tokens b1) / inject_Z (max_per_second b1) in
        match sleep sleep_time w with
        | (Ret _, w1) => acquire fuel' b1 w1
        | (Raise e, w1) => (Raise e, b1, w1)
        | (Diverge, w1) => (Diverge, b1, w1)
        end
  end.

Record KalshiClient := {
  api_key : string;
  private_key : option string;
  base_url : string;
  _read_limiter : RateLimiter;
  _write_limiter : RateLimiter;
  _max_retries : nat;
  _base_backoff : Q
}.

(** [KalshiClient.__init__], given the key material already loaded and a
    base URL without trailing slash. *)
Definition KalshiClient_init (api_key : string) (private_key : option string)
    (base_url : string) (read_rate write_rate : Z) (w : world)
    : KalshiClient :=
  {| api_key := api_key;
     private_key := private_key;
     base_url := base_url;
     _read_limiter := RateLimiter_init read_rate w;
     _write_limiter := RateLimiter_init write_rate w;
     _max_retries := 3;
     _base_backoff := 0.5 |}.

Definition set_limiter (c : KalshiClient) (write : bool) (b : RateLimiter)
    : KalshiClient :=
  {| api_key := api_key c;
     private_key := private_key c;
     base_url := base_url c;
     _read_limiter := if write then _read_limiter c else b;
     _write_limiter := if write then b else _write_limiter c;
     _max_retries := _max_retries c;
     _base_backoff := _base_backoff c |}.

Definition is_write (method : string) : bool :=
  existsb (String.eqb (Auth.upper method)) ["POST"; "PUT"; "DELETE"; "PATCH"].

(** What the branch for a status code of 400 or more, other than 429,
    raises.  [body] is [{}] unless [response.json()] returns; the message
    is [body.get("message", response.text[:200])], the slice counting code
    points, and a body that is JSON but no object has no [get]. *)
Definition api_error_of (r : response) : exn :=
  let text_200 := JStr (utf8 (take 200 (text r))) in
  match json r with
  | None => KalshiAPIError (status_code r) text_200 ∅
  | Some (JObject body) =>
      KalshiAPIError (status_code r) (default text_200 (body !! "message"))
        body
  | Some (JArray _) | Some (JScalar _) | Some JNull => AttributeError
  end.

Section Transport.

Variable rsa_pss_sign : string -> string -> nat -> string.

(** The network: the outcome of the [n]-th call of [session.request]. *)
Variable net : nat -> net_outcome.

(** [session.request(...)] with the given headers: the request is sent at
    the present reading of the clock, and the call comes back after the time
    the exchange takes. *)
Definition session_request (method url : string)
    (params json_body : option (gmap string jvalue))
    (headers : gmap string string) (w : world) : net_outcome * world :=
  (net (requests_made w),
   {| clock := clock w + elapsed_of (net (requests_made w));
      requests_made := S (requests_made w);
      salts_drawn := salts_drawn w;
      log := Sent (clock w) method url params json_body headers :: log w |}).

(** The retry loop of [_request]: [remaining] attempts are left of
    [range(self._max_retries)] and [attempt] is the loop variable. *)
Fixpoint attempts (c : KalshiClient) (method url : string)
    (params json_body : option (gmap string jvalue))
    (headers : gmap string string)
    (remaining attempt : nat) (last_exception : option exn) (w : world)
    : res json_doc * world :=
  match remaining with
  | O =>
      (Raise (default
                (KalshiAPIError 0 (JStr "Max retries exceeded") ∅)
                last_exception), w)
  | S remaining' =>
      let '(o, w1) :=
        session_request (Auth.upper method) url params json_body
          headers w in
      let wait := _base_backoff c * 2 ^ Z.of_nat attempt in
      match o with
      | Responded r _ =>
          if (status_code r =? 429)%Z then
            match sleep wait w1 with
            | (Ret _, w2) =>
                attempts c method url params json_body headers
                  remaining' (S attempt) last_exception w2
            | (Raise e, w2) => (Raise e, w2)
            | (Diverge, w2) => (Diverge, w2)
            end
          else if (400 <=? status_code r)%Z then
            (Raise (api_error_of r), w1)
          else if (status_code r =? 204)%Z then (Ret (JObject ∅), w1)
          else
            match json r with
            | Some d => (Ret d, w1)
            | None => (Raise JSONDecodeError, w1)
            end
      | Failed e _ =>
          if is_transport_error e then
            match sleep wait w1 with
            | (Ret _, w2) =>
                attempts c method url params json_body headers
                  remaining' (S attempt) (Some e) w2
            | (Raise e', w2) => (Raise e', w2)
            | (Diverge, w2) => (Diverge, w2)
            end
          else (Raise e, w1)
      end
  end.

(** The headers [_request] builds, once, before its retry loop. *)
Definition build_headers (c : KalshiClient) (method path : string)
    (authenticated : bool) (w : world) : gmap string string * world :=
  match authenticated, private_key c with
  | true, Some key =>
      let api_path := "/trade-api/v2" +:+ path in
      (Auth.get_auth_headers rsa_pss_sign (api_key c) key
         (Auth.upper method) api_path (clock w) (salts_drawn w),
       {| clock := clock w;
          requests_made := requests_made w;
          salts_drawn := S (salts_drawn w);
          log := log w |})
  | _, _ => (<["Content-Type" := "application/json"]> ∅, w)
  end.

(** [KalshiClient._request]. *)
Definition _request (fuel : nat) (c : KalshiClient) (method path : string)
    (params json_body : option (gmap string jvalue))
    (authenticated : bool) (w : world)
    : res json_doc * KalshiClient * world :=
  let url := base_url c +:+ path in
  let write := is_write method in
  let '(r, b, w) :=
    acquire fuel (if write then _write_limiter c else _read_limiter c) w in
  let c := set_limiter c write b in
  match r with
  | Ret _ =>
      let '(headers, w) := build_headers c method path authenticated w in
      let '(r, w) :=
        attempts c method url params json_body headers
          (_max_retries c) 0 None w in
      (r, c, w)
  | Raise e => (Raise e, c, w)
  | Diverge => (Diverge, c, w)
  end.

End Transport.

End Client.

(** ** [main.py]: one trading cycle *)

Module Main.
Import Models Exn Risk.

(** The fields of [Settings] the cycle reads. *)
Record Settings := {
  min_confidence : Q;
  min_expected_value : Q;
  dry_run : bool
}.

(** What the collaborators of one cycle do: the exchange-status call, the
    successive balance calls, each strategy's [run()], the successive
    [create_order] calls, and the clock readings of the risk manager. *)
Record cycle_env := {
  today : string;
  stamp : string;
  exchange_status : res (gmap string jvalue);
  balances : nat -> res Q;
  strategy_runs : list (option (list TradeSignal));
  order_results : nat -> res unit
}.

(** Truth value of [status.get(key, False)]. *)
Definition truthy (o : option jvalue) : bool :=
  match o with
  | Some (JBool b) => b
  | Some (JInt n) => negb (n =? 0)%Z
  | Some (JStr s) => nonempty s
  | None => false
  end.

Inductive event :=
| GotExchangeStatus
| GotBalance
| RanStrategy (outcome : option (list TradeSignal))
| LoggedSignal (s : TradeSignal)
| Validated (s : TradeSignal) (balance : Q)
| BuiltOrder (s : TradeSignal) (balance : Q)
| CreatedOrder (o : OrderRequest)
| RecordedTrade (ticker : string) (cost : Q).

(** The events that are calls of a [RiskManager] operation. *)
Definition calls_risk_manager (e : event) : bool :=
  match e with
  | Validated _ _ | BuiltOrder _ _ | RecordedTrade _ _ => true
  | _ => false
  end.

(** The events that handle a signal. *)
Definition handles_signal (e : event) : bool :=
  match e with
  | GotExchangeStatus | GotBalance | RanStrategy _ => false
  | _ => true
  end.

Record cycle_state := {
  rm : RiskManager;
  balance : Q;
  trades_executed : Z;
  balance_calls : nat;
  order_calls : nat;
  events : list event
}.

Definition emit (e : event) (st : cycle_state) : cycle_state :=
  {| rm := rm st; balance := balance st;
     trades_executed := trades_executed st;
     balance_calls := balance_calls st; order_calls := order_calls st;
     events := e :: events st |}.

Definition set_rm (r : RiskManager) (st : cycle_state) : cycle_state :=
  {| rm := r; balance := balance st;
     trades_executed := trades_executed st;
     balance_calls := balance_calls st; order_calls := order_calls st;
     events := events st |}.

Definition count_trade (st : cycle_state) : cycle_state :=
  {| rm := rm st; balance := balance st;
     trades_executed := (trades_executed st + 1)%Z;
     balance_calls := balance_calls st; order_calls := order_calls st;
     events := events st |}.

(** [client.get_balance()]. *)
Definition get_balance (env : cycle_env) (st : cycle_state)
    : res Q * cycle_state :=
  (balances env (balance_calls st),
   {| rm := rm st; balance := balance st;
      trades_executed := trades_executed st;
      balance_calls := S (balance_calls st); order_calls := order_calls st;
      events := GotBalance :: events st |}).

Definition set_balance (b : Q) (st : cycle_state) : cycle_state :=
  {| rm := rm st; balance := b;
     trades_executed := trades_executed st;
     balance_calls := balance_calls st; order_calls := order_calls st;
     events := events st |}.

(** [client.create_order(order)]. *)
Definition create_order (env : cycle_env) (o : OrderRequest)
    (st : cycle_state) : res unit * cycle_state :=
  (order_results env (order_calls st),
   {| rm := rm st; balance := balance st;
      trades_executed := trades_executed st;
      balance_calls := balance_calls st; order_calls := S (order_calls st);
      events := CreatedOrder o :: events st |}).

(** [all_signals.sort(key=lambda s: s.expected_value, reverse=True)]:
    a stable sort, largest expected value first. *)
Fixpoint insert_signal (s : TradeSignal) (l : list TradeSignal)
    : list TradeSignal :=
  match l with
  | [] => [s]
  | y :: l' =>
      if Py.ltb (expected_value s) (expected_value y)
      then y :: insert_signal s l'
      else s :: l
  end.

Definition sort_signals (l : list TradeSignal) : list TradeSignal :=
  foldr insert_signal [] l.

(** The live-trading branch for one built order. *)
Definition place_order (env : cycle_env) (order : OrderRequest)
    (st : cycle_state) : res unit * cycle_state :=
  match create_order env order st with
  | (Ret _, st) =>
      let cost :=
        inject_Z
          (Py.or_int (yes_price order) (Py.or_int (no_price order) 0)
           * o_count order) / 100 in
      let st :=
        emit (RecordedTrade (o_ticker order) cost)
          (set_rm (record_trade (today env) (stamp env) (rm st)
                     (o_ticker order) cost 0) st) in
      let st := count_trade st in
      match get_balance env st with
      | (Ret b, st) => (Ret tt, set_balance b st)
      | (Raise e, st) =>
          if is_api_error e then (Ret tt, st) else (Raise e, st)
      | (Diverge, st) => (Diverge, st)
      end
  | (Raise e, st) => if is_api_error e then (Ret tt, st) else (Raise e, st)
  | (Diverge, st) => (Diverge, st)
  end.

(** The body of the loop over the sorted signals. *)
Definition process_signal (env : cycle_env) (settings : Settings)
    (scan_only : bool) (signal : TradeSignal) (st : cycle_state)
    : res unit * cycle_state :=
  let st := emit (LoggedSignal signal) st in
  if scan_only then (Ret tt, count_trade st)
  else
    let '((is_valid, _), rm1) :=
      validate_trade (today env) (rm st) signal (balance st)
        (min_confidence settings) (min_expected_value settings) in
    let st := emit (Validated signal (balance st)) (set_rm rm1 st) in
    if negb is_valid then (Ret tt, st)
    else
      let '(order, rm2) :=
        build_order (today env) (rm st) signal (balance st) in
      let st := emit (BuiltOrder signal (balance st)) (set_rm rm2 st) in
      match order with
      | None => (Ret tt, st)
      | Some order =>
          if dry_run settings then (Ret tt, count_trade st)
          else place_order env order st
      end.

Fixpoint process_signals (env : cycle_env) (settings : Settings)
    (scan_only : bool) (signals : list TradeSignal) (st : cycle_state)
    : res unit * cycle_state :=
  match signals with
  | [] => (Ret tt, st)
  | s :: rest =>
      match process_signal env settings scan_only s st with
      | (Ret _, st) => process_signals env settings scan_only rest st
      | (Raise e, st) => (Raise e, st)
      | (Diverge, st) => (Diverge, st)
      end
  end.

(** Step 3: run every strategy, keeping the signals of those that
    return; a strategy that raises ([None]) is logged and skipped. *)
Fixpoint collect_signals (runs : list (option (list TradeSignal)))
    (st : cycle_state) : list TradeSignal * cycle_state :=
  match runs with
  | [] => ([], st)
  | r :: rest =>
      let st := emit (RanStrategy r) st in
      let '(more, st) := collect_signals rest st in
      (match r with Some l => l ++ more | None => more end, st)
  end.

(** Steps 2 to 5 of the cycle, once the status check lets it go on. *)
Definition after_status (env : cycle_env) (settings : Settings)
    (scan_only : bool) (st : cycle_state) : res Z * cycle_state :=
  let st := set_balance 0 st in
  let '(r, st) := get_balance env st in
  match
    match r with
    | Ret b => Ret (scan_only, set_balance b st)
    | Raise e =>
        if is_api_error e then Ret (true, st) else Raise e
    | Diverge => Diverge
    end
  with
  | Ret (scan_only, st) =>
      match collect_signals (strategy_runs env) st with
      | ([], st) => (Ret 0%Z, st)
      | (all_signals, st) =>
          match
            process_signals env settings scan_only
              (sort_signals all_signals) st
          with
          | (Ret _, st) => (Ret (trades_executed st), st)
          | (Raise e, st) => (Raise e, st)
          | (Diverge, st) => (Diverge, st)
          end
      end
  | Raise e => (Raise e, st)
  | Diverge => (Diverge, st)
  end.

Definition initial_state (r : RiskManager) : cycle_state :=
  {| rm := r; balance := 0; trades_executed := 0;
     balance_calls := 0; order_calls := 0; events := [] |}.

(** [run_trading_cycle]. *)
Definition run_trading_cycle (env : cycle_env) (settings : Settings)
    (risk_manager : RiskManager) (scan_only : bool)
    : res Z * cycle_state :=
  let st := emit GotExchangeStatus (initial_state risk_manager) in
  match exchange_status env with
  | Ret status =>
      let trading_active := truthy (status !! "trading_active") in
      let exchange_active := truthy (status !! "exchange_active") in
      if negb exchange_active then (Ret 0%Z, st)
      else if negb trading_active then
        after_status env settings
          (if negb scan_only then true else scan_only) st
      else after_status env settings scan_only st
  | Raise e =>
      if is_api_error e then after_status env settings scan_only st
      else (Raise e, st)
  | Diverge => (Diverge, st)
  end.

(** The scheduling loop of [main] over the cycles that fall inside the
    trading hours: every cycle is called with the command-line flag, and
    a failed cycle is logged and followed by the next one. *)
Fixpoint run_cycles (envs : list cycle_env) (settings : Settings)
    (risk_manager : RiskManager) (args_scan_only : bool)
    : list (res Z * list event) * RiskManager :=
  match envs with
  | [] => ([], risk_manager)
  | env :: rest =>
      let '(r, st) :=
        run_trading_cycle env settings risk_manager args_scan_only in
      let rm1 :=
        match r with
        | Ret _ => snd (get_daily_summary (today env) (rm st))
        | _ => rm st
        end in
      let '(out, rm2) := run_cycles rest settings rm1 args_scan_only in
      ((r, rev (events st)) :: out, rm2)
  end.

End Main.

(** ** Definitions used to state the properties *)

Module Props.
Import Models Exn Risk.

(** [sub in s] on strings. *)
Fixpoint contains (sub s : string) : bool :=
  match s with
  | EmptyString => String.prefix sub EmptyString
  | String _ rest => String.prefix sub s || contains sub rest
  end.

(** The states of a risk manager a program can reach: a freshly
    constructed one, and any state a public operation leaves behind. *)
Inductive reachable : RiskManager -> Prop :=
| reachable_init (today : string) (mdl : Q) (mps : Z) (mtc mpe kf : Q) :
    reachable (__init__ today mdl mps mtc mpe kf)
| reachable_step (rm : RiskManager) (call : string * op) :
    reachable rm -> reachable (step rm call).

(** The operations that begin with [_reset_daily_if_needed]. *)
Definition rolls_ledger (o : op) : bool :=
  match o with
  | CalculatePositionSize _ _ _ | ValidateTrade _ _ _ _
  | RecordTrade _ _ _ _ | GetDailySummary => true
  | KellyCriterion _ _ | BuildOrder _ _ | UpdatePosition _ _ => false
  end.

(** The position size in the specification's words, for a manager whose
    ledger is rolled over to today and a cost per contract [cpc] in
    dollars: the least of five upper bounds, never below 0. *)
Section SizeSpec.

Variables (rm : RiskManager) (signal : TradeSignal) (balance cpc : Q).

(** a. The contract count the Kelly fraction implies, at odds
    [(1 - cpc) / cpc] for a payout of 1.00. *)
Definition kelly_bound : Z :=
  Qfloor (balance
          * kelly_criterion rm (estimated_probability signal)
              ((1 - cpc) / cpc)
          / cpc).

(** b. The configured largest position. *)
Definition position_bound : Z := max_position_size rm.

(** c. What the largest trade cost buys. *)
Definition cost_bound : Z := Qfloor (max_trade_cost rm / cpc).

(** d. What the exposure headroom, floored at 0, buys. *)
Definition exposure_bound : Z :=
  Qfloor (Qmax 0 (balance * (max_portfolio_exposure_pct rm / 100)
                  - Py.sum_values (_open_positions rm))
          / cpc).

(** e. What the rest of the daily loss budget buys. *)
Definition daily_bound : Z :=
  Qfloor ((max_daily_loss rm - Qmax 0 (- total_pnl (_daily_pnl rm))) / cpc).

Definition size_spec : Z :=
  Z.max 0
    (Z.min kelly_bound
       (Z.min position_bound
          (Z.min cost_bound (Z.min exposure_bound daily_bound)))).

End SizeSpec.

(** The manager of the test suite after two losing trades on one day. *)
Definition two_losses (day : string) : RiskManager :=
  run [(day, RecordTrade "T1" 10 (-10) "t1");
       (day, RecordTrade "T2" 10 (-10) "t2")]
      (__init__ day 50 100 25 20 0.5).

(** The tokens of a bucket lie between 0 and its capacity. *)
Definition bucket_ok (b : Client.RateLimiter) : Prop :=
  0 <= Client.tokens b <= inject_Z (Client.max_per_second b).

(** The tokens after the refill that opens an iteration of [acquire]. *)
Definition refilled (b : Client.RateLimiter) (w : Client.world) : Q :=
  Py.min (inject_Z (Client.max_per_second b))
    (Client.tokens b
     + (Client.clock w - Client.last_refill b)
       * inject_Z (Client.max_per_second b)).

(** [n] calls of [acquire] in a row, with no time passing between them. *)
Fixpoint acquire_many (fuel n : nat) (b : Client.RateLimiter)
    (w : Client.world) : res unit * Client.RateLimiter * Client.world :=
  match n with
  | O => (Ret tt, b, w)
  | S n' =>
      match Client.acquire fuel b w with
      | (Ret _, b1, w1) => acquire_many fuel n' b1 w1
      | other => other
      end
  end.

(** *** Transport *)

(** A network that answers with the outcomes of [l], in order. *)
Definition script (l : list Client.net_outcome) (n : nat)
    : Client.net_outcome :=
  nth n l (Client.Failed (OtherError "no more responses") 0).

(** A response with the given status code and an empty JSON object, that
    comes at once. *)
Definition resp (code : Z) : Client.net_outcome :=
  Client.Responded
    {| Client.status_code := code; Client.json := Some (Client.JObject ∅);
       Client.text := [] |} 0.

(** A server error whose body is the JSON array [[]], after a fifth of a
    second. *)
Definition server_error_list : Client.net_outcome :=
  Client.Responded
    {| Client.status_code := 500; Client.json := Some (Client.JArray []);
       Client.text := [91; 93]%N |} 0.2.

(** A 503 answer whose body is the text [café], not JSON. *)
Definition server_error_text : Client.net_outcome :=
  Client.Responded
    {| Client.status_code := 503; Client.json := None;
       Client.text := [99; 97; 102; 233]%N |} 0.1.

(** A network on which every request times out after 30 seconds. *)
Definition three_timeouts : nat -> Client.net_outcome :=
  script [Client.Failed (Timeout "read timed out") 30;
          Client.Failed (Timeout "read timed out") 30;
          Client.Failed (Timeout "read timed out") 30].

(** The time the [n] calls of [session.request] numbered from [first]
    take. *)
Fixpoint total_elapsed (net : nat -> Client.net_outcome) (first n : nat)
    : Q :=
  match n with
  | O => 0
  | S n' => Client.elapsed_of (net first) + total_elapsed net (S first) n'
  end.

(** A stand-in for the signature primitive, injective in the message and
    in the salt. *)
Definition toy_sign (key message : string) (salt : nat) : string :=
  key +:+ "|" +:+ message +:+ "|" +:+ pretty salt.

(** The event is not a request, or it is one sent with headers [h]. *)
Definition sent_with (h : gmap string string) (e : Client.event) : Prop :=
  match e with
  | Client.Sent _ _ _ _ _ h' => h' = h
  | Client.Slept _ => True
  end.

(** The event is not a request, or its timestamp header is the clock
    reading at the moment it was sent. *)
Definition fresh_timestamp (e : Client.event) : bool :=
  match e with
  | Client.Sent at_time _ _ _ _ h =>
      match h !! "KALSHI-ACCESS-TIMESTAMP" with
      | Some t => String.eqb t (pretty (Py.int (at_time * 1000)))
      | None => false
      end
  | Client.Slept _ => true
  end.

(** Every request of the log carries the timestamp of the moment it was
    sent: the headers were rebuilt for each attempt. *)
Definition signed_per_attempt (w : Client.world) : Prop :=
  forallb fresh_timestamp (Client.log w) = true.

(** The time slept according to a log. *)
Fixpoint total_slept (l : list Client.event) : Q :=
  match l with
  | [] => 0
  | Client.Slept d :: l' => d + total_slept l'
  | Client.Sent _ _ _ _ _ _ :: l' => total_slept l'
  end.

(** The number of requests in a log. *)
Fixpoint count_sent (l : list Client.event) : nat :=
  match l with
  | [] => 0%nat
  | Client.Slept _ :: l' => count_sent l'
  | Client.Sent _ _ _ _ _ _ :: l' => S (count_sent l')
  end.

(** The world after one [session.request] of the retry loop. *)
Definition sent_request (net : nat -> Client.net_outcome)
    (method url : string) (params json_body : option (gmap string jvalue))
    (headers : gmap string string) (w : Client.world) : Client.world :=
  snd (Client.session_request net (Auth.upper method) url params json_body
         headers w).

(** The world after a sleep of [d] seconds. *)
Definition slept (d : Q) (w : Client.world) : Client.world :=
  {| Client.clock := Client.clock w + d;
     Client.requests_made := Client.requests_made w;
     Client.salts_drawn := Client.salts_drawn w;
     Client.log := Client.Slept d :: Client.log w |}.

(** The back-off after the attempt numbered [attempt], counted from 0. *)
Definition backoff (c : Client.KalshiClient) (attempt : nat) : Q :=
  Client._base_backoff c * 2 ^ Z.of_nat attempt.

Definition world0 : Client.world :=
  {| Client.clock := 0; Client.requests_made := 0; Client.salts_drawn := 0;
     Client.log := [] |}.

(** A client as [KalshiClient.__init__] builds it, with a key. *)
Definition client0 : Client.KalshiClient :=
  Client.KalshiClient_init "key-id" (Some "pem")
    "https://demo-api.kalshi.co/trade-api/v2" 20 10 world0.

(** *** Trading cycle *)

(** The signals of the strategies that returned, in strategy order. *)
Fixpoint signals_of (runs : list (option (list TradeSignal)))
    : list TradeSignal :=
  match runs with
  | [] => []
  | Some l :: rest => l ++ signals_of rest
  | None :: rest => signals_of rest
  end.

(** The cycle gets past its status check: the exchange is active, or the
    status call failed with an API error. *)
Definition status_lets_through (env : Main.cycle_env) : Prop :=
  (exists status, Main.exchange_status env = Ret status
     /\ Main.truthy (status !! "exchange_active") = true)
  \/ (exists e, Main.exchange_status env = Raise e
       /\ is_api_error e = true).

(** The first balance call returns, or fails with an API error. *)
Definition balance_survivable (env : Main.cycle_env) : Prop :=
  (exists b, Main.balances env 0%nat = Ret b)
  \/ (exists e, Main.balances env 0%nat = Raise e /\ is_api_error e = true).

Definition yes_signal (name : string) (ev : Q) : TradeSignal :=
  {| ticker := name; side := YES; action := BUY; confidence := 0.8;
     estimated_probability := 0.7; market_probability := 0.5;
     expected_value := ev; strategy_name := "Test"; reasoning := "Test";
     suggested_price := None; suggested_count := None |}.

(** A cycle with two signals, one failing strategy, a balance of 1000 and
    the given exchange status. *)
Definition env_with (exchange_active trading_active : bool)
    : Main.cycle_env :=
  {| Main.today := "2026-02-11";
     Main.stamp := "2026-02-11T15:00:00+00:00";
     Main.exchange_status :=
       Ret (<["trading_active" := JBool trading_active]>
            (<["exchange_active" := JBool exchange_active]> ∅));
     Main.balances := fun _ => Ret 1000;
     Main.strategy_runs :=
       [Some [yes_signal "A" 0.1]; None; Some [yes_signal "B" 0.2]];
     Main.order_results := fun _ => Ret tt |}.

Definition settings0 : Main.Settings :=
  {| Main.min_confidence := 0.55; Main.min_expected_value := 0.05;
     Main.dry_run := true |}.

Definition manager0 : RiskManager :=
  __init__ "2026-02-11" 50 100 25 20 0.5.

(** A cycle degrades to scan-only when its balance call fails, whatever
    the failure: it still returns, having counted every signal, with the
    risk manager untouched. *)
Definition scan_only_on_balance_failure (env : Main.cycle_env)
    (settings : Main.Settings) (risk_manager : RiskManager)
    (scan_only : bool) : Prop :=
  status_lets_through env ->
  (exists e, Main.balances env 0%nat = Raise e) ->
  exists st,
    Main.run_trading_cycle env settings risk_manager scan_only
    = (Ret (Z.of_nat (length (signals_of (Main.strategy_runs env)))), st)
    /\ Main.rm st = risk_manager.

(** The open-exchange cycle of [env_with], with a balance call that ends in
    a connection error, as [_request] raises it once its retries are
    used up. *)
Definition env_balance_down : Main.cycle_env :=
  {| Main.today := Main.today (env_with true true);
     Main.stamp := Main.stamp (env_with true true);
     Main.exchange_status := Main.exchange_status (env_with true true);
     Main.balances := fun _ => Raise (ConnectionError "connection refused");
     Main.strategy_runs := Main.strategy_runs (env_with true true);
     Main.order_results := Main.order_results (env_with true true) |}.

End Props.

(** ** [src/utils/helpers.py] *)

Module Helpers.

(** [round(x)] on a float: to the nearest integer, a tie going to the even
    one. *)
Definition round (x : Q) : Z :=
  let f := Qfloor x in
  let r := x - inject_Z f in
  if Py.ltb r (1 # 2) then f
  else if Py.ltb (1 # 2) r then (f + 1)%Z
  else if Z.even f then f else (f + 1)%Z.

(** [cents_to_dollars]. *)
Definition cents_to_dollars (cents : Z) : Q := inject_Z cents / 100.

(** [dollars_to_cents]. *)
Definition dollars_to_cents (dollars : Q) : Z := round (dollars * 100).

End Helpers.

(** ** [src/api/models.py]: market snapshots *)

Module MarketModel.

Record Market := {
  ticker : string;
  event_ticker : string;
  title : string;
  subtitle : string;
  status : string;
  open_time : option string;
  close_time : option string;
  expiration_time : option string;
  yes_bid : Z;
  yes_ask : Z;
  no_bid : Z;
  no_ask : Z;
  last_price : Z;
  volume : Z;
  volume_24h : Z;
  open_interest : Z;
  result : string;
  yes_bid_dollars : string;
  yes_ask_dollars : string;
  no_bid_dollars : string;
  no_ask_dollars : string;
  last_price_dollars : string
}.

(** Truth value of an integer. *)
Definition truthy_int (n : Z) : bool := negb (n =? 0)%Z.

(** [Market.yes_mid]. *)
Definition yes_mid (m : Market) : Q :=
  if truthy_int (yes_bid m) && truthy_int (yes_ask m)
  then inject_Z (yes_bid m + yes_ask m) / 2
  else inject_Z (last_price m).

(** [Market.implied_probability]. *)
Definition implied_probability (m : Market) : Q :=
  let mid := yes_mid m in
  if Py.ltb 0 mid then mid / 100 else 0.

End MarketModel.

(** ** [src/api/client.py]: paged listings *)

Module Paging.
Import Exn.

Section FetchAll.

(** The items of a page: markets for [get_markets], positions for
    [get_positions]. *)
Variable item : Type.

(** The paged call: [page n cursor] is the outcome of the [n]-th call,
    made with [cursor], namely the items of the page and the next
    cursor. *)
Variable page : nat -> string -> res (list item * string).

(** The loop of [get_all_markets_for_series] and of [get_all_positions]:
    [calls] pages were fetched so far, [all] holds their items and [cursor]
    is the cursor of the next call; [fuel] bounds the iterations of
    [while True]. *)
Fixpoint fetch_loop (fuel calls : nat) (all : list item) (cursor : string)
    : res (list item) :=
  match fuel with
  | O => Diverge
  | S fuel' =>
      match page calls cursor with
      | Ret (items, cursor') =>
          let all := all ++ items in
          if negb (Models.nonempty cursor') then Ret all
          else fetch_loop fuel' (S calls) all cursor'
      | Raise e => Raise e
      | Diverge => Diverge
      end
  end.

(** [get_all_markets_for_series] and [get_all_positions], over their paged
    call. *)
Definition fetch_all (fuel : nat) : res (list item) :=
  fetch_loop fuel 0 [] "".

End FetchAll.

(** [get_all_markets_for_series], given [get_markets] with the series and
    status already fixed. *)
Definition get_all_markets_for_series
    (get_markets : nat -> string -> res (list MarketModel.Market * string))
    (fuel : nat) : res (list MarketModel.Market) :=
  fetch_all MarketModel.Market get_markets fuel.

End Paging.

(** ** [config/settings.py]: the API endpoint *)

Module Config.

(** [API_URLS]. *)
Definition API_URLS : gmap string string :=
  <["prod" := "https://api.elections.kalshi.com/trade-api/v2"]>
  (<["demo" := "https://demo-api.kalshi.co/trade-api/v2"]> ∅).

(** [API_URLS["demo"]]: the key is there. *)
Definition demo_url : string :=
  default "" (API_URLS !! "demo").

(** [Settings.api_base_url], from the field [kalshi_env]. *)
Definition api_base_url (kalshi_env : string) : string :=
  default demo_url (API_URLS !! kalshi_env).

(** [Settings.is_production]. *)
Definition is_production (kalshi_env : string) : bool :=
  String.eqb kalshi_env "prod".

End Config.

(** ** [src/strategies/base.py]: the strategy pipeline *)

Module BaseStrategy.
Import Models Exn MarketModel.

Section Run.

(** The two abstract methods of a strategy. *)
Variable scan : res (list Market).
Variable analyze : Market -> res (option TradeSignal).

(** The loop of [run] over the markets: a signal is appended, [None] and
    any exception of [analyze] are passed over. *)
Fixpoint analyze_markets (markets : list Market)
    (signals : list TradeSignal) : res (list TradeSignal) :=
  match markets with
  | [] => Ret signals
  | market :: rest =>
      match analyze market with
      | Ret (Some signal) => analyze_markets rest (signals ++ [signal])
      | Ret None => analyze_markets rest signals
      | Raise _ => analyze_markets rest signals
      | Diverge => Diverge
      end
  end.

(** [BaseStrategy.run]: [scan] is called outside the [try]. *)
Definition run : res (list TradeSignal) :=
  match scan with
  | Ret markets => analyze_markets markets []
  | Raise e => Raise e
  | Diverge => Diverge
  end.

End Run.

End BaseStrategy.

(** ** Definitions used to state the further properties *)

Module MoreProps.
Import Models Exn Risk.

(** The P&L recorded in a list of trade entries. *)
Fixpoint sum_pnl (l : list trade_entry) : Q :=
  match l with
  | [] => 0
  | e :: l' => sum_pnl l' + t_pnl e
  end.

(** The number of entries with a positive, resp. negative, P&L. *)
Definition count_wins (l : list trade_entry) : Z :=
  Z.of_nat (length (List.filter (fun e => Py.ltb 0 (t_pnl e)) l)).

Definition count_losses (l : list trade_entry) : Z :=
  Z.of_nat (length (List.filter (fun e => Py.ltb (t_pnl e) 0) l)).

(** The ledger agrees with the list of today's trades. *)
Definition ledger_consistent (rm : RiskManager) : Prop :=
  trades_count (_daily_pnl rm) = Z.of_nat (length (_trades_today rm))
  /\ wins (_daily_pnl rm) = count_wins (_trades_today rm)
  /\ losses (_daily_pnl rm) = count_losses (_trades_today rm)
  /\ realized_pnl (_daily_pnl rm) == sum_pnl (_trades_today rm).

(** Two managers have the same five limits. *)
Definition same_limits (a b : RiskManager) : Prop :=
  max_daily_loss a = max_daily_loss b
  /\ max_position_size a = max_position_size b
  /\ max_trade_cost a = max_trade_cost b
  /\ max_portfolio_exposure_pct a = max_portfolio_exposure_pct b
  /\ kelly_fraction a = kelly_fraction b.

(** The dollars an order costs, as [run_trading_cycle] computes them. *)
Definition order_cost (o : OrderRequest) : Q :=
  inject_Z (Py.or_int (yes_price o) (Py.or_int (no_price o) 0) * o_count o)
  / 100.

(** The character occurs in the string. *)
Fixpoint mentions (c : ascii) (s : string) : bool :=
  match s with
  | EmptyString => false
  | String c' rest => Ascii.eqb c' c || mentions c rest
  end.

(** The cursor the [n]-th call must carry when the earlier calls returned
    the pages of [pages]: none for the first call, then the cursor of the
    page before. *)
Definition cursor_for {item : Type} (pages : list (list item * string))
    (n : nat) : string :=
  match n with
  | O => ""
  | S m => match nth_error pages m with Some p => snd p | None => "" end
  end.

(** The paged call answers with the pages of [pages], in order, as long as
    each call carries the cursor of the page before. *)
Definition serves {item : Type}
    (page : nat -> string -> res (list item * string))
    (pages : list (list item * string)) : Prop :=
  forall n p, nth_error pages n = Some p ->
              page n (cursor_for pages n) = Ret p.

(** The page announces a further page. *)
Definition has_next {item : Type} (p : list item * string) : Prop :=
  nonempty (snd p) = true.

(** The events that submit or record an order. *)
Definition places_order (e : Main.event) : bool :=
  match e with
  | Main.CreatedOrder _ | Main.RecordedTrade _ _ => true
  | _ => false
  end.

(** What handling signals leaves alone when no order may be placed: no
    order or balance call is made, the balance, the exposure map and the
    limits are kept, and no event submits or records an order. *)
Definition untouched (st st' : Main.cycle_state) : Prop :=
  Main.order_calls st' = Main.order_calls st
  /\ Main.balance_calls st' = Main.balance_calls st
  /\ Main.balance st' = Main.balance st
  /\ _open_positions (Main.rm st') = _open_positions (Main.rm st)
  /\ same_limits (Main.rm st') (Main.rm st)
  /\ (Main.trades_executed st <= Main.trades_executed st')%Z
  /\ exists evs, Main.events st' = evs ++ Main.events st
                 /\ forallb (fun e => negb (places_order e)) evs = true.

(** A server with two pages of numbers, strict about the cursor. *)
Definition two_pages (n : nat) (cursor : string)
    : res (list nat * string) :=
  match n with
  | O => if String.eqb cursor "" then Ret ([1; 2]%nat, "c1")
         else Raise (OtherError "unexpected cursor")
  | S O => if String.eqb cursor "c1" then Ret ([3]%nat, "")
           else Raise (OtherError "unexpected cursor")
  | _ => Raise (OtherError "no such page")
  end.

(** A server whose second call fails. *)
Definition broken_page (n : nat) (cursor : string)
    : res (list nat * string) :=
  match n with
  | O => Ret ([1; 2]%nat, "c1")
  | _ => Raise (ConnectionError "reset")
  end.

(** Settings for live trading: orders are sent. *)
Definition settings_live : Main.Settings :=
  {| Main.min_confidence := 0.55; Main.min_expected_value := 0.05;
     Main.dry_run := false |}.

(** The signal a market contributes to [run]: the one [analyze] returns,
    if it returns one. *)
Definition found (analyze : MarketModel.Market -> res (option TradeSignal))
    (m : MarketModel.Market) : option TradeSignal :=
  match analyze m with
  | Ret (Some s) => Some s
  | _ => None
  end.

(** A market with the given ticker and quotes. *)
Definition market_at (name : string) (bid ask : Z) : MarketModel.Market :=
  {| MarketModel.ticker := name; MarketModel.event_ticker := "TEST-EVENT";
     MarketModel.title := "Test"; MarketModel.subtitle := "";
     MarketModel.status := "active"; MarketModel.open_time := None;
     MarketModel.close_time := None; MarketModel.expiration_time := None;
     MarketModel.yes_bid := bid; MarketModel.yes_ask := ask;
     MarketModel.no_bid := 0; MarketModel.no_ask := 0;
     MarketModel.last_price := 0; MarketModel.volume := 0;
     MarketModel.volume_24h := 0; MarketModel.open_interest := 0;
     MarketModel.result := ""; MarketModel.yes_bid_dollars := "0.00";
     MarketModel.yes_ask_dollars := "0.00";
     MarketModel.no_bid_dollars := "0.00";
     MarketModel.no_ask_dollars := "0.00";
     MarketModel.last_price_dollars := "0.00" |}.

(** An analysis that fails on the market [B] and finds a signal on every
    other market with a bid. *)
Definition toy_analyze (m : MarketModel.Market)
    : res (option TradeSignal) :=
  if String.eqb (MarketModel.ticker m) "B" then Raise ValueError
  else if (MarketModel.yes_bid m =? 0)%Z then Ret None
  else Ret (Some (Props.yes_signal (MarketModel.ticker m) 0.1)).

End MoreProps.

(** ** Python [float] as binary64 *)

(** The numbers of the risk manager are Python floats.  Where an outcome
    depends on how they round (a contract count, an accept or refuse
    decision, a price in cents) the operations are modelled on binary64
    itself, with Rocq's primitive floats: [+], [-], [*], [/] round to
    nearest, ties to even, as the processor does. *)

Module F64.
Import Exn.

(** [float(n)] for an [int], as the arithmetic of an [int] with a [float]
    applies it: the nearest double, and [OverflowError] for an int too
    large for a double. *)
Definition of_int (n : Z) : res float :=
  let f := SF2Prim (binary_normalize prec emax n 0 false) in
  if is_infinity f then Raise OverflowError else Ret f.

(** [int(x)] on a float: truncation toward zero; [ValueError] for a NaN and
    [OverflowError] for an infinity. *)
Definition to_int (x : float) : res Z :=
  match Prim2SF x with
  | S754_nan => Raise ValueError
  | S754_infinity _ => Raise OverflowError
  | S754_zero _ => Ret 0%Z
  | S754_finite s m e =>
      let v :=
        if (0 <=? e)%Z then (Zpos m * 2 ^ e)%Z
        else (Zpos m / 2 ^ (- e))%Z in
      Ret (if s then (- v)%Z else v)
  end.

(** The rational number a finite double stands for (0 for the others). *)
Definition to_Q (x : float) : Q :=
  match Prim2SF x with
  | S754_finite s m e =>
      let v :=
        if (0 <=? e)%Z then inject_Z (Zpos m * 2 ^ e)
        else Zpos m # Z.to_pos (2 ^ (- e)) in
      if s then - v else v
  | _ => 0
  end.

(** [max(a, b)]: the second argument when it is greater, else the first;
    [min(a, b)]: the second when it is smaller, else the first.  An [int]
    argument [0] is the double [0.0] in every use made of the result. *)
Definition max (a b : float) : float := if (a <? b)%float then b else a.
Definition min (a b : float) : float := if (b <? a)%float then b else a.

(** Sequencing of calls that may raise: [x ← r; k] goes on with the value
    of [r], and stops with its exception if it raises. *)
Definition bind {A B : Type} (r : res A) (k : A -> res B) : res B :=
  match r with
  | Ret a => k a
  | Raise e => Raise e
  | Diverge => Diverge
  end.

#[global] Instance res_bind : MBind res := fun A B k r => bind r k.

End F64.

(** ** [src/risk/manager.py] on binary64 *)

(** Sizing, validation and order construction as the program computes
    them: same control flow as in [Risk], floats and their operations being
    those of the machine. *)

Module Risk64.
Import Models Exn.
#[local] Open Scope float_scope.

(** [TradeSignal], without its creation [timestamp]. *)
Record TradeSignal := {
  ticker : string;
  side : OrderSide;
  action : OrderAction;
  confidence : float;
  estimated_probability : float;
  market_probability : float;
  expected_value : float;
  strategy_name : string;
  reasoning : string;
  suggested_price : option Z;
  suggested_count : option Z
}.

Record DailyPnL := {
  date : string;
  realized_pnl : float;
  unrealized_pnl : float;
  trades_count : Z;
  wins : Z;
  losses : Z
}.

(** [DailyPnL(date=d)]. *)
Definition DailyPnL_new (d : string) : DailyPnL :=
  {| date := d; realized_pnl := 0; unrealized_pnl := 0;
     trades_count := 0; wins := 0; losses := 0 |}.

Definition total_pnl (d : DailyPnL) : float :=
  realized_pnl d + unrealized_pnl d.

Record trade_entry := {
  t_ticker : string;
  t_cost : float;
  t_pnl : float;
  t_time : string
}.

(** The manager; [_open_positions] is a [dict], kept here as the list of
    its items in insertion order, the order in which [sum] adds its
    values: float addition is not associative. *)
Record RiskManager := {
  max_daily_loss : float;
  max_position_size : Z;
  max_trade_cost : float;
  max_portfolio_exposure_pct : float;
  kelly_fraction : float;
  _daily_pnl : DailyPnL;
  _open_positions : list (string * float);
  _trades_today : list trade_entry
}.

(** [RiskManager.__init__], with [today] the date read by [_today()]. *)
Definition __init__ (today : string)
    (max_daily_loss : float) (max_position_size : Z) (max_trade_cost : float)
    (max_portfolio_exposure_pct : float) (kelly_fraction : float)
    : RiskManager :=
  {| max_daily_loss := max_daily_loss;
     max_position_size := max_position_size;
     max_trade_cost := max_trade_cost;
     max_portfolio_exposure_pct := max_portfolio_exposure_pct;
     kelly_fraction := kelly_fraction;
     _daily_pnl := DailyPnL_new today;
     _open_positions := [];
     _trades_today := [] |}.

(** [_reset_daily_if_needed]. *)
Definition _reset_daily_if_needed (today : string) (rm : RiskManager)
    : RiskManager :=
  if negb (String.eqb (date (_daily_pnl rm)) today)
  then {| max_daily_loss := max_daily_loss rm;
          max_position_size := max_position_size rm;
          max_trade_cost := max_trade_cost rm;
          max_portfolio_exposure_pct := max_portfolio_exposure_pct rm;
          kelly_fraction := kelly_fraction rm;
          _daily_pnl := DailyPnL_new today;
          _open_positions := _open_positions rm;
          _trades_today := [] |}
  else rm.

(** [sum(self._open_positions.values())]: from 0, left to right.  (From
    version 3.12 on, CPython adds a compensation term to a sum of floats;
    with no position or a single one, as in every example below, the two
    totals are the same.) *)
Definition sum_values (d : list (string * float)) : float :=
  fold_left (fun acc item => acc + snd item) d 0.

(** [kelly_criterion].  The division is reached with [odds_decimal <= 0]
    false, so its divisor is not zero. *)
Definition kelly_criterion (rm : RiskManager)
    (probability odds_decimal : float) : float :=
  if (probability <=? 0) || (1 <=? probability) || (odds_decimal <=? 0)
  then 0
  else
    let q := 1 - probability in
    let kelly := (probability * odds_decimal - q) / odds_decimal in
    F64.max 0 kelly * kelly_fraction rm.

(** [calculate_position_size]; returns the size, or the exception an
    [int(...)] raises on a quotient that is infinite or not a number, and
    the manager after the lazy ledger rollover.  [cost_per_contract] is
    the quotient of an integer of at least 1 by 100.0 and is not zero where
    [odds] divides by it. *)
Definition calculate_position_size (today : string) (rm : RiskManager)
    (signal : TradeSignal) (balance : float) (cost_per_contract_cents : Z)
    : res Z * RiskManager :=
  let rm := _reset_daily_if_needed today rm in
  if (cost_per_contract_cents <=? 0)%Z || (balance <=? 0) then (Ret 0%Z, rm)
  else
    (cents ← F64.of_int cost_per_contract_cents;
     let cost_per_contract := cents / 100 in
     let payout := 1 in
     let profit_if_win := payout - cost_per_contract in
     if profit_if_win <=? 0 then Ret 0%Z
     else
       let odds := profit_if_win / cost_per_contract in
       let kelly_frac :=
         kelly_criterion rm (estimated_probability signal) odds in
       let kelly_amount := balance * kelly_frac in
       max_from_kelly ←
         (if 0 <? cost_per_contract
          then F64.to_int (kelly_amount / cost_per_contract)
          else Ret 0%Z);
       let max_from_position := max_position_size rm in
       max_from_cost ←
         (if 0 <? cost_per_contract
          then F64.to_int (max_trade_cost rm / cost_per_contract)
          else Ret 0%Z);
       let current_exposure := sum_values (_open_positions rm) in
       let max_exposure :=
         balance * (max_portfolio_exposure_pct rm / 100) in
       let remaining_exposure :=
         F64.max 0 (max_exposure - current_exposure) in
       max_from_exposure ←
         (if 0 <? cost_per_contract
          then F64.to_int (remaining_exposure / cost_per_contract)
          else Ret 0%Z);
       let remaining_daily :=
         F64.max 0 (max_daily_loss rm
                    - abs (F64.min 0 (total_pnl (_daily_pnl rm)))) in
       max_from_daily ←
         (if 0 <? cost_per_contract
          then F64.to_int (remaining_daily / cost_per_contract)
          else Ret 0%Z);
       let size :=
         Z.min max_from_kelly
           (Z.min max_from_position
              (Z.min max_from_cost
                 (Z.min max_from_exposure max_from_daily))) in
       let size := Z.max 0 size in
       Ret size,
     rm).

(** The reason returned by [validate_trade], with the numbers its message
    formats. *)
Inductive reason :=
| DailyLossLimitReached (pnl : float)
| ConfidenceTooLow (confidence min_confidence : float)
| ExpectedValueTooLow (ev min_ev : float)
| InsufficientBalance
| ExposureLimitReached (current_exposure max_exposure : float)
| TradeApproved.

(** The literal text each message starts with. *)
Definition reason_text (r : reason) : string :=
  match r with
  | DailyLossLimitReached _ => "Daily loss limit reached"
  | ConfidenceTooLow _ _ => "Confidence too low"
  | ExpectedValueTooLow _ _ => "Expected value too low"
  | InsufficientBalance => "Insufficient balance"
  | ExposureLimitReached _ _ => "Portfolio exposure limit reached"
  | TradeApproved => "Trade approved"
  end.

(** [validate_trade]; [a >= b] is [b <= a]. *)
Definition validate_trade (today : string) (rm : RiskManager)
    (signal : TradeSignal) (balance min_confidence min_ev : float)
    : (bool * reason) * RiskManager :=
  let rm := _reset_daily_if_needed today rm in
  if total_pnl (_daily_pnl rm) <=? - max_daily_loss rm
  then ((false, DailyLossLimitReached (total_pnl (_daily_pnl rm))), rm)
  else if confidence signal <? min_confidence
  then ((false, ConfidenceTooLow (confidence signal) min_confidence), rm)
  else if expected_value signal <? min_ev
  then ((false, ExpectedValueTooLow (expected_value signal) min_ev), rm)
  else if balance <=? 0
  then ((false, InsufficientBalance), rm)
  else
    let current_exposure := sum_values (_open_positions rm) in
    let max_exposure := balance * (max_portfolio_exposure_pct rm / 100) in
    if max_exposure <=? current_exposure
    then ((false, ExposureLimitReached current_exposure max_exposure), rm)
    else ((true, TradeApproved), rm).

(** [o or d] for an optional integer [o]: [None] and [0] are falsy, and
    [d] is evaluated, and may raise, only then. *)
Definition or_int (o : option Z) (d : res Z) : res Z :=
  match o with
  | Some v => if (v =? 0)%Z then d else Ret v
  | None => d
  end.

(** The cost per contract [build_order] derives from the signal. *)
Definition cost_cents_of (signal : TradeSignal) : res Z :=
  match side signal with
  | YES =>
      or_int (suggested_price signal)
        (F64.to_int (market_probability signal * 100))
  | NO =>
      or_int (suggested_price signal)
        (F64.to_int ((1 - market_probability signal) * 100))
  end.

(** [build_order]. *)
Definition build_order (today : string) (rm : RiskManager)
    (signal : TradeSignal) (balance : float)
    : res (option OrderRequest) * RiskManager :=
  match cost_cents_of signal with
  | Ret cost_cents =>
      if (cost_cents <=? 0)%Z || (100 <=? cost_cents)%Z then (Ret None, rm)
      else
        let '(count, rm) :=
          calculate_position_size today rm signal balance cost_cents in
        match count with
        | Ret count =>
            if (count <=? 0)%Z then (Ret None, rm)
            else
              (Ret (Some {| o_ticker := ticker signal;
                            o_side := side signal;
                            o_action := action signal;
                            o_count := count;
                            order_type := LIMIT;
                            yes_price :=
                              if OrderSide_eqb (side signal) YES
                              then Some cost_cents else None;
                            no_price :=
                              if OrderSide_eqb (side signal) NO
                              then Some cost_cents else None;
                            client_order_id := "";
                            time_in_force := "gtc";
                            buy_max_cost := None;
                            post_only := true |}), rm)
        | Raise e => (Raise e, rm)
        | Diverge => (Diverge, rm)
        end
  | Raise e => (Raise e, rm)
  | Diverge => (Diverge, rm)
  end.

End Risk64.

(** ** Definitions used to state the properties on binary64 *)

Module Props64.
Import Models Exn Risk64.
#[local] Open Scope float_scope.

(** The position size in the specification's words, every operation being
    the binary64 one: for a manager whose ledger is rolled over to today
    and a cost per contract [cpc] in dollars, the least of five upper
    bounds, never below 0.  A bound whose quotient is infinite or not a
    number has no integer part, and [int] raises. *)
Section SizeSpec.

Variables (rm : RiskManager) (signal : TradeSignal) (balance cpc : float).

(** a. The contract count the Kelly fraction implies, at odds
    [(1 - cpc) / cpc] for a payout of 1.00. *)
Definition kelly_bound : res Z :=
  F64.to_int
    (balance
     * kelly_criterion rm (estimated_probability signal) ((1 - cpc) / cpc)
     / cpc).

(** b. The configured largest position. *)
Definition position_bound : Z := max_position_size rm.

(** c. What the largest trade cost buys. *)
Definition cost_bound : res Z := F64.to_int (max_trade_cost rm / cpc).

(** d. What the exposure headroom, floored at 0, buys. *)
Definition exposure_bound : res Z :=
  F64.to_int
    (F64.max 0 (balance * (max_portfolio_exposure_pct rm / 100)
                - sum_values (_open_positions rm))
     / cpc).

(** e. What the rest of the daily loss budget, floored at 0, buys. *)
Definition daily_bound : res Z :=
  F64.to_int
    (F64.max 0 (max_daily_loss rm
                - abs (F64.min 0 (total_pnl (_daily_pnl rm))))
     / cpc).

Definition size_spec : res Z :=
  k ← kelly_bound;
  c ← cost_bound;
  e ← exposure_bound;
  d ← daily_bound;
  Ret (Z.max 0
         (Z.min k (Z.min position_bound (Z.min c (Z.min e d))))).

End SizeSpec.

(** The manager and the signal read with exact numbers: every double stands
    for the rational it is. *)
Definition exact_signal (s : TradeSignal) : Models.TradeSignal :=
  {| Models.ticker := ticker s;
     Models.side := side s;
     Models.action := action s;
     Models.confidence := F64.to_Q (confidence s);
     Models.estimated_probability := F64.to_Q (estimated_probability s);
     Models.market_probability := F64.to_Q (market_probability s);
     Models.expected_value := F64.to_Q (expected_value s);
     Models.strategy_name := strategy_name s;
     Models.reasoning := reasoning s;
     Models.suggested_price := suggested_price s;
     Models.suggested_count := suggested_count s |}.

Definition exact_ledger (d : DailyPnL) : Risk.DailyPnL :=
  {| Risk.date := date d;
     Risk.realized_pnl := F64.to_Q (realized_pnl d);
     Risk.unrealized_pnl := F64.to_Q (unrealized_pnl d);
     Risk.trades_count := trades_count d;
     Risk.wins := wins d;
     Risk.losses := losses d |}.

Definition exact_entry (e : trade_entry) : Risk.trade_entry :=
  {| Risk.t_ticker := t_ticker e;
     Risk.t_cost := F64.to_Q (t_cost e);
     Risk.t_pnl := F64.to_Q (t_pnl e);
     Risk.t_time := t_time e |}.

Definition exact_manager (rm : RiskManager) : Risk.RiskManager :=
  {| Risk.max_daily_loss := F64.to_Q (max_daily_loss rm);
     Risk.max_position_size := max_position_size rm;
     Risk.max_trade_cost := F64.to_Q (max_trade_cost rm);
     Risk.max_portfolio_exposure_pct :=
       F64.to_Q (max_portfolio_exposure_pct rm);
     Risk.kelly_fraction := F64.to_Q (kelly_fraction rm);
     Risk._daily_pnl := exact_ledger (_daily_pnl rm);
     Risk._open_positions :=
       list_to_map
         (map (fun item => (fst item, F64.to_Q (snd item)))
            (_open_positions rm));
     Risk._trades_today := map exact_entry (_trades_today rm) |}.

(** The manager of the specification's examples: limits 50 / 100 / 25 /
    20% / 0.5, no open position. *)
Definition manager0 (today : string) : RiskManager :=
  __init__ today 50 100 25 20 0.5.

(** A YES signal of the test suite's shape with the given estimate and
    market probability. *)
Definition yes_signal (estimate market : float) : TradeSignal :=
  {| ticker := "TEST"; side := YES; action := BUY; confidence := 0.8;
     estimated_probability := estimate; market_probability := market;
     expected_value := 0.15; strategy_name := "Test"; reasoning := "Test";
     suggested_price := None; suggested_count := None |}.

(** A NO signal with the given market probability and optional price. *)
Definition no_signal (market : float) (price : option Z) : TradeSignal :=
  {| ticker := "TEST"; side := NO; action := BUY; confidence := 0.7;
     estimated_probability := 0.8; market_probability := market;
     expected_value := 0.1; strategy_name := "Test"; reasoning := "Test";
     suggested_price := price; suggested_count := None |}.

(** A manager with a 7% exposure limit that holds one position of exactly
    7 dollars. *)
Definition manager_at_ceiling (today : string) : RiskManager :=
  {| max_daily_loss := 50; max_position_size := 100; max_trade_cost := 25;
     max_portfolio_exposure_pct := 7; kelly_fraction := 0.5;
     _daily_pnl := DailyPnL_new today;
     _open_positions := [("HELD", 7)];
     _trades_today := [] |}.


(** The integers from [lo] up, [n] of them. *)
Definition cents_range (lo : Z) (n : nat) : list Z :=
  map (fun i => (lo + Z.of_nat i)%Z) (seq 0 n).

(** For a cost of [cents] the sizing reaches its five bounds: the cost in
    dollars is a double above 0 and below 1. *)
Definition prices_normally (cents : Z) : bool :=
  match F64.of_int cents with
  | Ret c => (0 <? c / 100) && negb (1 - c / 100 <=? 0)
  | _ => false
  end.

End Props64.

(** * Properties *)

(** ** Arithmetic of the Python built-ins *)

Section PyFacts.

Lemma ltb_lt (a b : Q) : Py.ltb a b = true <-> a < b.
Proof.
  unfold Py.ltb. rewrite negb_true_iff, <- not_true_iff_false, Qle_bool_iff.
  split; [apply Qnot_le_lt | apply Qlt_not_le].
Qed.

Lemma ltb_ge (a b : Q) : Py.ltb a b = false <-> b <= a.
Proof.
  unfold Py.ltb. rewrite negb_false_iff, Qle_bool_iff. tauto.
Qed.

Lemma leb_gt (a b : Q) : Qle_bool a b = false <-> b < a.
Proof.
  rewrite <- not_true_iff_false, Qle_bool_iff.
  split; [apply Qnot_le_lt | apply Qlt_not_le].
Qed.

Lemma max_spec (a b : Q) :
  (a < b /\ Py.max a b = b) \/ (b <= a /\ Py.max a b = a).
Proof.
  unfold Py.max. destruct (Py.ltb a b) eqn:E.
  - left. apply ltb_lt in E. auto.
  - right. apply ltb_ge in E. auto.
Qed.

Lemma min_spec (a b : Q) :
  (b < a /\ Py.min a b = b) \/ (a <= b /\ Py.min a b = a).
Proof.
  unfold Py.min. destruct (Py.ltb b a) eqn:E.
  - left. apply ltb_lt in E. auto.
  - right. apply ltb_ge in E. auto.
Qed.

Lemma abs_spec (x : Q) :
  (x < 0 /\ Py.abs x = - x) \/ (0 <= x /\ Py.abs x = x).
Proof.
  unfold Py.abs. destruct (Py.ltb x 0) eqn:E.
  - left. apply ltb_lt in E. auto.
  - right. apply ltb_ge in E. auto.
Qed.

Lemma max_Qmax (a b : Q) : Py.max a b == Qmax a b.
Proof.
  destruct (max_spec a b) as [[H ->] | [H ->]].
  - symmetry. apply Q.max_r. lra.
  - symmetry. apply Q.max_l. exact H.
Qed.

(** On a non-negative number [int] is the floor. *)
Lemma int_floor (x : Q) : 0 <= x -> Py.int x = Qfloor x.
Proof.
  destruct x as [n d]. unfold Qle, Py.int, Qfloor. simpl. intros H.
  apply Z.quot_div_nonneg; lia.
Qed.

(** On a non-positive number [int] and the floor are both at most 0. *)
Lemma int_nonpos (x : Q) : x <= 0 -> (Py.int x <= 0)%Z /\ (Qfloor x <= 0)%Z.
Proof.
  intros H. split.
  - destruct x as [n d]. unfold Qle in H. unfold Py.int. simpl in *.
    assert (Hn : (n <= 0)%Z) by lia.
    replace n with (- (- n))%Z by lia.
    rewrite Z.quot_opp_l by lia.
    assert (0 <= (- n) ÷ Z.pos d)%Z by (apply Z.quot_pos; lia).
    lia.
  - change 0%Z with (Qfloor 0). apply Qfloor_resp_le. exact H.
Qed.

End PyFacts.

(** ** Kelly criterion on exact numbers *)

Section Kelly.
Import Risk.

Lemma div_mul (x y : Q) : 0 < y -> x / y * y == x.
Proof.
intros H. rewrite Qmult_comm. apply Qmult_div_r. lra.
Qed.

(** Outside its domain the criterion returns 0. *)
Lemma kelly_out_of_domain (rm : RiskManager) (p b : Q) :
  p <= 0 \/ 1 <= p \/ b <= 0 -> kelly_criterion rm p b = 0.
Proof.
intros H. unfold kelly_criterion.
destruct (Qle_bool p 0) eqn:E1; [reflexivity |].
destruct (Qle_bool 1 p) eqn:E2; [reflexivity |].
destruct (Qle_bool b 0) eqn:E3; [reflexivity |].
apply leb_gt in E1, E2, E3. exfalso. lra.
Qed.

End Kelly.

(** ** Position sizing on exact numbers *)

Section Sizing.
Import Models Risk Props.

Lemma cents_pos (cents : Z) : (0 < cents)%Z -> 0 < inject_Z cents / 100.
Proof.
intros H. apply Qlt_shift_div_l; [reflexivity |].
rewrite Qmult_0_l. change 0 with (inject_Z 0). rewrite <- Zlt_Qlt. exact H.
Qed.

End Sizing.

(** ** The daily ledger *)

Section Ledger.
Import Models Risk Props.

Lemma reset_cases (today : string) (rm : RiskManager) :
  (date (_daily_pnl rm) = today /\ _reset_daily_if_needed today rm = rm)
  \/ (date (_daily_pnl rm) <> today
      /\ _reset_daily_if_needed today rm
         = set_ledger rm (DailyPnL_new today) []).
Proof.
unfold _reset_daily_if_needed.
destruct (String.eqb_spec (date (_daily_pnl rm)) today) as [E | E]; auto.
Qed.

Lemma reset_date (today : string) (rm : RiskManager) :
  date (_daily_pnl (_reset_daily_if_needed today rm)) = today.
Proof.
destruct (reset_cases today rm) as [[E ->] | [_ ->]]; [exact E | reflexivity].
Qed.

Lemma reset_positions (today : string) (rm : RiskManager) :
  _open_positions (_reset_daily_if_needed today rm) = _open_positions rm.
Proof.
destruct (reset_cases today rm) as [[_ ->] | [_ ->]]; reflexivity.
Qed.

Lemma reset_max_daily_loss (today : string) (rm : RiskManager) :
  max_daily_loss (_reset_daily_if_needed today rm) = max_daily_loss rm.
Proof.
destruct (reset_cases today rm) as [[_ ->] | [_ ->]]; reflexivity.
Qed.

Lemma reset_idempotent (today : string) (rm : RiskManager) :
  _reset_daily_if_needed today (_reset_daily_if_needed today rm)
  = _reset_daily_if_needed today rm.
Proof.
destruct (reset_cases today (_reset_daily_if_needed today rm))
  as [[_ E] | [E _]]; [exact E |].
exfalso. apply E, reset_date.
Qed.

Lemma validate_trade_state (today : string) (rm : RiskManager)
    (s : TradeSignal) (b mc me : Q) :
  snd (validate_trade today rm s b mc me) = _reset_daily_if_needed today rm.
Proof.
unfold validate_trade.
repeat match goal with |- context [if ?c then _ else _] => destruct c end;
  reflexivity.
Qed.

Lemma calculate_position_size_state (today : string) (rm : RiskManager)
    (s : TradeSignal) (b : Q) (c : Z) :
  snd (calculate_position_size today rm s b c)
  = _reset_daily_if_needed today rm.
Proof.
unfold calculate_position_size.
repeat match goal with |- context [if ?c then _ else _] => destruct c end;
  reflexivity.
Qed.

Lemma build_order_state (today : string) (rm : RiskManager)
    (s : TradeSignal) (b : Q) :
  snd (build_order today rm s b) = rm
  \/ snd (build_order today rm s b) = _reset_daily_if_needed today rm.
Proof.
unfold build_order.
destruct ((cost_cents_of s <=? 0)%Z || (100 <=? cost_cents_of s)%Z);
  [left; reflexivity |].
pose proof (calculate_position_size_state today rm s b (cost_cents_of s)) as E.
destruct (calculate_position_size today rm s b (cost_cents_of s)) as [n rm1].
simpl in E. subst rm1. right. destruct (n <=? 0)%Z; reflexivity.
Qed.

(** The ledger's [unrealized_pnl] after each operation is the one before
    it, or that of a fresh ledger. *)
Lemma step_unrealized (rm : RiskManager) (call : string * op) :
  unrealized_pnl (_daily_pnl rm) = 0 ->
  unrealized_pnl (_daily_pnl (step rm call)) = 0.
Proof.
intros H.
assert (R : forall today,
           unrealized_pnl (_daily_pnl (_reset_daily_if_needed today rm)) = 0).
{ intros today.
  destruct (reset_cases today rm) as [[_ ->] | [_ ->]];
    [exact H | reflexivity]. }
destruct call as [today o]. unfold step. cbn [fst snd].
destruct o.
- exact H.
- rewrite calculate_position_size_state. apply R.
- rewrite validate_trade_state. apply R.
- destruct (build_order_state today rm signal balance) as [-> | ->];
    [exact H | apply R].
- unfold record_trade. cbn. apply R.
- unfold update_position. destruct (Qle_bool exposure_dollars 0); exact H.
- cbn. apply R.
Qed.

Lemma reachable_unrealized (rm : RiskManager) :
  reachable rm -> unrealized_pnl (_daily_pnl rm) = 0.
Proof.
induction 1 as [| rm call _ IH]; [reflexivity |].
apply step_unrealized, IH.
Qed.

Lemma reachable_reset (today : string) (rm : RiskManager) :
  reachable rm -> reachable (_reset_daily_if_needed today rm).
Proof.
intros H. apply (reachable_step rm (today, GetDailySummary)) in H.
exact H.
Qed.

Lemma reachable_total (rm : RiskManager) :
  reachable rm ->
  total_pnl (_daily_pnl rm) == realized_pnl (_daily_pnl rm).
Proof.
intros H. unfold total_pnl. rewrite (reachable_unrealized rm H). ring.
Qed.

End Ledger.

Section LedgerClaims.
Import Models Risk Props.

Lemma two_losses_reachable (day : string) : reachable (two_losses day).
Proof.
unfold two_losses, run. cbn [fold_left].
do 2 apply reachable_step. apply reachable_init.
Qed.

(** C10. No operation of the risk manager writes [unrealized_pnl]: in every
    reachable state it is 0 and [total_pnl] equals [realized_pnl], so the
    daily-loss check of [validate_trade], the daily bound of the position
    size and the remaining budget of the summary, which all read
    [total_pnl], are decided by the realized P&L. *)
Theorem unrealized_pnl_never_written (rm : RiskManager) :
  reachable rm ->
  unrealized_pnl (_daily_pnl rm) = 0
  /\ total_pnl (_daily_pnl rm) == realized_pnl (_daily_pnl rm)
  /\ (forall today s b mc me,
        (exists pnl, snd (fst (validate_trade today rm s b mc me))
                     = DailyLossLimitReached pnl)
        <-> realized_pnl (_daily_pnl (_reset_daily_if_needed today rm))
            <= - max_daily_loss rm)
  /\ (forall today cpc,
        let rm' := _reset_daily_if_needed today rm in
        daily_bound rm' cpc
        = Qfloor ((max_daily_loss rm
                   - Qmax 0 (- realized_pnl (_daily_pnl rm'))) / cpc))
  /\ (forall today,
        let s := fst (get_daily_summary today rm) in
        s_remaining_daily_loss_budget s
        == max_daily_loss rm + s_realized_pnl s).
Proof.
intros H. split; [apply reachable_unrealized, H |].
split; [apply reachable_total, H |].
split; [| split].
- intros today s b mc me.
  pose proof (reachable_total _ (reachable_reset today rm H)) as T.
  pose proof (reset_max_daily_loss today rm) as M.
  unfold validate_trade.
  set (rm' := _reset_daily_if_needed today rm) in *.
  destruct (Qle_bool (total_pnl (_daily_pnl rm')) (- max_daily_loss rm'))
    eqn:E.
  + cbn [fst snd]. apply Qle_bool_iff in E. rewrite M, T in E.
    split; [intros _; exact E | intros _; eexists; reflexivity].
  + apply leb_gt in E. rewrite M, T in E.
    split.
    * intros [pnl Hp]. exfalso.
      repeat match type of Hp with
             | context [if ?c then _ else _] => destruct c
             end; discriminate Hp.
    * intros Hle. exfalso. lra.
- intros today cpc rm'. unfold daily_bound.
  pose proof (reachable_total _ (reachable_reset today rm H)) as T.
  fold rm' in T. unfold rm' at 1. rewrite reset_max_daily_loss.
  apply Qfloor_comp. rewrite T. reflexivity.
- intros today s. unfold s, get_daily_summary. cbn.
  rewrite reset_max_daily_loss.
  rewrite (reachable_total _ (reachable_reset today rm H)). reflexivity.
Qed.

Lemma unrealized_pnl_never_written_witness :
  let rm := two_losses "2026-02-11" in
  unrealized_pnl (_daily_pnl rm) = 0
  /\ total_pnl (_daily_pnl rm) == -20
  /\ s_remaining_daily_loss_budget (fst (get_daily_summary "2026-02-11" rm))
     == 30.
Proof.
intros rm.
destruct (unrealized_pnl_never_written rm (two_losses_reachable _))
  as (A & B & _ & _ & C).
split; [exact A |]. split.
- rewrite B. vm_compute. reflexivity.
- specialize (C "2026-02-11"). cbv zeta in C. rewrite C.
  vm_compute. reflexivity.
Defined.

(** C4. The ledger rolls over lazily: an operation that reads the ledger on
    a date other than the stored one first replaces the ledger by a fresh
    one for that date (realized P&L and the trade, win and loss counters at
    zero), once, since the stored date is then the current one and later
    operations on that date leave it alone; the open-exposure map is never
    touched by the rollover.  After two trades with P&L -10 each the
    summary reports -20 and 2, and on the next day 0 and 0, with the same
    exposure map. *)
Theorem daily_rollover (today : string) (rm : RiskManager) :
  let rm' := _reset_daily_if_needed today rm in
  (date (_daily_pnl rm) <> today ->
     _daily_pnl rm' = DailyPnL_new today
     /\ realized_pnl (_daily_pnl rm') = 0
     /\ trades_count (_daily_pnl rm') = 0%Z
     /\ wins (_daily_pnl rm') = 0%Z
     /\ losses (_daily_pnl rm') = 0%Z)
  /\ (date (_daily_pnl rm) = today -> rm' = rm)
  /\ _open_positions rm' = _open_positions rm
  /\ _reset_daily_if_needed today rm' = rm'
  /\ (forall o, rolls_ledger o = true ->
        step rm (today, o) = step rm' (today, o)
        /\ date (_daily_pnl (step rm (today, o))) = today)
  /\ (forall o, date (_daily_pnl rm) = today ->
        date (_daily_pnl (step rm (today, o))) = today)
  /\ (let rm2 := two_losses "2026-02-11" in
      let same_day := fst (get_daily_summary "2026-02-11" rm2) in
      let next_day := get_daily_summary "2026-02-12" rm2 in
      s_realized_pnl same_day == -20
      /\ s_trades_count same_day = 2%Z
      /\ s_realized_pnl (fst next_day) = 0
      /\ s_trades_count (fst next_day) = 0%Z
      /\ _open_positions (snd next_day) = _open_positions rm2
      /\ s_open_positions (fst next_day) = 2%Z
      /\ s_total_exposure (fst next_day) == 20).
Proof.
intros rm'.
assert (Hroll : forall r o, rolls_ledger o = true ->
          date (_daily_pnl (step r (today, o))) = today).
{ intros r o Ho. unfold step. cbn [fst snd].
  destruct o; try discriminate Ho.
  - rewrite calculate_position_size_state. apply reset_date.
  - rewrite validate_trade_state. apply reset_date.
  - unfold record_trade. cbn. apply reset_date.
  - cbn. apply reset_date. }
split; [| split; [| split; [| split; [| split; [| split]]]]].
- intros Hd. unfold rm'.
  destruct (reset_cases today rm) as [[E _] | [_ ->]]; [contradiction |].
  cbn. repeat split; reflexivity.
- intros Hd. unfold rm'.
  destruct (reset_cases today rm) as [[_ E] | [E _]];
    [exact E | contradiction].
- apply reset_positions.
- apply reset_idempotent.
- intros o Ho. split; [| apply Hroll, Ho].
  unfold step. cbn [fst snd].
  destruct o; try discriminate Ho;
    unfold calculate_position_size, validate_trade, record_trade,
      get_daily_summary; unfold rm'; rewrite reset_idempotent; reflexivity.
- intros o Hd. destruct (rolls_ledger o) eqn:Ho; [apply Hroll, Ho |].
  unfold step. cbn [fst snd]. destruct o; try discriminate Ho.
  + exact Hd.
  + destruct (build_order_state today rm signal balance) as [-> | ->];
      [exact Hd | apply reset_date].
  + unfold update_position. destruct (Qle_bool exposure_dollars 0); exact Hd.
- vm_compute. repeat split; reflexivity.
Qed.

Lemma daily_rollover_witness :
  let rm := two_losses "2026-02-11" in
  realized_pnl (_daily_pnl (_reset_daily_if_needed "2026-02-12" rm)) = 0
  /\ _reset_daily_if_needed "2026-02-11" rm = rm
  /\ date (_daily_pnl (step rm ("2026-02-12", GetDailySummary)))
     = "2026-02-12".
Proof.
intros rm.
pose proof (daily_rollover "2026-02-12" rm) as H2.
pose proof (daily_rollover "2026-02-11" rm) as H1.
cbv zeta in H1, H2.
destruct H2 as (A & _ & _ & _ & B & _). destruct H1 as (_ & C & _).
split; [apply A; vm_compute; discriminate |].
split; [apply C; reflexivity |].
apply B; reflexivity.
Defined.

End LedgerClaims.

(** ** The payload of a built order *)

Section Orders.
Import Models Risk Props.

(** The payload of an order as [build_order] fills it in. *)
Lemma built_payload (t : string) (sd : OrderSide) (a : OrderAction)
    (n c : Z) :
  let o := {| o_ticker := t; o_side := sd; o_action := a; o_count := n;
              order_type := LIMIT;
              yes_price := if OrderSide_eqb sd YES then Some c else None;
              no_price := if OrderSide_eqb sd NO then Some c else None;
              client_order_id := ""; time_in_force := "gtc";
              buy_max_cost := None; post_only := true |} in
  let p := to_api_payload o in
  p !! "type" = Some (JStr "limit")
  /\ p !! "post_only" = Some (JBool true)
  /\ p !! "time_in_force" = Some (JStr "gtc")
  /\ p !! "count" = Some (JInt n)
  /\ match sd with
     | YES => p !! "yes_price" = Some (JInt c) /\ p !! "no_price" = None
     | NO => p !! "no_price" = Some (JInt c) /\ p !! "yes_price" = None
     end.
Proof.
destruct sd; vm_compute; repeat split; reflexivity.
Qed.

End Orders.

(** ** Binary64 arithmetic *)

Section Binary64Facts.
Import Props64.
#[local] Open Scope float_scope.








Lemma Prim2SF_zero : Prim2SF 0 = S754_zero false.
Proof. reflexivity. Qed.






(** Adding 0.0 does not change how a double compares. *)
Lemma add_zero_leb (x y : float) : (x + 0 <=? y) = (x <=? y).
Proof.
rewrite !leb_spec, add_spec, Prim2SF_zero.
destruct (Prim2SF x) as [s | s | | s m e]; try reflexivity.
destruct s; reflexivity.
Qed.

End Binary64Facts.

(** ** The Kelly criterion on binary64 *)

Section Kelly64.
Import Models Exn Risk64 Props64.
#[local] Open Scope float_scope.






End Kelly64.

(** ** Position sizing on binary64 *)

Section Sizing64.
Import Models Exn Risk64 Props64.
#[local] Open Scope float_scope.

Lemma reset_limits64 (today : string) (rm : RiskManager) :
  max_position_size (_reset_daily_if_needed today rm) = max_position_size rm
  /\ max_portfolio_exposure_pct (_reset_daily_if_needed today rm)
     = max_portfolio_exposure_pct rm
  /\ max_daily_loss (_reset_daily_if_needed today rm) = max_daily_loss rm
  /\ _open_positions (_reset_daily_if_needed today rm) = _open_positions rm.
Proof.
unfold _reset_daily_if_needed.
destruct (negb (String.eqb (date (_daily_pnl rm)) today));
  repeat split; reflexivity.
Qed.

Lemma sizing_state64 (today : string) (rm : RiskManager)
    (signal : TradeSignal) (balance : float) (cents : Z) :
  snd (calculate_position_size today rm signal balance cents)
  = _reset_daily_if_needed today rm.
Proof.
unfold calculate_position_size.
destruct ((cents <=? 0)%Z || (balance <=? 0)); reflexivity.
Qed.

(** Past its guards, the code computes the five bounds of the
    specification. *)
Lemma sizing_bounds64 (today : string) (rm : RiskManager)
    (signal : TradeSignal) (balance : float) (cents : Z) (c : float) :
  (0 < cents)%Z -> (balance <=? 0) = false ->
  F64.of_int cents = Ret c ->
  (1 - c / 100 <=? 0) = false -> (0 <? c / 100) = true ->
  fst (calculate_position_size today rm signal balance cents)
  = size_spec (_reset_daily_if_needed today rm) signal balance (c / 100).
Proof.
intros Hc Hb Ec Hp Hpos. unfold calculate_position_size.
assert ((cents <=? 0)%Z = false) as -> by (apply Z.leb_gt; exact Hc).
rewrite Hb, Ec. cbn [orb fst mbind F64.res_bind F64.bind].
rewrite Hp, Hpos. reflexivity.
Qed.

Lemma sizing_no_profit64 (today : string) (rm : RiskManager)
    (signal : TradeSignal) (balance : float) (cents : Z) (c : float) :
  F64.of_int cents = Ret c -> (1 - c / 100 <=? 0) = true ->
  fst (calculate_position_size today rm signal balance cents) = Ret 0%Z.
Proof.
intros Ec Hp. unfold calculate_position_size.
destruct ((cents <=? 0)%Z || (balance <=? 0)); [reflexivity |].
rewrite Ec. cbn [fst mbind F64.res_bind F64.bind]. rewrite Hp. reflexivity.
Qed.

Lemma size_spec_range (rm : RiskManager) (signal : TradeSignal)
    (balance cpc : float) (n : Z) :
  size_spec rm signal balance cpc = Ret n ->
  (0 <= n <= Z.max 0 (max_position_size rm))%Z.
Proof.
unfold size_spec, position_bound.
destruct (kelly_bound rm signal balance cpc) as [k | |];
  cbn [mbind F64.res_bind F64.bind]; try discriminate.
destruct (cost_bound rm cpc) as [c | |];
  cbn [mbind F64.res_bind F64.bind]; try discriminate.
destruct (exposure_bound rm balance cpc) as [e | |];
  cbn [mbind F64.res_bind F64.bind]; try discriminate.
destruct (daily_bound rm cpc) as [d | |];
  cbn [mbind F64.res_bind F64.bind]; try discriminate.
intros H. injection H as <-. lia.
Qed.

Lemma sizing_range64 (today : string) (rm : RiskManager)
    (signal : TradeSignal) (balance : float) (cents n : Z) :
  fst (calculate_position_size today rm signal balance cents) = Ret n ->
  (0 <= n <= Z.max 0 (max_position_size rm))%Z.
Proof.
unfold calculate_position_size.
destruct ((cents <=? 0)%Z || (balance <=? 0));
  [cbn; intros H; injection H as <-; lia |].
cbn [fst].
destruct (F64.of_int cents) as [c | |];
  cbn [mbind F64.res_bind F64.bind]; try discriminate.
destruct (1 - c / 100 <=? 0); [intros H; injection H as <-; lia |].
destruct (0 <? c / 100).
- intros H.
  destruct (reset_limits64 today rm) as (<- & _).
  apply (size_spec_range (_reset_daily_if_needed today rm) signal balance
           (c / 100)).
  exact H.
- intros H. injection H as <-. lia.
Qed.

Lemma in_cents_range (cents : Z) :
  (0 < cents < 100)%Z -> In cents (cents_range 1 99).
Proof.
intros H. unfold cents_range. apply in_map_iff.
exists (Z.to_nat (cents - 1)). split; [lia |].
apply in_seq. lia.
Qed.

(** For a cost of 1 to 99 cents the cost in dollars is a double above 0
    and below 1: the sizing reaches its five bounds. *)
Lemma prices_normally_1_99 (cents : Z) :
  (0 < cents < 100)%Z ->
  exists c, F64.of_int cents = Ret c
            /\ (0 <? c / 100) = true /\ (1 - c / 100 <=? 0) = false.
Proof.
intros H.
assert (A : forallb prices_normally (cents_range 1 99) = true)
  by (vm_compute; reflexivity).
rewrite forallb_forall in A. specialize (A cents (in_cents_range cents H)).
unfold prices_normally in A.
destruct (F64.of_int cents) as [c | |]; try discriminate.
exists c. apply andb_true_iff in A as [A1 A2].
apply negb_true_iff in A2. auto.
Qed.

(** The sizing example of the specification. *)
Lemma sizing_example64 (today : string) (s : TradeSignal) :
  estimated_probability s = 0.7 ->
  fst (calculate_position_size today (manager0 today) s 1000 50)
  = Ret 50%Z.
Proof.
intros Hs. unfold calculate_position_size, _reset_daily_if_needed.
cbn [manager0 __init__ _daily_pnl date DailyPnL_new].
rewrite String.eqb_refl. cbn [negb].
unfold kelly_criterion. rewrite Hs. vm_compute. reflexivity.
Qed.

(** C2 fails as stated: with balance 64, estimated probability 0.75 and a
    cost of 60 cents, all of them doubles, the least of the five bounds is
    the Kelly count [floor(12 / 0.6) = 20], and the code returns 19: the
    quotient it truncates is 19.999999999999996. *)
Lemma sizing_below_the_exact_minimum :
  let rm := manager0 "2026-02-11" in
  let s := yes_signal 0.75 0.5 in
  fst (calculate_position_size "2026-02-11" rm s 64 60) = Ret 19%Z
  /\ Props.size_spec (exact_manager rm) (exact_signal s) (F64.to_Q 64)
       (inject_Z 60 / 100) = 20%Z.
Proof.
cbv zeta. split; vm_compute; reflexivity.
Qed.

(** C2, amended. [calculate_position_size] rolls the ledger and returns 0
    when the cost per contract or the balance is not positive, and when the
    contract cannot win anything; otherwise, and so for every cost of 1 to
    99 cents, it returns the least of the five bounds (Kelly count at odds
    [(1 - cpc)/cpc], largest position, what the largest trade cost buys,
    what the exposure headroom floored at 0 buys, what the rest of the
    daily loss budget buys), never below 0, each bound being computed in
    binary64 and truncated; a size it returns lies between 0 and the
    largest position.  With balance 1000, cost 50 cents, estimated
    probability 0.70, no open position and the limits 50 / 100 / 25 / 20% /
    0.5 it returns 50. *)
Theorem calculate_position_size_binary64 (today : string) (rm : RiskManager)
    (signal : TradeSignal) (balance : float) (cents : Z) :
  let rm' := _reset_daily_if_needed today rm in
  let out := calculate_position_size today rm signal balance cents in
  snd out = rm'
  /\ ((cents <= 0)%Z \/ (balance <=? 0) = true -> fst out = Ret 0%Z)
  /\ (forall c, F64.of_int cents = Ret c ->
        (1 - c / 100 <=? 0) = true -> fst out = Ret 0%Z)
  /\ (forall c, (0 < cents)%Z -> (balance <=? 0) = false ->
        F64.of_int cents = Ret c ->
        (1 - c / 100 <=? 0) = false -> (0 <? c / 100) = true ->
        fst out = size_spec rm' signal balance (c / 100))
  /\ ((0 < cents < 100)%Z -> (balance <=? 0) = false ->
      exists c, F64.of_int cents = Ret c
                /\ fst out = size_spec rm' signal balance (c / 100))
  /\ (forall n, fst out = Ret n ->
        (0 <= n <= Z.max 0 (max_position_size rm))%Z)
  /\ (forall s : TradeSignal, estimated_probability s = 0.7 ->
      fst (calculate_position_size today (manager0 today) s 1000 50)
      = Ret 50%Z).
Proof.
intros rm' out. unfold out, rm'.
split; [apply sizing_state64 |].
split.
{ intros H. unfold calculate_position_size.
  assert ((cents <=? 0)%Z || (balance <=? 0) = true) as ->; [| reflexivity].
  destruct H as [H | ->]; [| apply orb_true_r].
  apply orb_true_iff. left. apply Z.leb_le. exact H. }
split; [intros c; apply sizing_no_profit64 |].
split; [intros c; apply sizing_bounds64 |].
split.
{ intros Hc Hb.
  destruct (prices_normally_1_99 cents Hc) as (c & Ec & Hpos & Hp).
  exists c. split; [exact Ec |].
  apply sizing_bounds64; try assumption. lia. }
split; [intros n; apply sizing_range64 |].
apply sizing_example64.
Qed.

(** The test of the suite: the size is positive, within the position limit
    and within the trade cost limit; without balance it is 0. *)
Lemma calculate_position_size_binary64_witness :
  let s := yes_signal 0.7 0.5 in
  let rm := manager0 "2026-02-11" in
  fst (calculate_position_size "2026-02-11" rm s 1000 50)
  = size_spec rm s 1000 0.5
  /\ fst (calculate_position_size "2026-02-11" rm s 1000 50) = Ret 50%Z
  /\ fst (calculate_position_size "2026-02-11" rm s 0 50) = Ret 0%Z.
Proof.
intros s rm.
pose proof (calculate_position_size_binary64 "2026-02-11" rm s 1000 50)
  as H1.
pose proof (calculate_position_size_binary64 "2026-02-11" rm s 0 50) as H0.
cbv zeta in H1, H0.
destruct H1 as (_ & _ & _ & A & _ & _ & B). destruct H0 as (_ & C & _).
split; [apply (A 50); reflexivity |].
split; [apply B; reflexivity |].
apply C. right. reflexivity.
Defined.

End Sizing64.

(** ** Trade validation on binary64 *)

Section Validation64.
Import Models Exn Risk64 Props64.
#[local] Open Scope float_scope.

Lemma reset_unrealized64 (today : string) (rm : RiskManager) :
  unrealized_pnl (_daily_pnl rm) = 0 ->
  unrealized_pnl (_daily_pnl (_reset_daily_if_needed today rm)) = 0.
Proof.
intros H. unfold _reset_daily_if_needed.
destruct (negb (String.eqb (date (_daily_pnl rm)) today));
  [reflexivity | exact H].
Qed.

(** Closes one conjunct of a case of the check cascade. *)
Ltac settle_check64 :=
  first [ tauto
        | discriminate
        | congruence
        | solve [intros; repeat apply conj; reflexivity]
        | solve [intuition congruence]
        | idtac ].

(** C6 fails as stated: with an exposure limit of 7%, a balance of 100 and
    an exposure of exactly 7 dollars the exposure has reached
    [balance * 7 / 100 = 7], and the trade is approved: the ceiling the
    code compares with is the double [100 * (7 / 100.0)], which is
    7.000000000000001. *)
Lemma exposure_at_the_ceiling_approved :
  let rm := manager_at_ceiling "2026-02-11" in
  let s := yes_signal 0.7 0.5 in
  fst (validate_trade "2026-02-11" rm s 100 0.55 0.05)
  = (true, TradeApproved)
  /\ (F64.to_Q 100 * (F64.to_Q (max_portfolio_exposure_pct rm) / 100)
      <= F64.to_Q (sum_values (_open_positions rm)))%Q
  /\ 100 * (max_portfolio_exposure_pct rm / 100) = 7.000000000000001.
Proof.
cbv zeta. split; [vm_compute; reflexivity |].
split; [vm_compute; discriminate | vm_compute; reflexivity].
Qed.

(** C6, amended. [validate_trade] rejects exactly when today's realized
    P&L is at most [-max_daily_loss], or the confidence is below the
    minimum, or the expected value is below the minimum, or the balance is
    not positive, or the total exposure has reached the ceiling, which is
    the binary64 product [balance * (max_portfolio_exposure_pct / 100.0)]
    and may lie above or below the exact one; the reason is that of the
    first of these checks that fails, so a low confidence (resp. a low
    expected value, the confidence being sufficient) is reported with a
    text containing "Confidence" (resp. "Expected value") whatever the
    balance and the exposure are; otherwise the trade is approved. *)
Theorem validate_trade_binary64 (today : string) (rm : RiskManager)
    (signal : TradeSignal) (balance min_confidence min_ev : float) :
  unrealized_pnl (_daily_pnl rm) = 0 ->
  let rm' := _reset_daily_if_needed today rm in
  let pnl := realized_pnl (_daily_pnl rm') in
  let exposure := sum_values (_open_positions rm) in
  let ceiling := balance * (max_portfolio_exposure_pct rm / 100) in
  let out := fst (validate_trade today rm signal balance min_confidence
                    min_ev) in
  let is_valid := fst out in
  let why := snd out in
  (is_valid = false <->
     (pnl <=? - max_daily_loss rm) = true
     \/ (confidence signal <? min_confidence) = true
     \/ (expected_value signal <? min_ev) = true
     \/ (balance <=? 0) = true
     \/ (ceiling <=? exposure) = true)
  /\ (is_valid = true -> why = TradeApproved)
  /\ ((pnl <=? - max_daily_loss rm) = true ->
      why = DailyLossLimitReached (total_pnl (_daily_pnl rm')))
  /\ ((pnl <=? - max_daily_loss rm) = false ->
      (confidence signal <? min_confidence) = true ->
      is_valid = false
      /\ why = ConfidenceTooLow (confidence signal) min_confidence
      /\ Props.contains "Confidence" (reason_text why) = true)
  /\ ((pnl <=? - max_daily_loss rm) = false ->
      (confidence signal <? min_confidence) = false ->
      (expected_value signal <? min_ev) = true ->
      is_valid = false
      /\ why = ExpectedValueTooLow (expected_value signal) min_ev
      /\ Props.contains "Expected value" (reason_text why) = true)
  /\ ((pnl <=? - max_daily_loss rm) = false ->
      (confidence signal <? min_confidence) = false ->
      (expected_value signal <? min_ev) = false ->
      (balance <=? 0) = true -> why = InsufficientBalance)
  /\ ((pnl <=? - max_daily_loss rm) = false ->
      (confidence signal <? min_confidence) = false ->
      (expected_value signal <? min_ev) = false ->
      (balance <=? 0) = false ->
      (ceiling <=? exposure) = true ->
      why = ExposureLimitReached exposure ceiling).
Proof.
intros U rm' pnl exposure ceiling out is_valid why.
unfold is_valid, why, out, validate_trade. fold rm'.
destruct (reset_limits64 today rm) as (_ & X & M & P).
fold rm' in X, M, P. rewrite X, M, P. fold exposure. fold ceiling.
assert (T : (total_pnl (_daily_pnl rm') <=? - max_daily_loss rm)
            = (pnl <=? - max_daily_loss rm)).
{ unfold total_pnl, pnl, rm'. rewrite (reset_unrealized64 today rm U).
  apply add_zero_leb. }
rewrite T.
destruct (pnl <=? - max_daily_loss rm) eqn:E1.
{ cbn [fst snd]. repeat apply conj; settle_check64. }
destruct (confidence signal <? min_confidence) eqn:E2.
{ cbn [fst snd]. repeat apply conj; settle_check64. }
destruct (expected_value signal <? min_ev) eqn:E3.
{ cbn [fst snd]. repeat apply conj; settle_check64. }
destruct (balance <=? 0) eqn:E4.
{ cbn [fst snd]. repeat apply conj; settle_check64. }
destruct (ceiling <=? exposure) eqn:E5.
{ cbn [fst snd]. repeat apply conj; settle_check64. }
cbn [fst snd]. repeat apply conj; settle_check64.
Qed.

(** The two rejections of the test suite, at balance 1000 and with every
    other field valid, and an approval. *)
Lemma validate_trade_binary64_witness :
  let rm := manager0 "2026-02-11" in
  let s c ev :=
    {| ticker := "TEST"; side := YES; action := BUY; confidence := c;
       estimated_probability := 0.55; market_probability := 0.5;
       expected_value := ev; strategy_name := "Test"; reasoning := "Test";
       suggested_price := None; suggested_count := None |} in
  fst (validate_trade "2026-02-11" rm (s 0.3 0.1) 1000 0.55 0.05)
  = (false, ConfidenceTooLow 0.3 0.55)
  /\ fst (validate_trade "2026-02-11" rm (s 0.7 0.01) 1000 0.55 0.05)
     = (false, ExpectedValueTooLow 0.01 0.05)
  /\ snd (fst (validate_trade "2026-02-11" rm (s 0.7 0.1) 1000 0.55 0.05))
     = TradeApproved.
Proof.
intros rm s.
pose proof (validate_trade_binary64 "2026-02-11" rm (s 0.3 0.1) 1000 0.55
              0.05 eq_refl) as H1.
pose proof (validate_trade_binary64 "2026-02-11" rm (s 0.7 0.01) 1000 0.55
              0.05 eq_refl) as H2.
pose proof (validate_trade_binary64 "2026-02-11" rm (s 0.7 0.1) 1000 0.55
              0.05 eq_refl) as H3.
cbv zeta in H1, H2, H3.
destruct H1 as (_ & _ & _ & A & _).
destruct H2 as (_ & _ & _ & _ & B & _).
destruct H3 as (_ & C & _).
split.
- destruct A as (A1 & A2 & _); [reflexivity | reflexivity |].
  apply injective_projections; assumption.
- split.
  + destruct B as (B1 & B2 & _); [reflexivity | reflexivity | reflexivity |].
    apply injective_projections; assumption.
  + apply C. reflexivity.
Defined.

End Validation64.

(** ** Order construction on binary64 *)

Section Orders64.
Import Models Exn Risk64 Props64.
#[local] Open Scope float_scope.

(** The NO order of the test suite in binary64: 41 contracts at 60
    cents. *)
Lemma no_order_example64 (today : string) :
  fst (build_order today (manager0 today) (no_signal 0.5 (Some 60%Z)) 1000)
  = Ret (Some {| o_ticker := "TEST"; o_side := NO; o_action := BUY;
                 o_count := 41; order_type := LIMIT; yes_price := None;
                 no_price := Some 60%Z; client_order_id := "";
                 time_in_force := "gtc"; buy_max_cost := None;
                 post_only := true |}).
Proof.
unfold build_order, calculate_position_size, _reset_daily_if_needed.
cbn [manager0 __init__ _daily_pnl date DailyPnL_new].
rewrite String.eqb_refl. vm_compute. reflexivity.
Qed.

(** C7. [build_order] returns nothing when the cost per contract it derives
    is outside the open interval (0, 100) cents or the computed size is not
    positive; otherwise it returns a limit order of that size, post-only
    and good-till-cancelled, whose payload carries exactly one price field,
    the one of the signal's side: [yes_price] and no [no_price] for YES,
    [no_price] (60 in the example) and no [yes_price] for NO.  Where no
    cost or no size is computed, because an [int(...)] raises on a number
    that is infinite or no number, that exception leaves [build_order]. *)
Theorem build_order_binary64 (today : string) (rm : RiskManager)
    (signal : TradeSignal) (balance : float) :
  let result := fst (build_order today rm signal balance) in
  (forall c, cost_cents_of signal = Ret c ->
     let size := fst (calculate_position_size today rm signal balance c) in
     ((c <= 0)%Z \/ (100 <= c)%Z -> result = Ret None)
     /\ (forall n, (0 < c < 100)%Z -> size = Ret n -> (n <= 0)%Z ->
         result = Ret None)
     /\ (forall n, (0 < c < 100)%Z -> size = Ret n -> (0 < n)%Z ->
         exists o, result = Ret (Some o)
           /\ o_ticker o = ticker signal
           /\ o_side o = side signal
           /\ o_action o = action signal
           /\ o_count o = n
           /\ order_type o = LIMIT
           /\ post_only o = true
           /\ time_in_force o = "gtc"
           /\ to_api_payload o !! "type" = Some (JStr "limit")
           /\ to_api_payload o !! "post_only" = Some (JBool true)
           /\ to_api_payload o !! "time_in_force" = Some (JStr "gtc")
           /\ match side signal with
              | YES => to_api_payload o !! "yes_price" = Some (JInt c)
                       /\ to_api_payload o !! "no_price" = None
              | NO => to_api_payload o !! "no_price" = Some (JInt c)
                      /\ to_api_payload o !! "yes_price" = None
              end)
     /\ (forall e, (0 < c < 100)%Z -> size = Raise e -> result = Raise e))
  /\ (forall e, cost_cents_of signal = Raise e -> result = Raise e)
  /\ (exists o,
        fst (build_order today (manager0 today) (no_signal 0.5 (Some 60%Z))
               1000) = Ret (Some o)
        /\ o_count o = 41%Z
        /\ to_api_payload o !! "side" = Some (JStr "no")
        /\ to_api_payload o !! "no_price" = Some (JInt 60)
        /\ to_api_payload o !! "yes_price" = None).
Proof.
intros result. unfold result.
split; [| split].
- unfold build_order. intros c Ec. rewrite Ec.
  split; [| split; [| split]].
  + intros H.
    assert ((c <=? 0)%Z || (100 <=? c)%Z = true) as ->; [| reflexivity].
    apply orb_true_iff. destruct H; [left | right]; apply Z.leb_le; lia.
  + intros n Hc Hs Hn.
    assert ((c <=? 0)%Z || (100 <=? c)%Z = false) as ->
      by (apply orb_false_iff; split; apply Z.leb_gt; lia).
    destruct (calculate_position_size today rm signal balance c)
      as [r rm1].
    cbn [fst] in *. subst r.
    assert ((n <=? 0)%Z = true) as -> by (apply Z.leb_le; lia).
    reflexivity.
  + intros n Hc Hs Hn.
    assert ((c <=? 0)%Z || (100 <=? c)%Z = false) as ->
      by (apply orb_false_iff; split; apply Z.leb_gt; lia).
    destruct (calculate_position_size today rm signal balance c)
      as [r rm1].
    cbn [fst] in *. subst r.
    assert ((n <=? 0)%Z = false) as -> by (apply Z.leb_gt; lia).
    cbn [fst]. eexists. split; [reflexivity |].
    cbn [o_ticker o_side o_action o_count order_type post_only
         time_in_force].
    pose proof (built_payload (ticker signal) (side signal) (action signal)
                  n c) as B.
    cbv zeta in B. destruct B as (B1 & B2 & B3 & _ & B5).
    repeat apply conj; try reflexivity; try assumption.
  + intros e Hc Hs.
    assert ((c <=? 0)%Z || (100 <=? c)%Z = false) as ->
      by (apply orb_false_iff; split; apply Z.leb_gt; lia).
    destruct (calculate_position_size today rm signal balance c)
      as [r rm1].
    cbn [fst] in *. subst r. reflexivity.
- unfold build_order. intros e ->. reflexivity.
- rewrite no_order_example64. eexists. split; [reflexivity |].
  split; [reflexivity |]. vm_compute. repeat split; reflexivity.
Qed.

(** The NO order of the test suite, an order built from a YES signal priced
    from the market probability, and no order without balance. *)
Lemma build_order_binary64_witness :
  let s := yes_signal 0.7 0.5 in
  let rm := manager0 "2026-02-11" in
  (exists o, fst (build_order "2026-02-11" rm s 1000) = Ret (Some o)
     /\ o_count o = 50%Z
     /\ to_api_payload o !! "yes_price" = Some (JInt 50)
     /\ to_api_payload o !! "no_price" = None)
  /\ fst (build_order "2026-02-11" rm s 0) = Ret None.
Proof.
intros s rm.
pose proof (build_order_binary64 "2026-02-11" rm s 1000) as H1.
pose proof (build_order_binary64 "2026-02-11" rm s 0) as H0.
cbv zeta in H1, H0.
destruct H1 as (A & _). destruct H0 as (B & _).
destruct (A 50%Z eq_refl) as (_ & _ & A3 & _).
destruct (B 50%Z eq_refl) as (_ & B2 & _).
split.
- destruct (A3 50%Z)
    as (o & E & _ & _ & _ & En & _ & _ & _ & _ & _ & _ & Ey & En');
    [lia | reflexivity | lia |].
  exists o. repeat split; assumption.
- apply (B2 0%Z); [lia | reflexivity | lia].
Defined.



End Orders64.

(** ** The token bucket *)

Section Bucket.
Import Exn Client Props.

Variable b : RateLimiter.
Variable w : world.

Let cap : Q := inject_Z (max_per_second b).

Hypothesis rate_pos : (1 <= max_per_second b)%Z.
Hypothesis tokens_ok : bucket_ok b.
Hypothesis clock_ok : last_refill b <= clock w.

Lemma cap_ge_1 : 1 <= cap.
Proof.
unfold cap. change 1 with (inject_Z 1). rewrite <- Zle_Qle. exact rate_pos.
Qed.

Lemma refilled_bounds : 0 <= refilled b w <= cap.
Proof.
pose proof cap_ge_1 as C. destruct tokens_ok as [T0 T1]. fold cap in T1.
unfold refilled. fold cap.
destruct (min_spec cap
            (tokens b + (clock w - last_refill b) * cap)) as [[H ->] | [H ->]].
- split; [| lra].
  assert (0 <= (clock w - last_refill b) * cap) by nra. lra.
- lra.
Qed.

(** With a token available the call returns at once, one token less. *)
Lemma acquire_immediate (fuel : nat) :
  1 <= refilled b w ->
  acquire (S fuel) b w
  = (Ret tt,
     {| max_per_second := max_per_second b;
        tokens := refilled b w - 1;
        last_refill := clock w |}, w).
Proof.
intros H. cbn [acquire]. fold (refilled b w).
cbn [tokens max_per_second last_refill].
assert (E : Qle_bool 1 (refilled b w) = true) by (apply Qle_bool_iff; exact H).
rewrite E. reflexivity.
Qed.

(** Without one it sleeps for the time the missing part of a token takes,
    and then returns with an empty bucket. *)
Lemma acquire_blocking (fuel : nat) :
  refilled b w < 1 ->
  let d := (1 - refilled b w) / cap in
  exists b',
    acquire (S (S fuel)) b w = (Ret tt, b', snd (sleep d w))
    /\ snd (sleep d w)
       = {| clock := clock w + d; requests_made := requests_made w;
            salts_drawn := salts_drawn w; log := Slept d :: log w |}
    /\ max_per_second b' = max_per_second b
    /\ tokens b' == 0
    /\ last_refill b' = clock w + d.
Proof.
intros H d. pose proof cap_ge_1 as C. pose proof refilled_bounds as [R0 R1].
assert (Hd : d * cap == 1 - refilled b w) by (apply div_mul; lra).
assert (Hd0 : 0 < d) by (apply Qlt_shift_div_l; lra).
assert (Es : sleep d w
             = (Ret tt,
                {| clock := clock w + d; requests_made := requests_made w;
                   salts_drawn := salts_drawn w; log := Slept d :: log w |})).
{ unfold sleep. assert (Py.ltb d 0 = false) as -> by (apply ltb_ge; lra).
  reflexivity. }
cbn [acquire]. fold (refilled b w). fold cap.
cbn [tokens max_per_second last_refill]. fold cap.
assert (E : Qle_bool 1 (refilled b w) = false) by (apply leb_gt; exact H).
rewrite E.
assert (Ez : (max_per_second b =? 0)%Z = false) by (apply Z.eqb_neq; lia).
rewrite Ez. fold d. rewrite Es. cbn [clock snd].
set (again := Py.min cap (refilled b w + (clock w + d - clock w) * cap)).
assert (Ea : again == 1).
{ assert (X : refilled b w + (clock w + d - clock w) * cap == 1).
  { assert (Y : (clock w + d - clock w) * cap == d * cap) by ring.
    rewrite Y, Hd. ring. }
  unfold again.
  destruct (min_spec cap (refilled b w + (clock w + d - clock w) * cap))
    as [[_ ->] | [Hc ->]]; lra. }
assert (E2 : Qle_bool 1 again = true) by (apply Qle_bool_iff; lra).
rewrite E2. eexists. split; [reflexivity |].
cbn [max_per_second tokens last_refill].
repeat split; try reflexivity. lra.
Qed.

End Bucket.

Section BucketClaims.
Import Exn Client Props.

Lemma min_Qmin (a b : Q) : Py.min a b == Qmin a b.
Proof.
destruct (min_spec a b) as [[H ->] | [H ->]].
- symmetry. apply Q.min_r. lra.
- symmetry. apply Q.min_l. exact H.
Qed.

(** With no time elapsed since the last refill, the refill adds nothing. *)
Lemma refilled_same_instant (b : RateLimiter) (w : world) :
  last_refill b = clock w ->
  tokens b <= inject_Z (max_per_second b) ->
  refilled b w == tokens b.
Proof.
intros E H. unfold refilled. rewrite E.
assert (Y : tokens b + (clock w - clock w) * inject_Z (max_per_second b)
            == tokens b) by ring.
destruct (min_spec (inject_Z (max_per_second b))
            (tokens b + (clock w - clock w) * inject_Z (max_per_second b)))
  as [[_ ->] | [Hc ->]]; lra.
Qed.

(** [k] calls in a row return at once while [k] tokens are there. *)
Lemma immediate_burst (fuel k : nat) (w : world) : forall b : RateLimiter,
  last_refill b = clock w ->
  inject_Z (Z.of_nat k) <= tokens b ->
  tokens b <= inject_Z (max_per_second b) ->
  exists b',
    acquire_many (S fuel) k b w = (Ret tt, b', w)
    /\ tokens b' == tokens b - inject_Z (Z.of_nat k)
    /\ max_per_second b' = max_per_second b
    /\ last_refill b' = clock w.
Proof.
induction k as [| k IH]; intros b E Hk Hc.
- exists b. cbn [acquire_many].
  split; [reflexivity |]. split; [| split; [reflexivity | exact E]].
  change (inject_Z (Z.of_nat 0)) with 0. ring.
- assert (Sk : inject_Z (Z.of_nat (S k)) == inject_Z (Z.of_nat k) + 1).
  { rewrite Nat2Z.inj_succ. unfold Z.succ. rewrite inject_Z_plus.
    reflexivity. }
  assert (K0 : 0 <= inject_Z (Z.of_nat k)).
  { change 0 with (inject_Z 0). rewrite <- Zle_Qle. lia. }
  pose proof (refilled_same_instant b w E Hc) as R.
  cbn [acquire_many]. rewrite acquire_immediate by lra.
  destruct (IH {| max_per_second := max_per_second b;
                  tokens := refilled b w - 1;
                  last_refill := clock w |})
    as (b' & A & T & M & L); cbn [tokens max_per_second last_refill];
    try reflexivity; try lra.
  exists b'. split; [exact A |].
  cbn [tokens max_per_second last_refill] in T, M.
  repeat split; try assumption. rewrite T, R, Sk. ring.
Qed.

(** C8. A token bucket with a rate of at least one per second keeps its
    tokens between 0 and its capacity across [acquire]: the refill adds
    elapsed time times rate, capped at the capacity; with at least one
    token the call takes one and returns without sleeping; otherwise it
    sleeps exactly [(1 - tokens) / rate] seconds and then returns.  From a
    full bucket of capacity [N], [N] calls in a row return without sleeping
    and the next one sleeps [1 / rate] seconds. *)
Theorem token_bucket_spec (b : RateLimiter) (w : world) (fuel : nat) :
  (1 <= max_per_second b)%Z -> bucket_ok b -> last_refill b <= clock w ->
  let rate := inject_Z (max_per_second b) in
  let d := (1 - refilled b w) / rate in
  refilled b w
    == Qmin rate (tokens b + (clock w - last_refill b) * rate)
  /\ 0 <= refilled b w <= rate
  /\ (exists b' w',
        acquire (S (S fuel)) b w = (Ret tt, b', w')
        /\ bucket_ok b'
        /\ max_per_second b' = max_per_second b
        /\ last_refill b' = clock w'
        /\ (1 <= refilled b w ->
            w' = w /\ tokens b' = refilled b w - 1)
        /\ (refilled b w < 1 ->
            w' = {| clock := clock w + d;
                    requests_made := requests_made w;
                    salts_drawn := salts_drawn w;
                    log := Slept d :: log w |}
            /\ tokens b' == 0))
  /\ (forall w0 : world,
        let full := RateLimiter_init (max_per_second b) w0 in
        exists b1 b2 d1,
          acquire_many (S (S fuel)) (Z.to_nat (max_per_second b)) full w0
          = (Ret tt, b1, w0)
          /\ acquire (S (S fuel)) b1 w0
             = (Ret tt, b2,
                {| clock := clock w0 + d1;
                   requests_made := requests_made w0;
                   salts_drawn := salts_drawn w0;
                   log := Slept d1 :: log w0 |})
          /\ d1 == 1 / rate).
Proof.
intros Hr Hb Hc rate d.
pose proof (refilled_bounds b w Hr Hb Hc) as RB. fold rate in RB.
pose proof (cap_ge_1 b Hr) as C1. fold rate in C1.
split; [apply min_Qmin |]. split; [exact RB |]. split.
- destruct (Qlt_le_dec (refilled b w) 1) as [Hlt | Hge].
  + destruct (acquire_blocking b w Hr Hb Hc fuel Hlt)
      as (b' & A & S & M & T & L).
    fold rate in A, S, L. fold d in A, S, L.
    exists b', (snd (sleep d w)). split; [exact A |].
    split; [unfold bucket_ok; rewrite M; fold rate; lra |].
    split; [exact M |].
    split; [rewrite S; exact L |].
    split; [intros H; exfalso; lra |].
    intros _. split; [exact S | exact T].
  + exists {| max_per_second := max_per_second b;
              tokens := refilled b w - 1;
              last_refill := clock w |}, w.
    split; [apply acquire_immediate; exact Hge |].
    split; [unfold bucket_ok; cbn; fold rate; lra |].
    split; [reflexivity |]. split; [reflexivity |].
    split; [intros _; split; reflexivity |].
    intros H. exfalso. lra.
- intros w0 full.
  assert (N : inject_Z (Z.of_nat (Z.to_nat (max_per_second b))) = rate).
  { rewrite Z2Nat.id by lia. reflexivity. }
  destruct (immediate_burst (S fuel) (Z.to_nat (max_per_second b)) w0 full)
    as (b1 & A & T & M & L).
  { reflexivity. }
  { rewrite N. unfold full, RateLimiter_init. cbn. fold rate. lra. }
  { unfold full, RateLimiter_init. cbn. lra. }
  rewrite N in T. unfold full, RateLimiter_init in T, M.
  cbn [tokens max_per_second] in T, M. fold rate in T.
  assert (T0 : tokens b1 == 0) by (rewrite T; ring).
  assert (R1 : refilled b1 w0 == 0).
  { rewrite refilled_same_instant; [exact T0 | exact L |].
    rewrite M. fold rate. lra. }
  destruct (acquire_blocking b1 w0) with (fuel := fuel)
    as (b2 & A2 & S2 & _).
  { rewrite M. exact Hr. }
  { unfold bucket_ok. rewrite M. fold rate. lra. }
  { rewrite L. lra. }
  { lra. }
  rewrite M in A2, S2. fold rate in A2, S2.
  exists b1, b2, ((1 - refilled b1 w0) / rate).
  split; [exact A |]. split; [rewrite A2, S2; reflexivity |].
  rewrite R1. unfold Qdiv. ring.
Qed.

(** A bucket of ten tokens: the eleventh call in a row sleeps a tenth of a
    second. *)
Lemma token_bucket_spec_witness :
  let w0 := {| clock := 0; requests_made := 0; salts_drawn := 0;
               log := [] |} in
  let full := RateLimiter_init 10 w0 in
  (exists b' w', acquire 2 full w0 = (Ret tt, b', w') /\ bucket_ok b')
  /\ (exists b1 b2 d1,
        acquire_many 2 10 full w0 = (Ret tt, b1, w0)
        /\ acquire 2 b1 w0
           = (Ret tt, b2,
              {| clock := clock w0 + d1; requests_made := 0;
                 salts_drawn := 0; log := [Slept d1] |})
        /\ d1 == 1 / 10).
Proof.
intros w0 full.
assert (H1 : (1 <= max_per_second full)%Z) by (vm_compute; discriminate).
assert (H2 : bucket_ok full)
  by (split; vm_compute; discriminate).
assert (H3 : last_refill full <= clock w0) by (vm_compute; discriminate).
pose proof (token_bucket_spec full w0 0 H1 H2 H3) as H.
cbv zeta in H. destruct H as (_ & _ & A & B).
split.
- destruct A as (b' & w' & A1 & A2 & _). exists b', w'. split; assumption.
- exact (B w0).
Defined.

End BucketClaims.

(** ** The retrying transport *)

Section Retry.
Import Models Exn Client Props.

Variable net : nat -> net_outcome.
Variable c : KalshiClient.
Variables method url : string.
Variables params json_body : option (gmap string jvalue).
Variable headers : gmap string string.

Let loop := attempts net c method url params json_body headers.
Let sent := sent_request net method url params json_body headers.
Let wait := backoff c.

Lemma sleep_cases (d : Q) (w : world) :
  (0 <= d /\ sleep d w = (Ret tt, slept d w))
  \/ (d < 0 /\ sleep d w = (Raise ValueError, w)).
Proof.
unfold sleep, slept. destruct (Py.ltb d 0) eqn:E.
- right. apply ltb_lt in E. auto.
- left. apply ltb_ge in E. auto.
Qed.

Lemma wait_nonneg (attempt : nat) : 0 <= _base_backoff c -> 0 <= wait attempt.
Proof.
intros H. unfold wait, backoff.
assert (0 <= 2 ^ Z.of_nat attempt) by (apply Qpower_0_le; lra).
nra.
Qed.

(** One turn of the loop, on the world [sent w] the request leaves. *)
Lemma attempt_unfold (n k : nat) (last : option exn) (w : world) :
  loop (S n) k last w
  = match net (requests_made w) with
    | Responded r _ =>
        if (status_code r =? 429)%Z then
          match sleep (wait k) (sent w) with
          | (Ret _, w2) => loop n (S k) last w2
          | (Raise e, w2) => (Raise e, w2)
          | (Diverge, w2) => (Diverge, w2)
          end
        else if (400 <=? status_code r)%Z then
          (Raise (api_error_of r), sent w)
        else if (status_code r =? 204)%Z then (Ret (JObject ∅), sent w)
        else
          match json r with
          | Some d => (Ret d, sent w)
          | None => (Raise JSONDecodeError, sent w)
          end
    | Failed e _ =>
        if is_transport_error e then
          match sleep (wait k) (sent w) with
          | (Ret _, w2) => loop n (S k) (Some e) w2
          | (Raise e', w2) => (Raise e', w2)
          | (Diverge, w2) => (Diverge, w2)
          end
        else (Raise e, sent w)
    end.
Proof. reflexivity. Qed.

Lemma sent_world (w : world) :
  sent w
  = {| clock := clock w + elapsed_of (net (requests_made w));
       requests_made := S (requests_made w);
       salts_drawn := salts_drawn w;
       log := Sent (clock w) (Auth.upper method) url params json_body
                headers :: log w |}.
Proof. reflexivity. Qed.

(** A 429 answer: back off, then go on with the next attempt. *)
Lemma attempt_429 (n k : nat) (last : option exn) (w : world) (r : response)
    (t : Q) :
  0 <= _base_backoff c ->
  net (requests_made w) = Responded r t ->
  status_code r = 429%Z ->
  loop (S n) k last w = loop n (S k) last (slept (wait k) (sent w)).
Proof.
intros Hb Hn Hs. rewrite attempt_unfold, Hn, Hs. cbn [Z.eqb Pos.eqb].
destruct (sleep_cases (wait k) (sent w)) as [[_ E] | [E _]].
- rewrite E. reflexivity.
- pose proof (wait_nonneg k Hb). exfalso. lra.
Qed.

(** A connection error or a timeout: remember it, back off, go on. *)
Lemma attempt_transport_error (n k : nat) (last : option exn) (w : world)
    (e : exn) (t : Q) :
  0 <= _base_backoff c ->
  net (requests_made w) = Failed e t ->
  is_transport_error e = true ->
  loop (S n) k last w = loop n (S k) (Some e) (slept (wait k) (sent w)).
Proof.
intros Hb Hn He. rewrite attempt_unfold, Hn, He.
destruct (sleep_cases (wait k) (sent w)) as [[_ E] | [E _]].
- rewrite E. reflexivity.
- pose proof (wait_nonneg k Hb). exfalso. lra.
Qed.

(** Any other status of 400 or more: the loop ends at once, raising. *)
Lemma attempt_api_error (n k : nat) (last : option exn) (w : world)
    (r : response) (t : Q) :
  net (requests_made w) = Responded r t ->
  (400 <= status_code r)%Z -> status_code r <> 429%Z ->
  loop (S n) k last w = (Raise (api_error_of r), sent w).
Proof.
intros Hn H4 H9. rewrite attempt_unfold, Hn.
assert ((status_code r =? 429)%Z = false) as -> by (apply Z.eqb_neq; exact H9).
assert ((400 <=? status_code r)%Z = true) as -> by (apply Z.leb_le; exact H4).
reflexivity.
Qed.

Lemma count_sent_app (l1 l2 : list event) :
  count_sent (l1 ++ l2) = (count_sent l1 + count_sent l2)%nat.
Proof.
induction l1 as [| e l1 IH]; [reflexivity |].
destruct e; cbn; rewrite IH; reflexivity.
Qed.

(** What the loop adds to the world: at most as many requests as attempts
    are left, all with the headers it was given, and no signature. *)
Lemma attempts_effect (n : nat) :
  forall (k : nat) (last : option exn) (w : world),
  exists evs,
    log (snd (loop n k last w)) = evs ++ log w
    /\ Forall (sent_with headers) evs
    /\ count_sent evs = (requests_made (snd (loop n k last w))
                         - requests_made w)%nat
    /\ (requests_made w <= requests_made (snd (loop n k last w))
        <= requests_made w + n)%nat
    /\ salts_drawn (snd (loop n k last w)) = salts_drawn w.
Proof.
induction n as [| n IH]; intros k last w.
- exists []. unfold loop. cbn. repeat split; try lia. constructor.
- assert (Stop : forall res : res json_doc,
            exists evs,
              log (snd (res, sent w)) = evs ++ log w
              /\ Forall (sent_with headers) evs
              /\ count_sent evs
                 = (requests_made (snd (res, sent w)) - requests_made w)%nat
              /\ (requests_made w <= requests_made (snd (res, sent w))
                  <= requests_made w + S n)%nat
              /\ salts_drawn (snd (res, sent w)) = salts_drawn w).
  { intros res.
    exists [Sent (clock w) (Auth.upper method) url params json_body headers].
    rewrite sent_world. cbn. repeat split; try lia. repeat constructor. }
  assert (Go : forall last',
            let out :=
              match sleep (wait k) (sent w) with
              | (Ret _, w2) => loop n (S k) last' w2
              | (Raise e, w2) => (Raise e, w2)
              | (Diverge, w2) => (Diverge, w2)
              end in
            exists evs,
              log (snd out) = evs ++ log w
              /\ Forall (sent_with headers) evs
              /\ count_sent evs
                 = (requests_made (snd out) - requests_made w)%nat
              /\ (requests_made w <= requests_made (snd out)
                  <= requests_made w + S n)%nat
              /\ salts_drawn (snd out) = salts_drawn w).
  { intros last'. cbv zeta.
    destruct (sleep_cases (wait k) (sent w)) as [[_ E] | [_ E]]; rewrite E.
    - destruct (IH (S k) last' (slept (wait k) (sent w)))
        as (evs & L & F & N & R & Sd).
      exists (evs ++ [Slept (wait k);
                      Sent (clock w) (Auth.upper method) url params json_body
                        headers]).
      cbn [slept log requests_made salts_drawn] in L, N, R, Sd.
      change (log (sent w))
        with (Sent (clock w) (Auth.upper method) url params json_body headers
              :: log w) in L.
      change (requests_made (sent w)) with (S (requests_made w)) in N, R.
      change (salts_drawn (sent w)) with (salts_drawn w) in Sd.
      split; [rewrite L, <- app_assoc; reflexivity |].
      split.
      { apply Forall_app. split; [exact F |]. repeat constructor. }
      split.
      { rewrite count_sent_app. cbn [count_sent]. lia. }
      split; [lia | exact Sd].
    - apply (Stop (Raise ValueError)). }
  rewrite attempt_unfold.
  destruct (net (requests_made w)) as [r t | e t].
  + destruct (status_code r =? 429)%Z; [apply Go |].
    destruct (400 <=? status_code r)%Z; [apply Stop |].
    destruct (status_code r =? 204)%Z; [apply Stop |].
    destruct (json r); apply Stop.
  + destruct (is_transport_error e); [apply Go | apply Stop].
Qed.

End Retry.

Section Transport.
Import Models Exn Client Props.

Lemma acquire_counters (fuel : nat) : forall (b : RateLimiter) (w : world),
  requests_made (snd (acquire fuel b w)) = requests_made w
  /\ salts_drawn (snd (acquire fuel b w)) = salts_drawn w.
Proof.
induction fuel as [| fuel IH]; intros b w; [split; reflexivity |].
cbn [acquire].
destruct (Qle_bool 1 _); [split; reflexivity |].
destruct (_ =? 0)%Z; [split; reflexivity |].
match goal with |- context [sleep ?d w] =>
  destruct (sleep_cases d w) as [[_ E] | [_ E]]; rewrite E
end.
- match goal with |- context [acquire fuel ?b1 ?w1] =>
    destruct (IH b1 w1) as [A B]
  end.
  rewrite A, B. split; reflexivity.
- split; reflexivity.
Qed.

(** A request makes at most [_max_retries] calls of [session.request]. *)
Lemma request_sends_at_most (sign : string -> string -> nat -> string)
    (net : nat -> net_outcome) (fuel : nat) (c : KalshiClient)
    (method path : string) (params json_body : option (gmap string jvalue))
    (authenticated : bool) (w : world) :
  (requests_made
     (snd (_request sign net fuel c method path params json_body
             authenticated w))
   <= requests_made w + _max_retries c)%nat.
Proof.
unfold _request.
destruct (acquire_counters fuel
            (if is_write method then _write_limiter c else _read_limiter c)
            w) as [A _].
destruct (acquire fuel _ w) as [[ra b1] wa]. cbn [snd] in A.
destruct ra; cbn [snd]; try lia.
assert (B : requests_made
              (snd (build_headers sign
                      (set_limiter c (is_write method) b1) method path
                      authenticated wa)) = requests_made wa).
{ unfold build_headers. destruct authenticated; [| reflexivity].
  destruct (private_key _); reflexivity. }
destruct (build_headers sign _ method path authenticated wa) as [h wb].
cbn [snd] in B.
destruct (attempts_effect net (set_limiter c (is_write method) b1) method
            (base_url c +:+ path) params json_body h
            (_max_retries (set_limiter c (is_write method) b1)) 0 None wb)
  as (_ & _ & _ & _ & R & _).
destruct (attempts net _ method _ params json_body h _ 0 None wb)
  as [r w']. cbn [snd] in *.
change (_max_retries (set_limiter c (is_write method) b1))
  with (_max_retries c) in R. lia.
Qed.

(** C3. A status of 400 or more, other than 429, whose body is JSON but not
    an object ends the retry loop at once, as the specification says, but with an
    [AttributeError] and not with an API error: [body.get] is called on a
    list, a scalar or [None]. *)
Theorem non_object_error_body (net : nat -> net_outcome) (c : KalshiClient)
    (method url : string) (params json_body : option (gmap string jvalue))
    (headers : gmap string string) (n k : nat) (last : option exn)
    (w : world) (r : response) (t : Q) (d : json_doc) :
  net (requests_made w) = Responded r t ->
  (400 <= status_code r)%Z -> status_code r <> 429%Z ->
  json r = Some d -> (forall body, d <> JObject body) ->
  attempts net c method url params json_body headers (S n) k last w
  = (Raise AttributeError,
     sent_request net method url params json_body headers w)
  /\ is_api_error AttributeError = false.
Proof.
intros Hn H4 H9 Hj Hd. split; [| reflexivity].
rewrite (attempt_api_error net c method url params json_body headers n k
           last w r t Hn H4 H9).
unfold api_error_of. rewrite Hj.
destruct d as [body | items | v |]; [| reflexivity ..].
exfalso. apply (Hd body). reflexivity.
Qed.

Lemma non_object_error_body_witness :
  attempts (script [server_error_list]) client0 "GET" "u" None None ∅ 3 0
    None world0
  = (Raise AttributeError,
     sent_request (script [server_error_list]) "GET" "u" None None ∅ world0)
  /\ (let out :=
        _request toy_sign (script [server_error_list]) 2 client0 "GET"
          "/portfolio/balance" None None true world0 in
      fst (fst out) = Raise AttributeError
      /\ requests_made (snd out) = 1%nat
      /\ total_slept (log (snd out)) == 0).
Proof.
split.
- apply (non_object_error_body (script [server_error_list]) client0 "GET"
           "u" None None ∅ 2 0 None world0
           {| status_code := 500; json := Some (JArray []);
              text := [91; 93]%N |} 0.2 (JArray [])).
  + reflexivity.
  + vm_compute. discriminate.
  + discriminate.
  + reflexivity.
  + discriminate.
- vm_compute. repeat split; reflexivity.
Defined.

(** X25. The retry loop of [_request] sends at most [_max_retries]
    requests, 3 for a client as constructed.  After a 429 answer, and after
    a connection error or a timeout, it sleeps [_base_backoff * 2^attempt]
    and goes on with the next attempt; any other status of 400 or more ends
    the loop at once, nothing more being sent, with an API error that
    carries the status code, the message and the body when the body is a
    JSON object or no JSON at all; with no attempt left it raises the last
    connection error or timeout, or "Max retries exceeded" if there was
    none.  The answers [429, 429, 200] succeed at the third request after
    sleeping [base + 2 * base]; three 429 answers end in the max-retries
    error. *)
Theorem retry_loop_policy (net : nat -> net_outcome) (c : KalshiClient)
    (method url : string) (params json_body : option (gmap string jvalue))
    (headers : gmap string string) :
  0 <= _base_backoff c ->
  let loop := attempts net c method url params json_body headers in
  let sent := sent_request net method url params json_body headers in
  (forall n k last w r t,
     net (requests_made w) = Responded r t -> status_code r = 429%Z ->
     loop (S n) k last w = loop n (S k) last (slept (backoff c k) (sent w)))
  /\ (forall n k last w e t,
        net (requests_made w) = Failed e t -> is_transport_error e = true ->
        loop (S n) k last w
        = loop n (S k) (Some e) (slept (backoff c k) (sent w)))
  /\ (forall n k last w r t,
        net (requests_made w) = Responded r t ->
        (400 <= status_code r)%Z -> status_code r <> 429%Z ->
        loop (S n) k last w = (Raise (api_error_of r), sent w)
        /\ (json r = None ->
            api_error_of r
            = KalshiAPIError (status_code r)
                (JStr (utf8 (take 200 (text r)))) ∅)
        /\ (forall body, json r = Some (JObject body) ->
            api_error_of r
            = KalshiAPIError (status_code r)
                (default (JStr (utf8 (take 200 (text r))))
                   (body !! "message"))
                body))
  /\ (forall k last w,
        loop 0%nat k last w
        = (Raise (default (KalshiAPIError 0 (JStr "Max retries exceeded") ∅)
                    last), w))
  /\ (forall sign fuel path authenticated w,
        (requests_made
           (snd (_request sign net fuel c method path params json_body
                   authenticated w))
         <= requests_made w + _max_retries c)%nat)
  /\ (forall k p u r wr w0,
        _max_retries (KalshiClient_init k p u r wr w0) = 3%nat
        /\ _base_backoff (KalshiClient_init k p u r wr w0) = 0.5)
  /\ (let run answers :=
        _request toy_sign (script answers) 2 client0 "GET"
          "/portfolio/balance" None None true world0 in
      let ok := run [resp 429; resp 429; resp 200] in
      let exhausted := run [resp 429; resp 429; resp 429] in
      let dropped :=
        run [Failed (Timeout "t") 30; resp 429;
             Failed (ConnectionError "c") 0] in
      fst (fst ok) = Ret (JObject ∅)
      /\ requests_made (snd ok) = 3%nat
      /\ total_slept (log (snd ok))
         == _base_backoff client0 + 2 * _base_backoff client0
      /\ fst (fst exhausted)
         = Raise (KalshiAPIError 0 (JStr "Max retries exceeded") ∅)
      /\ requests_made (snd exhausted) = 3%nat
      /\ fst (fst dropped) = Raise (ConnectionError "c")
      /\ requests_made (snd dropped) = 3%nat).
Proof.
intros Hb loop sent.
split; [intros; eapply attempt_429; eassumption |].
split; [intros; eapply attempt_transport_error; eassumption |].
split.
{ intros n k last w r t Hn H4 H9.
  split; [eapply attempt_api_error; eassumption |].
  unfold api_error_of. split.
  - intros ->. reflexivity.
  - intros body ->. reflexivity. }
split; [reflexivity |].
split; [intros; apply request_sends_at_most |].
split; [intros; split; reflexivity |].
vm_compute. repeat split; reflexivity.
Qed.

Lemma retry_loop_policy_witness :
  let net := script [resp 429; server_error_text] in
  let loop := attempts net client0 "GET" "u" None None ∅ in
  loop 3%nat 0%nat None world0
  = loop 2%nat 1%nat None
      (slept (backoff client0 0)
         (sent_request net "GET" "u" None None ∅ world0))
  /\ fst (loop 3%nat 0%nat None world0)
     = Raise (KalshiAPIError 503 (JStr "café") ∅).
Proof.
intros net loop.
assert (Hb : 0 <= _base_backoff client0) by (vm_compute; discriminate).
pose proof (retry_loop_policy net client0 "GET" "u" None None ∅ Hb) as H.
cbv zeta in H. destruct H as (A & _ & B & _).
assert (E : loop 3%nat 0%nat None world0
            = loop 2%nat 1%nat None
                (slept (backoff client0 0)
                   (sent_request net "GET" "u" None None ∅ world0))).
{ apply (A 2%nat 0%nat None world0
           {| status_code := 429; json := Some (JObject ∅); text := [] |} 0);
    reflexivity. }
split; [exact E |].
rewrite E. unfold loop.
destruct (B 1%nat 1%nat None
            (slept (backoff client0 0)
               (sent_request net "GET" "u" None None ∅ world0))
            {| status_code := 503; json := None;
               text := [99; 97; 102; 233]%N |} 0.1) as (B1 & B2 & _);
  [reflexivity | vm_compute; discriminate | discriminate |].
rewrite B1, B2 by reflexivity. vm_compute. reflexivity.
Defined.

End Transport.

Section Signing.
Import Models Exn Client Props.

(** The request of the example: authenticated, answered 429 and then 204. *)
Lemma retried_request_log :
  let w' := snd (_request toy_sign (script [resp 429; resp 204]) 2 client0
                   "GET" "/portfolio/balance" None None true world0) in
  requests_made w' = 2%nat
  /\ salts_drawn w' = 1%nat
  /\ (exists h u,
        history w' = [Sent 0 "GET" u None None h; Slept 0.5;
                      Sent 0.5 "GET" u None None h]
        /\ h !! "KALSHI-ACCESS-TIMESTAMP" = Some "0").
Proof.
cbv zeta. split; [vm_compute; reflexivity |].
split; [vm_compute; reflexivity |].
eexists. eexists. split; vm_compute; reflexivity.
Qed.

(** C1 fails as stated: the retry of an authenticated request answered 429
    is sent half a second later with the timestamp, and the signature, of
    the first attempt. *)
Lemma headers_not_rebuilt_per_attempt :
  ~ signed_per_attempt
      (snd (_request toy_sign (script [resp 429; resp 204]) 2 client0
              "GET" "/portfolio/balance" None None true world0)).
Proof.
unfold signed_per_attempt. vm_compute. discriminate.
Qed.

(** C1, amended. The headers of a request are built once, after the rate
    limiter lets the call through and before the retry loop: for an
    authenticated call of a client with a key the timestamp is the clock
    reading at that moment and one signature is computed; every attempt of
    the call, retries included, is sent with these same headers. *)
Theorem headers_built_once (sign : string -> string -> nat -> string)
    (net : nat -> net_outcome) (fuel : nat) (c : KalshiClient)
    (method path : string) (params json_body : option (gmap string jvalue))
    (authenticated : bool) (w : world) :
  let limiter :=
    if is_write method then _write_limiter c else _read_limiter c in
  let acquired := acquire fuel limiter w in
  let wa := snd acquired in
  let ca := set_limiter c (is_write method) (snd (fst acquired)) in
  let h := fst (build_headers sign ca method path authenticated wa) in
  let w' := snd (_request sign net fuel c method path params json_body
                   authenticated w) in
  fst (fst acquired) = Ret tt ->
  (exists evs,
     log w' = evs ++ log wa
     /\ Forall (sent_with h) evs
     /\ count_sent evs = (requests_made w' - requests_made w)%nat)
  /\ (salts_drawn w' <= S (salts_drawn w))%nat
  /\ (forall key, authenticated = true -> private_key c = Some key ->
        salts_drawn w' = S (salts_drawn w)
        /\ h = Auth.get_auth_headers sign (api_key c) key (Auth.upper method)
                 ("/trade-api/v2" +:+ path) (clock wa) (salts_drawn w)
        /\ h !! "KALSHI-ACCESS-TIMESTAMP"
           = Some (pretty (Py.int (clock wa * 1000)))).
Proof.
intros limiter acquired wa ca h w' Hacq.
destruct (acquire_counters fuel limiter w) as [A1 A2].
fold acquired in A1, A2. fold wa in A1, A2.
assert (Ew : w' = snd (attempts net ca method (base_url c +:+ path) params
                         json_body h (_max_retries c) 0 None
                         (snd (build_headers sign ca method path
                                 authenticated wa)))).
{ unfold w', _request. fold limiter. fold acquired.
  unfold h, ca, wa. destruct acquired as [[ra b1] wa0].
  cbn [fst snd] in *. subst ra.
  destruct (build_headers sign _ method path authenticated wa0) as [h0 wb].
  cbn [fst snd].
  change (_max_retries (set_limiter c (is_write method) b1))
    with (_max_retries c).
  destruct (attempts net _ method _ params json_body h0 _ 0 None wb).
  reflexivity. }
assert (Eb : forall key, authenticated = true -> private_key c = Some key ->
          build_headers sign ca method path authenticated wa
          = (Auth.get_auth_headers sign (api_key c) key (Auth.upper method)
               ("/trade-api/v2" +:+ path) (clock wa) (salts_drawn wa),
             {| clock := clock wa; requests_made := requests_made wa;
                salts_drawn := S (salts_drawn wa); log := log wa |})).
{ intros key -> Hk. unfold build_headers.
  change (private_key ca) with (private_key c). rewrite Hk. reflexivity. }
assert (Bw : let wb := snd (build_headers sign ca method path authenticated
                              wa) in
             log wb = log wa /\ requests_made wb = requests_made wa
             /\ (salts_drawn wa <= salts_drawn wb <= S (salts_drawn wa))%nat).
{ unfold build_headers. destruct authenticated;
    [destruct (private_key ca) |]; cbn; repeat split; lia. }
cbv zeta in Bw. destruct Bw as (B1 & B2 & B3).
destruct (attempts_effect net ca method (base_url c +:+ path) params
            json_body h (_max_retries c) 0 None
            (snd (build_headers sign ca method path authenticated wa)))
  as (evs & L & F & N & _ & Sd).
rewrite <- Ew in L, N, Sd.
split; [| split].
- exists evs. rewrite L, B1. split; [reflexivity |].
  split; [exact F |]. rewrite N, B2, A1. reflexivity.
- rewrite Sd. lia.
- intros key Ha Hk. specialize (Eb key Ha Hk).
  rewrite Sd. rewrite Eb. cbn [snd salts_drawn].
  split; [rewrite A2; reflexivity |].
  unfold h. rewrite Eb. cbn [fst]. rewrite A2.
  split; [reflexivity |].
  unfold Auth.get_auth_headers.
  rewrite lookup_insert_ne by discriminate.
  apply lookup_insert_eq.
Qed.

Lemma headers_built_once_witness :
  let w' := snd (_request toy_sign (script [resp 429; resp 204]) 2 client0
                   "GET" "/portfolio/balance" None None true world0) in
  let h := Auth.get_auth_headers toy_sign "key-id" "pem" "GET"
             "/trade-api/v2/portfolio/balance" 0 0 in
  (exists evs, log w' = evs ++ [] /\ Forall (sent_with h) evs
               /\ count_sent evs = 2%nat)
  /\ salts_drawn w' = 1%nat.
Proof.
intros w' h.
pose proof (headers_built_once toy_sign (script [resp 429; resp 204]) 2
              client0 "GET" "/portfolio/balance" None None true world0) as H.
cbv zeta in H. destruct H as (A & _ & B); [vm_compute; reflexivity |].
destruct (B "pem" eq_refl eq_refl) as (B1 & B2 & _).
split.
- destruct A as (evs & L & F & N). exists evs.
  split; [exact L |]. split.
  + rewrite B2 in F. exact F.
  + rewrite N. vm_compute. reflexivity.
- exact B1.
Defined.

End Signing.

(** ** The trading cycle *)

Section Cycle.
Import Models Exn Risk Main Props.

Variable env : cycle_env.
Variable settings : Settings.

(** In scan-only mode the loop logs and counts every signal and touches
    nothing else. *)
Lemma process_signals_scan_only (signals : list TradeSignal) :
  forall st : cycle_state,
  process_signals env settings true signals st
  = (Ret tt,
     {| rm := rm st; balance := balance st;
        trades_executed :=
          (trades_executed st + Z.of_nat (length signals))%Z;
        balance_calls := balance_calls st; order_calls := order_calls st;
        events := map LoggedSignal (rev signals) ++ events st |}).
Proof.
induction signals as [| s rest IH]; intros st.
- cbn. rewrite Z.add_0_r. destruct st; reflexivity.
- cbn [process_signals process_signal]. rewrite IH.
  cbn [emit count_trade rm balance trades_executed balance_calls order_calls
       events].
  f_equal. f_equal.
  + rewrite <- Z.add_assoc. f_equal. cbn [length]. lia.
  + cbn [rev]. rewrite map_app, <- app_assoc. reflexivity.
Qed.

Lemma collect_signals_spec (runs : list (option (list TradeSignal))) :
  forall st : cycle_state,
  collect_signals runs st
  = (signals_of runs,
     {| rm := rm st; balance := balance st;
        trades_executed := trades_executed st;
        balance_calls := balance_calls st; order_calls := order_calls st;
        events := map RanStrategy (rev runs) ++ events st |}).
Proof.
induction runs as [| r rest IH]; intros st.
- cbn. destruct st; reflexivity.
- cbn [collect_signals]. rewrite IH.
  cbn [emit rm balance trades_executed balance_calls order_calls events rev].
  rewrite map_app, <- app_assoc. destruct r; reflexivity.
Qed.

Lemma insert_signal_length (s : TradeSignal) (l : list TradeSignal) :
  length (insert_signal s l) = S (length l).
Proof.
induction l as [| y l IH]; [reflexivity |].
cbn [insert_signal]. destruct (Py.ltb _ _); cbn [length]; [rewrite IH |];
  reflexivity.
Qed.

Lemma sort_signals_length (l : list TradeSignal) :
  length (sort_signals l) = length l.
Proof.
induction l as [| s l IH]; [reflexivity |].
cbn [sort_signals foldr]. rewrite insert_signal_length.
fold (sort_signals l). rewrite IH. reflexivity.
Qed.

(** Steps 2 to 5 in scan-only mode. *)
Lemma after_status_scan_only (st : cycle_state) :
  balance_survivable env ->
  balance_calls st = 0%nat -> trades_executed st = 0%Z ->
  exists st',
    after_status env settings true st
    = (Ret (Z.of_nat (length (signals_of (strategy_runs env)))), st')
    /\ rm st' = rm st
    /\ events st'
       = map LoggedSignal (rev (sort_signals (signals_of (strategy_runs env))))
         ++ map RanStrategy (rev (strategy_runs env))
         ++ GotBalance :: events st.
Proof.
intros Hb Hc Ht. unfold after_status, get_balance.
cbn [set_balance balance_calls rm balance trades_executed order_calls events].
rewrite Hc.
assert (G : forall st0 : cycle_state,
          rm st0 = rm st -> trades_executed st0 = 0%Z ->
          events st0 = GotBalance :: events st ->
          exists st',
            match collect_signals (strategy_runs env) st0 with
            | ([], st1) => (Ret 0%Z, st1)
            | (all_signals, st1) =>
                match
                  process_signals env settings true
                    (sort_signals all_signals) st1
                with
                | (Ret _, st2) => (Ret (trades_executed st2), st2)
                | (Raise e, st2) => (Raise e, st2)
                | (Diverge, st2) => (Diverge, st2)
                end
            end
            = (Ret (Z.of_nat (length (signals_of (strategy_runs env)))), st')
            /\ rm st' = rm st
            /\ events st'
               = map LoggedSignal
                   (rev (sort_signals (signals_of (strategy_runs env))))
                 ++ map RanStrategy (rev (strategy_runs env))
                 ++ GotBalance :: events st).
{ intros st0 Hr Ht0 He. rewrite collect_signals_spec.
  destruct (signals_of (strategy_runs env)) as [| s l] eqn:Es.
  - eexists. split; [reflexivity |]. cbn [rm events]. rewrite He.
    split; [exact Hr | reflexivity].
  - rewrite process_signals_scan_only.
    cbn [trades_executed rm events]. rewrite sort_signals_length, Ht0, He.
    eexists. split; [reflexivity |]. cbn [rm events].
    split; [exact Hr | reflexivity]. }
destruct Hb as [[b Hb] | [e [Hb He]]]; rewrite Hb.
- apply G; reflexivity || assumption.
- rewrite He. apply G; reflexivity || assumption.
Qed.

End Cycle.

Section CycleClaims.
Import Models Exn Risk Main Props.

(** No event of the list is a call of the risk manager. *)
Lemma scan_only_events_quiet (signals : list TradeSignal)
    (runs : list (option (list TradeSignal))) :
  forallb (fun e => negb (calls_risk_manager e))
    (map LoggedSignal signals ++ map RanStrategy runs
     ++ [GotBalance; GotExchangeStatus]) = true.
Proof.
rewrite !forallb_app. rewrite !andb_true_iff. repeat split.
- induction signals; [reflexivity | exact IHsignals].
- induction runs; [reflexivity | exact IHruns].
Qed.

(** C9 fails as stated: only a [KalshiAPIError] of the balance call is
    caught; a connection error, which the transport raises as such once its
    retries are used up, leaves the cycle through its exception. *)
Lemma balance_transport_error_aborts_cycle :
  ~ scan_only_on_balance_failure env_balance_down settings0 manager0 false.
Proof.
intros H. destruct H as (st & E & _).
- left. eexists. split; reflexivity.
- eexists. reflexivity.
- vm_compute in E. discriminate E.
Qed.

(** C9, amended. If the status answer reports the exchange inactive the
    cycle returns 0 at once: no balance call, no strategy run, no signal
    handled, the risk manager untouched.  If trading is paused, or the
    balance call fails with an API error ([KalshiAPIError]), the cycle runs
    as a scan-only cycle (any other exception of the balance call leaves
    the cycle); the flag is local to the call, so the next cycle starts
    again from the command-line flag.  A scan-only cycle counts every
    signal as a trade and never calls the risk manager. *)
Theorem trading_cycle_degradation (env : cycle_env) (settings : Settings)
    (risk_manager : RiskManager) (scan_only : bool) :
  (forall status,
     exchange_status env = Ret status ->
     truthy (status !! "exchange_active") = false ->
     run_trading_cycle env settings risk_manager scan_only
     = (Ret 0%Z,
        {| rm := risk_manager; balance := 0; trades_executed := 0;
           balance_calls := 0; order_calls := 0;
           events := [GotExchangeStatus] |}))
  /\ (forall status,
        exchange_status env = Ret status ->
        truthy (status !! "exchange_active") = true ->
        truthy (status !! "trading_active") = false ->
        run_trading_cycle env settings risk_manager scan_only
        = run_trading_cycle env settings risk_manager true)
  /\ (forall e,
        balances env 0%nat = Raise e -> is_api_error e = true ->
        run_trading_cycle env settings risk_manager scan_only
        = run_trading_cycle env settings risk_manager true)
  /\ (forall e,
        status_lets_through env ->
        balances env 0%nat = Raise e -> is_api_error e = false ->
        fst (run_trading_cycle env settings risk_manager scan_only)
        = Raise e)
  /\ (status_lets_through env -> balance_survivable env ->
      exists st,
        run_trading_cycle env settings risk_manager true
        = (Ret (Z.of_nat (length (signals_of (strategy_runs env)))), st)
        /\ rm st = risk_manager
        /\ events st
           = map LoggedSignal
               (rev (sort_signals (signals_of (strategy_runs env))))
             ++ map RanStrategy (rev (strategy_runs env))
             ++ [GotBalance; GotExchangeStatus]
        /\ forallb (fun e => negb (calls_risk_manager e)) (events st) = true)
  /\ (forall rest args_scan_only,
        fst (run_cycles (env :: rest) settings risk_manager args_scan_only)
        = (fst (run_trading_cycle env settings risk_manager args_scan_only),
           rev (events
                  (snd (run_trading_cycle env settings risk_manager
                          args_scan_only))))
          :: fst (run_cycles rest settings
                    (snd (run_cycles [env] settings risk_manager
                            args_scan_only))
                    args_scan_only))
  /\ (let out :=
        fst (run_cycles [env_with true false; env_with true true;
                         env_with false true]
               settings0 manager0 false) in
      map fst out = [Ret 2%Z; Ret 2%Z; Ret 0%Z]
      /\ map (fun r => existsb calls_risk_manager (snd r)) out
         = [false; true; false]
      /\ map (fun r => existsb handles_signal (snd r)) out
         = [true; true; false]).
Proof.
split; [| split; [| split; [| split; [| split; [| split]]]]].
- intros status Hs He. unfold run_trading_cycle. rewrite Hs, He. reflexivity.
- intros status Hs He Ht. unfold run_trading_cycle. rewrite Hs, He, Ht.
  cbn [negb]. destruct scan_only; reflexivity.
- intros e Hb He.
  assert (A : forall f,
            after_status env settings f
              (emit GotExchangeStatus (initial_state risk_manager))
            = after_status env settings true
                (emit GotExchangeStatus (initial_state risk_manager))).
  { intros f. unfold after_status, get_balance.
    cbn [emit initial_state set_balance balance_calls rm balance
         trades_executed order_calls events].
    rewrite Hb, He. reflexivity. }
  unfold run_trading_cycle.
  destruct (exchange_status env) as [status | e' |]; [| | reflexivity].
  + destruct (negb (truthy (status !! "exchange_active"))); [reflexivity |].
    destruct (negb (truthy (status !! "trading_active")));
      (etransitivity; [apply A | symmetry; apply A]).
  + destruct (is_api_error e'); [| reflexivity]. apply A.
- intros e Hl Hb He.
  assert (A : forall f,
            fst (after_status env settings f
                   (emit GotExchangeStatus (initial_state risk_manager)))
            = Raise e).
  { intros f. unfold after_status, get_balance.
    cbn [emit initial_state set_balance balance_calls rm balance
         trades_executed order_calls events].
    rewrite Hb, He. reflexivity. }
  unfold run_trading_cycle.
  destruct Hl as [(status & Hs & Ha) | (e' & Hs & He')]; rewrite Hs.
  + rewrite Ha. cbn [negb].
    destruct (negb (truthy (status !! "trading_active"))); apply A.
  + rewrite He'. apply A.
- intros Hl Hb.
  assert (E : run_trading_cycle env settings risk_manager true
              = after_status env settings true
                  (emit GotExchangeStatus (initial_state risk_manager))).
  { unfold run_trading_cycle.
    destruct Hl as [(status & Hs & Ha) | (e & Hs & He)]; rewrite Hs.
    - rewrite Ha. cbn [negb].
      destruct (negb (truthy (status !! "trading_active"))); reflexivity.
    - rewrite He. reflexivity. }
  rewrite E.
  destruct (after_status_scan_only env settings
              (emit GotExchangeStatus (initial_state risk_manager)) Hb
              eq_refl eq_refl) as (st & R & Hr & Hev).
  exists st. split; [exact R |]. split; [exact Hr |].
  split; [exact Hev |]. rewrite Hev. apply scan_only_events_quiet.
- intros rest flag. cbn [run_cycles].
  destruct (run_trading_cycle env settings risk_manager flag) as [r st].
  cbn [fst snd].
  destruct (run_cycles rest settings _ flag) as [out rm2]. reflexivity.
- vm_compute. repeat split; reflexivity.
Qed.

(** A paused exchange, then an open one, then a closed one. *)
Lemma trading_cycle_degradation_witness :
  run_trading_cycle (env_with true false) settings0 manager0 false
  = run_trading_cycle (env_with true false) settings0 manager0 true
  /\ fst (run_trading_cycle (env_with false true) settings0 manager0 false)
     = Ret 0%Z
  /\ (exists st,
        run_trading_cycle (env_with true true) settings0 manager0 true
        = (Ret 2%Z, st)
        /\ rm st = manager0).
Proof.
pose proof (trading_cycle_degradation (env_with true false) settings0
              manager0 false) as (_ & A & _).
pose proof (trading_cycle_degradation (env_with false true) settings0
              manager0 false) as (B & _).
pose proof (trading_cycle_degradation (env_with true true) settings0
              manager0 true) as (_ & _ & _ & _ & C & _).
split; [eapply A; reflexivity |].
split; [erewrite B; reflexivity |].
destruct C as (st & R & Hr & _).
- left. eexists. split; reflexivity.
- left. eexists. reflexivity.
- exists st. split; [exact R | exact Hr].
Defined.

End CycleClaims.

(** * Further properties of the code *)

(** ** Helpers *)

Section HelperFacts.
Import Helpers.

Lemma floor_inject (z : Z) : Qfloor (inject_Z z) = z.
Proof. apply Qfloor_Z. Qed.

(** X1. Rounding to cents is off by at most half a cent. *)
Theorem dollars_to_cents_error (dollars : Q) :
  - (1 # 2) <= inject_Z (dollars_to_cents dollars) - dollars * 100 <= 1 # 2.
Proof.
unfold dollars_to_cents, round.
set (x := dollars * 100).
pose proof (Qfloor_le x) as L. pose proof (Qlt_floor x) as U.
rewrite inject_Z_plus in U. change (inject_Z 1) with 1 in U.
destruct (Py.ltb (x - inject_Z (Qfloor x)) (1 # 2)) eqn:E1.
- apply ltb_lt in E1. lra.
- apply ltb_ge in E1.
  destruct (Py.ltb (1 # 2) (x - inject_Z (Qfloor x))) eqn:E2.
  + rewrite inject_Z_plus. change (inject_Z 1) with 1. lra.
  + apply ltb_ge in E2. destruct (Z.even (Qfloor x)).
    * lra.
    * rewrite inject_Z_plus. change (inject_Z 1) with 1. lra.
Qed.

(** X2. Converting cents to dollars and back gives the cents again. *)
Theorem cents_round_trip (cents : Z) :
  dollars_to_cents (cents_to_dollars cents) = cents.
Proof.
unfold dollars_to_cents, cents_to_dollars, round.
assert (E : inject_Z cents / 100 * 100 == inject_Z cents)
  by (apply div_mul; reflexivity).
rewrite (Qfloor_comp _ _ E), floor_inject.
assert (Py.ltb (inject_Z cents / 100 * 100 - inject_Z cents) (1 # 2) = true)
  as -> by (apply ltb_lt; rewrite E; lra).
reflexivity.
Qed.

End HelperFacts.

(** ** The risk manager *)

Section RiskFacts.
Import Models Risk Props MoreProps.

(** Inside its domain the criterion is the clamped raw Kelly value times
    the configured fraction. *)
Lemma kelly_in_domain (rm : RiskManager) (p b : Q) :
  0 < p -> p < 1 -> 0 < b ->
  exists k,
    kelly_criterion rm p b = Py.max 0 k * kelly_fraction rm
    /\ k * b == p * b - (1 - p).
Proof.
intros Hp0 Hp1 Hb. exists ((p * b - (1 - p)) / b). split.
- unfold kelly_criterion.
  assert (Qle_bool p 0 = false) as -> by (apply leb_gt; lra).
  assert (Qle_bool 1 p = false) as -> by (apply leb_gt; lra).
  assert (Qle_bool b 0 = false) as -> by (apply leb_gt; lra).
  reflexivity.
- apply div_mul. exact Hb.
Qed.

(** X4. With a non-negative configured fraction the Kelly criterion never
    exceeds it: the Kelly stake is at most that fraction of the balance. *)
Theorem kelly_at_most_configured_fraction (rm : RiskManager) (p b : Q) :
  0 <= kelly_fraction rm ->
  0 <= kelly_criterion rm p b <= kelly_fraction rm.
Proof.
intros Hk.
destruct (Qlt_le_dec 0 p) as [Hp0 | Hp0];
  [| rewrite kelly_out_of_domain by auto; lra].
destruct (Qlt_le_dec p 1) as [Hp1 | Hp1];
  [| rewrite kelly_out_of_domain by auto; lra].
destruct (Qlt_le_dec 0 b) as [Hb | Hb];
  [| rewrite kelly_out_of_domain by auto; lra].
destruct (kelly_in_domain rm p b Hp0 Hp1 Hb) as [k [-> Hkb]].
assert (k <= 1) by nra.
destruct (max_spec 0 k) as [[Hlt ->] | [Hle ->]]; nra.
Qed.

Lemma kelly_at_most_configured_fraction_witness :
  kelly_criterion (__init__ "2026-02-11" 50 100 25 20 0.5) 0.99 1000 <= 0.5.
Proof.
apply (kelly_at_most_configured_fraction
         (__init__ "2026-02-11" 50 100 25 20 0.5) 0.99 1000).
vm_compute. discriminate.
Defined.

(** What a truncated quotient buys never costs more than the budget. *)
Lemma int_times_le (x c : Q) :
  0 < c -> inject_Z (Z.max 0 (Py.int (x / c))) * c <= Qmax 0 x.
Proof.
intros Hc. pose proof (div_mul x c Hc) as E.
destruct (Qlt_le_dec (x / c) 0) as [H | H].
- destruct (int_nonpos (x / c)) as [I _]; [lra |].
  rewrite Z.max_l by lia. change (inject_Z 0) with 0.
  pose proof (Q.le_max_l 0 x). lra.
- rewrite int_floor by exact H.
  pose proof (Qfloor_le (x / c)) as F.
  assert (0 <= Qfloor (x / c))%Z
    by (change 0%Z with (Qfloor 0); apply Qfloor_resp_le; exact H).
  rewrite Z.max_r by lia.
  pose proof (Q.le_max_r 0 x).
  assert (inject_Z (Qfloor (x / c)) * c <= x / c * c) by nra.
  lra.
Qed.

Lemma inject_Z_le (a b : Z) : (a <= b)%Z -> inject_Z a <= inject_Z b.
Proof. intros H. rewrite <- Zle_Qle. exact H. Qed.

(** The two ways [calculate_position_size] ends: with 0, or with the
    clamped least of its five truncated bounds. *)
Lemma position_size_cases (today : string) (rm : RiskManager)
    (signal : TradeSignal) (balance : Q) (cents : Z) :
  let rm' := _reset_daily_if_needed today rm in
  let cpc := inject_Z cents / 100 in
  fst (calculate_position_size today rm signal balance cents) = 0%Z
  \/ (0 < cpc
      /\ fst (calculate_position_size today rm signal balance cents)
         = Z.max 0
             (Z.min
                (Py.int (balance
                         * kelly_criterion rm (estimated_probability signal)
                             ((1 - cpc) / cpc) / cpc))
                (Z.min (max_position_size rm)
                   (Z.min (Py.int (max_trade_cost rm / cpc))
                      (Z.min
                         (Py.int
                            (Py.max 0
                               (balance
                                * (max_portfolio_exposure_pct rm / 100)
                                - Py.sum_values (_open_positions rm))
                             / cpc))
                         (Py.int
                            (Py.max 0
                               (max_daily_loss rm
                                - Py.abs
                                    (Py.min 0 (total_pnl (_daily_pnl rm'))))
                             / cpc))))))).
Proof.
intros rm' cpc. unfold calculate_position_size. fold rm'.
destruct ((cents <=? 0)%Z || Qle_bool balance 0) eqn:Eg;
  [left; reflexivity |].
apply orb_false_iff in Eg as [Ec Eb]. apply Z.leb_gt in Ec.
pose proof (cents_pos cents Ec) as Hcpc. fold cpc in Hcpc |- *.
destruct (Qle_bool (1 - cpc) 0); [left; reflexivity |].
right. split; [exact Hcpc |].
assert (Py.ltb 0 cpc = true) as -> by (apply ltb_lt; exact Hcpc).
cbn [fst].
assert (Em : max_position_size rm' = max_position_size rm
             /\ max_trade_cost rm' = max_trade_cost rm
             /\ max_portfolio_exposure_pct rm' = max_portfolio_exposure_pct rm
             /\ max_daily_loss rm' = max_daily_loss rm
             /\ kelly_criterion rm' = kelly_criterion rm
             /\ _open_positions rm' = _open_positions rm).
{ unfold rm'. destruct (reset_cases today rm) as [[_ ->] | [_ ->]];
    repeat split; reflexivity. }
destruct Em as (-> & -> & -> & -> & -> & ->). reflexivity.
Qed.

Lemma abs_min_0 (x : Q) : Py.abs (Py.min 0 x) == Qmax 0 (- x).
Proof.
destruct (min_spec 0 x) as [[H ->] | [H ->]].
- destruct (abs_spec x) as [[_ ->] | [H' ->]]; [| lra].
  rewrite Q.max_r; lra.
- destruct (abs_spec 0) as [[H' _] | [_ ->]]; [lra |].
  rewrite Q.max_l; lra.
Qed.

Lemma max_0_max_0 (x : Q) : Qmax 0 (Py.max 0 x) == Qmax 0 x.
Proof.
rewrite max_Qmax, Q.max_assoc, Q.max_id. reflexivity.
Qed.

(** The size [calculate_position_size] returns is never negative nor
    above the largest position (when that is not negative), and at the
    given cost per contract it costs no more than the largest trade cost,
    the exposure headroom, the rest of the daily loss budget and the Kelly
    stake, each floored at 0. *)
Lemma position_size_within_limits (today : string) (rm : RiskManager)
    (signal : TradeSignal) (balance : Q) (cents : Z) :
  let rm' := _reset_daily_if_needed today rm in
  let size := fst (calculate_position_size today rm signal balance cents) in
  let cost := inject_Z size * (inject_Z cents / 100) in
  (0 <= size <= Z.max 0 (max_position_size rm))%Z
  /\ 0 <= cost
  /\ cost <= Qmax 0 (max_trade_cost rm)
  /\ cost <= Qmax 0 (balance * (max_portfolio_exposure_pct rm / 100)
                     - Py.sum_values (_open_positions rm))
  /\ cost <= Qmax 0 (max_daily_loss rm
                     - Qmax 0 (- total_pnl (_daily_pnl rm')))
  /\ cost <= Qmax 0 (balance
                     * kelly_criterion rm (estimated_probability signal)
                         ((1 - inject_Z cents / 100)
                          / (inject_Z cents / 100))).
Proof.
intros rm' size cost. subst cost.
pose proof (position_size_cases today rm signal balance cents) as H.
cbv zeta in H. fold rm' in H. fold size in H.
assert (Z0 : forall x, 0 <= Qmax 0 x) by (intros x; apply Q.le_max_l).
set (cpc := inject_Z cents / 100) in *.
destruct H as [E | [Hcpc E]].
- rewrite E. change (inject_Z 0) with 0.
  assert (C : 0 * cpc == 0) by ring.
  split; [lia |]. rewrite C. repeat split; try apply Z0; lra.
- clearbody size.
  set (tk := Py.int (balance * _ / cpc)) in E.
  set (tc := Py.int (max_trade_cost rm / cpc)) in E.
  set (xe := balance * (max_portfolio_exposure_pct rm / 100)
             - Py.sum_values (_open_positions rm)) in *.
  set (te := Py.int (Py.max 0 xe / cpc)) in E.
  set (xd := max_daily_loss rm
             - Py.abs (Py.min 0 (total_pnl (_daily_pnl rm')))) in E.
  set (td := Py.int (Py.max 0 xd / cpc)) in E.
  assert (B : forall t x, (size <= Z.max 0 t)%Z ->
              inject_Z (Z.max 0 t) * cpc <= x ->
              inject_Z size * cpc <= x).
  { intros t x Hs Hx. apply inject_Z_le in Hs. nra. }
  assert (S0 : 0 <= inject_Z size)
    by (change 0 with (inject_Z 0); apply inject_Z_le; lia).
  split; [lia |]. split; [nra |].
  split; [apply (B tc); [lia | apply int_times_le; exact Hcpc] |].
  split.
  { apply (B te); [lia |].
    eapply Qle_trans; [apply int_times_le; exact Hcpc |].
    rewrite max_0_max_0. lra. }
  split.
  { apply (B td); [lia |].
    eapply Qle_trans; [apply int_times_le; exact Hcpc |].
    rewrite max_0_max_0. unfold xd. rewrite abs_min_0. lra. }
  apply (B tk); [lia |]. apply int_times_le. exact Hcpc.
Qed.

Lemma le_max_0_pos (c x : Q) : 0 < c -> c <= Qmax 0 x -> c <= x.
Proof.
intros Hc H. destruct (Qlt_le_dec 0 x) as [Hx | Hx].
- rewrite Q.max_r in H; lra.
- rewrite Q.max_l in H; lra.
Qed.

Lemma build_order_some (today : string) (rm : RiskManager)
    (signal : TradeSignal) (balance : Q) (o : OrderRequest) :
  fst (build_order today rm signal balance) = Some o ->
  let n :=
    fst (calculate_position_size today rm signal balance
           (cost_cents_of signal)) in
  (0 < cost_cents_of signal < 100)%Z
  /\ (0 < n)%Z
  /\ o_count o = n
  /\ o_ticker o = ticker signal
  /\ Py.or_int (yes_price o) (Py.or_int (no_price o) 0) = cost_cents_of signal
  /\ order_cost o == inject_Z n * (inject_Z (cost_cents_of signal) / 100).
Proof.
intros H. unfold build_order in H.
destruct ((cost_cents_of signal <=? 0)%Z || (100 <=? cost_cents_of signal)%Z)
  eqn:Ec; [discriminate H |].
apply orb_false_iff in Ec as [E1 E2].
apply Z.leb_gt in E1. apply Z.leb_gt in E2.
destruct (calculate_position_size today rm signal balance
            (cost_cents_of signal)) as [n rm1].
cbn [fst] in *.
destruct (n <=? 0)%Z eqn:En; [discriminate H |].
apply Z.leb_gt in En. cbn [fst] in H. injection H as <-.
assert (Ep : Py.or_int
               (if OrderSide_eqb (side signal) YES
                then Some (cost_cents_of signal) else None)
               (Py.or_int
                  (if OrderSide_eqb (side signal) NO
                   then Some (cost_cents_of signal) else None) 0)
             = cost_cents_of signal).
{ destruct (side signal); cbn [OrderSide_eqb Py.or_int].
  - destruct (cost_cents_of signal =? 0)%Z eqn:Z0; [| reflexivity].
    apply Z.eqb_eq in Z0. lia.
  - destruct (cost_cents_of signal =? 0)%Z eqn:Z0; [| reflexivity].
    apply Z.eqb_eq in Z0. lia. }
split; [lia |]. split; [exact En |]. split; [reflexivity |].
split; [reflexivity |]. cbn [yes_price no_price]. split; [exact Ep |].
unfold order_cost. cbn [yes_price no_price o_count]. rewrite Ep.
rewrite inject_Z_mult. field.
Qed.

End RiskFacts.

(** ** Exposure bookkeeping *)

Section ExposureFacts.
Import Models Risk Props MoreProps.

Lemma sum_values_insert_fresh (m : gmap string Q) (k : string) (v : Q) :
  m !! k = None -> Py.sum_values (<[k := v]> m) == Py.sum_values m + v.
Proof.
intros H. unfold Py.sum_values.
apply (map_fold_insert Qeq (fun (_ : string) (x acc : Q) => acc + x) 0 k v m).
- intros j z a b Hab. cbv beta. rewrite Hab. reflexivity.
- intros j1 j2 z1 z2 y _ _ _. cbv beta. ring.
- exact H.
Qed.

Lemma sum_values_delete (m : gmap string Q) (k : string) (x : Q) :
  m !! k = Some x -> Py.sum_values m == Py.sum_values (delete k m) + x.
Proof.
intros H. unfold Py.sum_values.
apply (map_fold_delete Qeq (fun (_ : string) (x acc : Q) => acc + x) 0 k x m).
- intros j z a b Hab. cbv beta. rewrite Hab. reflexivity.
- intros j1 j2 z1 z2 y _ _ _. cbv beta. ring.
- exact H.
Qed.

Lemma sum_values_insert (m : gmap string Q) (k : string) (v : Q) :
  Py.sum_values (<[k := v]> m)
  == Py.sum_values m - default 0 (m !! k) + v.
Proof.
destruct (m !! k) as [x |] eqn:E; cbn [default from_option id].
- rewrite <- insert_delete_eq.
  rewrite sum_values_insert_fresh by apply lookup_delete_eq.
  rewrite (sum_values_delete m k x E). ring.
- rewrite sum_values_insert_fresh by exact E. ring.
Qed.

Lemma sum_values_delete_any (m : gmap string Q) (k : string) :
  Py.sum_values (delete k m) == Py.sum_values m - default 0 (m !! k).
Proof.
destruct (m !! k) as [x |] eqn:E; cbn [default from_option id].
- rewrite (sum_values_delete m k x E). ring.
- rewrite delete_id by exact E. ring.
Qed.

(** X6. [record_trade] adds the cost of the trade to the exposure tracked
    for its ticker, creating the entry if it is missing, and leaves every
    other ticker alone: the total exposure grows by exactly the cost. *)
Theorem record_trade_exposure (today stamp : string) (rm : RiskManager)
    (t : string) (cost pnl : Q) :
  let rm' := record_trade today stamp rm t cost pnl in
  _open_positions rm' !! t
  = Some (default 0 (_open_positions rm !! t) + cost)
  /\ (forall t', t' <> t ->
        _open_positions rm' !! t' = _open_positions rm !! t')
  /\ Py.sum_values (_open_positions rm')
     == Py.sum_values (_open_positions rm) + cost.
Proof.
intros rm'. unfold rm', record_trade.
cbn [set_positions set_ledger _open_positions].
rewrite reset_positions.
split; [apply lookup_insert_eq |].
split; [intros t' Ht; apply lookup_insert_ne; congruence |].
rewrite sum_values_insert. ring.
Qed.

(** X7. [update_position] with a positive exposure sets the ticker to it,
    and with a zero or negative one forgets the ticker, whether or not it
    was tracked; no other ticker, nor the ledger, nor any limit changes,
    and the total exposure moves by the difference. *)
Theorem update_position_effect (rm : RiskManager) (t : string) (e : Q) :
  let rm' := update_position rm t e in
  _open_positions rm' !! t = (if Qle_bool e 0 then None else Some e)
  /\ (forall t', t' <> t ->
        _open_positions rm' !! t' = _open_positions rm !! t')
  /\ Py.sum_values (_open_positions rm')
     == Py.sum_values (_open_positions rm)
        - default 0 (_open_positions rm !! t)
        + (if Qle_bool e 0 then 0 else e)
  /\ _daily_pnl rm' = _daily_pnl rm
  /\ _trades_today rm' = _trades_today rm
  /\ same_limits rm' rm.
Proof.
intros rm'. unfold rm', update_position.
destruct (Qle_bool e 0); cbn [set_positions _open_positions _daily_pnl
                              _trades_today].
- split; [apply lookup_delete_eq |].
  split; [intros t' Ht; apply lookup_delete_ne; congruence |].
  split; [rewrite sum_values_delete_any; ring |].
  repeat split.
- split; [apply lookup_insert_eq |].
  split; [intros t' Ht; apply lookup_insert_ne; congruence |].
  split; [apply sum_values_insert |].
  repeat split.
Qed.

End ExposureFacts.

(** ** Ledger invariants *)

Section LedgerFacts.
Import Models Risk Props MoreProps.

Lemma sum_pnl_snoc (l : list trade_entry) (e : trade_entry) :
  sum_pnl (l ++ [e]) == sum_pnl l + t_pnl e.
Proof.
induction l as [| x l IH]; cbn [sum_pnl app]; [ring |].
rewrite IH. ring.
Qed.

Lemma count_snoc (f : trade_entry -> bool) (l : list trade_entry)
    (e : trade_entry) :
  Z.of_nat (length (List.filter f (l ++ [e])))
  = (Z.of_nat (length (List.filter f l)) + (if f e then 1 else 0))%Z.
Proof.
rewrite List.filter_app, List.length_app. cbn [List.filter].
destruct (f e); cbn [length]; lia.
Qed.

Lemma reset_consistent (today : string) (rm : RiskManager) :
  ledger_consistent rm -> ledger_consistent (_reset_daily_if_needed today rm).
Proof.
intros H. destruct (reset_cases today rm) as [[_ ->] | [_ ->]];
  [exact H |].
unfold ledger_consistent. cbn. repeat split; reflexivity.
Qed.

Lemma record_trade_consistent (today stamp t : string) (cost pnl : Q)
    (rm : RiskManager) :
  ledger_consistent rm ->
  ledger_consistent (record_trade today stamp rm t cost pnl).
Proof.
intros H. apply (reset_consistent today) in H.
unfold record_trade.
set (r := _reset_daily_if_needed today rm) in *.
destruct H as (Hc & Hw & Hl & Hp).
unfold ledger_consistent.
cbn [set_positions set_ledger _daily_pnl _trades_today trades_count wins
     losses realized_pnl].
split; [rewrite length_app, Hc; cbn [length]; lia |].
split.
{ unfold count_wins. rewrite count_snoc. cbn [t_pnl]. rewrite Hw.
  unfold count_wins. destruct (Py.ltb 0 pnl); lia. }
split.
{ unfold count_losses. rewrite count_snoc. cbn [t_pnl]. rewrite Hl.
  unfold count_losses.
  destruct (Py.ltb 0 pnl) eqn:E1; destruct (Py.ltb pnl 0) eqn:E2; try lia.
  apply ltb_lt in E1, E2. lra. }
rewrite sum_pnl_snoc. cbn [t_pnl]. rewrite Hp. reflexivity.
Qed.

Lemma step_consistent (rm : RiskManager) (call : string * op) :
  ledger_consistent rm -> ledger_consistent (step rm call).
Proof.
intros H. destruct call as [today o]. unfold step. cbn [fst snd].
destruct o.
- exact H.
- rewrite calculate_position_size_state. apply reset_consistent, H.
- rewrite validate_trade_state. apply reset_consistent, H.
- destruct (build_order_state today rm signal balance) as [-> | ->];
    [exact H | apply reset_consistent, H].
- apply record_trade_consistent, H.
- unfold update_position. destruct (Qle_bool exposure_dollars 0); exact H.
- cbn. apply reset_consistent, H.
Qed.

Lemma wins_losses_le (l : list trade_entry) :
  (count_wins l + count_losses l <= Z.of_nat (length l))%Z.
Proof.
unfold count_wins, count_losses.
induction l as [| x l IH]; [cbn; lia |].
cbn [List.filter].
destruct (Py.ltb 0 (t_pnl x)) eqn:E1; destruct (Py.ltb (t_pnl x) 0) eqn:E2;
  cbn [length]; try lia.
apply ltb_lt in E1, E2. lra.
Qed.

(** X8. In every reachable state the ledger agrees with the list of today's
    trades: the trade count is its length, the wins and losses are its
    entries with a positive and a negative P&L, the realized P&L is the sum
    of their P&L; hence wins plus losses never exceed the trades and the
    win rate lies between 0 and 1. *)
Theorem ledger_matches_trades (rm : RiskManager) :
  reachable rm ->
  ledger_consistent rm
  /\ (0 <= wins (_daily_pnl rm))%Z
  /\ (0 <= losses (_daily_pnl rm))%Z
  /\ (wins (_daily_pnl rm) + losses (_daily_pnl rm)
      <= trades_count (_daily_pnl rm))%Z
  /\ 0 <= win_rate (_daily_pnl rm) <= 1.
Proof.
intros H.
assert (C : ledger_consistent rm).
{ induction H as [| rm call _ IH].
  - unfold ledger_consistent. cbn. repeat split; reflexivity.
  - apply step_consistent, IH. }
split; [exact C |].
destruct C as (Hc & Hw & Hl & _).
pose proof (wins_losses_le (_trades_today rm)) as WL.
assert (W0 : (0 <= wins (_daily_pnl rm))%Z)
  by (rewrite Hw; unfold count_wins; lia).
assert (L0 : (0 <= losses (_daily_pnl rm))%Z)
  by (rewrite Hl; unfold count_losses; lia).
split; [exact W0 |]. split; [exact L0 |].
split; [rewrite Hw, Hl, Hc; exact WL |].
unfold win_rate.
destruct (trades_count (_daily_pnl rm) =? 0)%Z eqn:E; [lra |].
apply Z.eqb_neq in E.
assert (T : (0 < trades_count (_daily_pnl rm))%Z) by lia.
assert (Tq : 0 < inject_Z (trades_count (_daily_pnl rm)))
  by (change 0 with (inject_Z 0); rewrite <- Zlt_Qlt; exact T).
assert (Wq : 0 <= inject_Z (wins (_daily_pnl rm)))
  by (change 0 with (inject_Z 0); rewrite <- Zle_Qle; exact W0).
assert (WT : inject_Z (wins (_daily_pnl rm))
             <= inject_Z (trades_count (_daily_pnl rm)))
  by (rewrite <- Zle_Qle; lia).
split.
- apply Qle_shift_div_l; [exact Tq | lra].
- apply Qle_shift_div_r; [exact Tq | lra].
Qed.

Lemma ledger_matches_trades_witness :
  let rm := two_losses "2026-02-11" in
  losses (_daily_pnl rm) = 2%Z
  /\ realized_pnl (_daily_pnl rm) == sum_pnl (_trades_today rm)
  /\ 0 <= win_rate (_daily_pnl rm) <= 1.
Proof.
intros rm.
destruct (ledger_matches_trades rm (two_losses_reachable _))
  as ((_ & _ & A & B) & _ & _ & _ & C).
split; [rewrite A; vm_compute; reflexivity |].
split; [exact B | exact C].
Defined.

Lemma reset_same_limits (today : string) (rm : RiskManager) :
  same_limits (_reset_daily_if_needed today rm) rm.
Proof.
destruct (reset_cases today rm) as [[_ ->] | [_ ->]];
  repeat split; reflexivity.
Qed.

Lemma step_same_limits (rm : RiskManager) (call : string * op) :
  same_limits (step rm call) rm.
Proof.
destruct call as [today o]. unfold step. cbn [fst snd].
destruct o.
- repeat split; reflexivity.
- rewrite calculate_position_size_state. apply reset_same_limits.
- rewrite validate_trade_state. apply reset_same_limits.
- destruct (build_order_state today rm signal balance) as [-> | ->];
    [repeat split; reflexivity | apply reset_same_limits].
- unfold record_trade.
  destruct (reset_same_limits today rm) as (A & B & C & D & E).
  repeat split; cbn; assumption.
- unfold update_position.
  destruct (Qle_bool exposure_dollars 0); repeat split; reflexivity.
- cbn. apply reset_same_limits.
Qed.

(** X9. No operation of the risk manager changes a limit: after any
    sequence of calls the five limits are those the manager was built
    with. *)
Theorem limits_never_change (calls : list (string * op))
    (today : string) (mdl : Q) (mps : Z) (mtc mpe kf : Q) :
  let rm := run calls (__init__ today mdl mps mtc mpe kf) in
  max_daily_loss rm = mdl
  /\ max_position_size rm = mps
  /\ max_trade_cost rm = mtc
  /\ max_portfolio_exposure_pct rm = mpe
  /\ kelly_fraction rm = kf.
Proof.
intros rm.
assert (G : forall cs r, same_limits (run cs r) r).
{ induction cs as [| c cs IH]; intros r; [repeat split; reflexivity |].
  cbn [run fold_left]. fold (run cs (step r c)).
  destruct (IH (step r c)) as (A & B & C & D & E).
  destruct (step_same_limits r c) as (A' & B' & C' & D' & E').
  repeat split; congruence. }
exact (G calls _).
Qed.

End LedgerFacts.

Section BudgetFacts.
Import Models Risk Props MoreProps.

(** X10. The remaining daily loss budget the summary reports and the daily
    loss check of [validate_trade] agree: on the same day a trade is
    rejected for the daily loss limit exactly when the reported budget is
    zero or negative, whatever the signal, the balance and the thresholds
    are. *)
Theorem budget_exhausted_iff_rejected (today : string) (rm : RiskManager)
    (signal : TradeSignal) (balance min_confidence min_ev : Q) :
  s_remaining_daily_loss_budget (fst (get_daily_summary today rm)) <= 0
  <-> exists pnl,
        fst (validate_trade today rm signal balance min_confidence min_ev)
        = (false, DailyLossLimitReached pnl).
Proof.
unfold get_daily_summary, validate_trade.
cbn [fst s_remaining_daily_loss_budget].
set (r := _reset_daily_if_needed today rm).
destruct (Qle_bool (total_pnl (_daily_pnl r)) (- max_daily_loss r)) eqn:E.
- apply Qle_bool_iff in E. split.
  + intros _. eexists. reflexivity.
  + intros _. lra.
- apply leb_gt in E. split.
  + intros H. exfalso. lra.
  + intros [pnl H]. exfalso.
    repeat match type of H with
           | context [if ?c then _ else _] => destruct c
           end; discriminate H.
Qed.

End BudgetFacts.

(** ** Market snapshots *)

Section MarketFacts.
Import MarketModel.

Lemma inject_Z_bounds (n lo hi : Z) :
  (lo <= n <= hi)%Z -> inject_Z lo <= inject_Z n <= inject_Z hi.
Proof.
intros [A B]. split; rewrite <- Zle_Qle; assumption.
Qed.

(** X11. With bid, ask and last price between 0 and 100 cents the implied
    probability lies between 0 and 1.  It is the middle of bid and ask when
    both are quoted, and otherwise, also when only one of them is, the last
    price; it is 0 when that price is 0. *)
Theorem implied_probability_range (m : Market) :
  (0 <= yes_bid m <= 100)%Z -> (0 <= yes_ask m <= 100)%Z ->
  (0 <= last_price m <= 100)%Z ->
  0 <= implied_probability m <= 1
  /\ (yes_bid m <> 0%Z -> yes_ask m <> 0%Z ->
      implied_probability m
      == inject_Z (yes_bid m + yes_ask m) / 200)
  /\ (yes_bid m = 0%Z \/ yes_ask m = 0%Z ->
      implied_probability m == inject_Z (last_price m) / 100).
Proof.
intros Hb Ha Hl.
apply inject_Z_bounds in Hl as Hl'. change (inject_Z 0) with 0 in Hl'.
change (inject_Z 100) with 100 in Hl'.
assert (Hs : 0 <= inject_Z (yes_bid m + yes_ask m) <= 200).
{ change 0 with (inject_Z 0). change 200 with (inject_Z 200).
  apply inject_Z_bounds. lia. }
assert (Mid : 0 <= yes_mid m <= 100).
{ unfold yes_mid. destruct (truthy_int _ && truthy_int _); [| exact Hl'].
  split.
  - apply Qle_shift_div_l; lra.
  - apply Qle_shift_div_r; lra. }
assert (P : implied_probability m == yes_mid m / 100).
{ unfold implied_probability. cbv zeta.
  destruct (Py.ltb 0 (yes_mid m)) eqn:E; [reflexivity |].
  apply ltb_ge in E. assert (Z : yes_mid m == 0) by lra.
  rewrite Z. reflexivity. }
split.
- rewrite P. split.
  + apply Qle_shift_div_l; lra.
  + apply Qle_shift_div_r; lra.
- split.
  + intros Nb Na. rewrite P. unfold yes_mid, truthy_int.
    assert ((yes_bid m =? 0)%Z = false) as -> by (apply Z.eqb_neq; exact Nb).
    assert ((yes_ask m =? 0)%Z = false) as -> by (apply Z.eqb_neq; exact Na).
    cbn [negb andb]. field.
  + intros Hz. rewrite P. unfold yes_mid, truthy_int.
    destruct Hz as [-> | ->]; cbn [Z.eqb negb andb];
      rewrite ?andb_false_r; reflexivity.
Qed.

Lemma implied_probability_range_witness :
  let m := {| ticker := "TEST"; event_ticker := "TEST-EVENT";
              title := "Test"; subtitle := ""; status := "active";
              open_time := None; close_time := None;
              expiration_time := None; yes_bid := 40; yes_ask := 45;
              no_bid := 0; no_ask := 0; last_price := 0; volume := 0;
              volume_24h := 0; open_interest := 0; result := "";
              yes_bid_dollars := "0.00"; yes_ask_dollars := "0.00";
              no_bid_dollars := "0.00"; no_ask_dollars := "0.00";
              last_price_dollars := "0.00" |} in
  0 <= implied_probability m <= 1
  /\ implied_probability m == 0.425.
Proof.
intros m.
destruct (implied_probability_range m) as (A & B & _);
  try (vm_compute; split; discriminate).
split; [exact A |].
rewrite B; [vm_compute; reflexivity | discriminate | discriminate].
Defined.

End MarketFacts.

(** ** Request signing *)

Section AuthFacts.
Import Auth Props MoreProps.

Lemma upper_char_idempotent (c : ascii) :
  upper_char (upper_char c) = upper_char c.
Proof.
destruct c as [[] [] [] [] [] [] [] []]; reflexivity.
Qed.

Lemma upper_idempotent (s : string) : upper (upper s) = upper s.
Proof.
induction s as [| c s IH]; [reflexivity |].
cbn [upper]. rewrite upper_char_idempotent, IH. reflexivity.
Qed.

Lemma path_without_query_append (p q : string) :
  mentions "?" p = false ->
  path_without_query (p +:+ String "?" q) = p.
Proof.
induction p as [| c p IH]; intros H; [reflexivity |].
cbn [mentions] in H. apply orb_false_iff in H as [Hc Hp].
change (String c p +:+ String "?" q) with (String c (p +:+ String "?" q)).
cbn [path_without_query]. rewrite Hc, (IH Hp). reflexivity.
Qed.

Lemma path_without_query_clean (p : string) :
  mentions "?" (path_without_query p) = false.
Proof.
induction p as [| c p IH]; [reflexivity |].
cbn [path_without_query]. destruct (Ascii.eqb c "?") eqn:E; [reflexivity |].
cbn [mentions]. rewrite E, IH. reflexivity.
Qed.

Lemma path_without_query_id (p : string) :
  mentions "?" p = false -> path_without_query p = p.
Proof.
induction p as [| c p IH]; intros H; [reflexivity |].
cbn [mentions] in H. apply orb_false_iff in H as [Hc Hp].
cbn [path_without_query]. rewrite Hc, (IH Hp). reflexivity.
Qed.

(** X12. The signed message, and so the authentication headers, depend
    neither on the query string of the path nor on the letter case of the
    method: a path followed by [?] and any query is signed as the path
    alone, and a method is signed in upper case. *)
Theorem signature_ignores_query_and_case
    (sign : string -> string -> nat -> string)
    (api_key key method path query : string) (now : Q) (salt : nat) :
  mentions "?" path = false ->
  sign_request sign key (pretty (Py.int (now * 1000))) method
    (path +:+ String "?" query) salt
  = sign key (pretty (Py.int (now * 1000)) +:+ method +:+ path) salt
  /\ get_auth_headers sign api_key key method (path +:+ String "?" query)
       now salt
     = get_auth_headers sign api_key key (upper method) path now salt
  /\ mentions "?" (path_without_query (path +:+ String "?" query)) = false.
Proof.
intros H. unfold get_auth_headers, sign_request.
rewrite path_without_query_append by exact H.
rewrite (path_without_query_id path H), upper_idempotent.
repeat split. exact H.
Qed.

Lemma signature_ignores_query_and_case_witness :
  get_auth_headers toy_sign "key-id" "pem" "get"
    "/trade-api/v2/markets?limit=200&cursor=abc" 0 0
  = get_auth_headers toy_sign "key-id" "pem" "GET" "/trade-api/v2/markets"
      0 0.
Proof.
apply (signature_ignores_query_and_case toy_sign "key-id" "pem" "get"
         "/trade-api/v2/markets" "limit=200&cursor=abc" 0 0).
reflexivity.
Defined.

End AuthFacts.

(** ** Rate limiter and transport: edge behaviour *)

Section ClientEdges.
Import Models Exn Client Props MoreProps.

(** X13. A limiter whose rate is zero or negative never grants a token:
    [acquire] raises, [ZeroDivisionError] for a zero rate and [ValueError]
    (a negative sleep) for a negative one, without sleeping; a request
    through such a limiter raises before anything is sent. *)
Theorem acquire_nonpositive_rate (b : RateLimiter) (w : world) (fuel : nat) :
  (max_per_second b <= 0)%Z ->
  let e := if (max_per_second b =? 0)%Z then ZeroDivisionError
           else ValueError in
  fst (fst (acquire (S fuel) b w)) = Raise e
  /\ snd (acquire (S fuel) b w) = w
  /\ (forall sign net c method path params json_body authenticated,
        _read_limiter c = b -> is_write method = false ->
        let out := _request sign net (S fuel) c method path params json_body
                     authenticated w in
        fst (fst out) = Raise e /\ snd out = w).
Proof.
intros Hr e.
assert (Cn : inject_Z (max_per_second b) <= 0)
  by (change 0 with (inject_Z 0); rewrite <- Zle_Qle; exact Hr).
assert (R : refilled b w <= 0).
{ unfold refilled.
  destruct (min_spec (inject_Z (max_per_second b))
              (tokens b
               + (clock w - last_refill b) * inject_Z (max_per_second b)))
    as [[H ->] | [H ->]]; lra. }
assert (A : acquire (S fuel) b w
            = (Raise e,
               {| max_per_second := max_per_second b;
                  tokens := refilled b w; last_refill := clock w |}, w)).
{ cbn [acquire]. fold (refilled b w).
  cbn [tokens max_per_second last_refill].
  assert (Qle_bool 1 (refilled b w) = false) as -> by (apply leb_gt; lra).
  unfold e. destruct (max_per_second b =? 0)%Z eqn:Ez; [reflexivity |].
  apply Z.eqb_neq in Ez.
  assert (Neg : inject_Z (max_per_second b) < 0)
    by (change 0 with (inject_Z 0); rewrite <- Zlt_Qlt; lia).
  set (d := (1 - refilled b w) / inject_Z (max_per_second b)).
  assert (Hd : d < 0).
  { assert (M : inject_Z (max_per_second b) * d == 1 - refilled b w)
      by (apply Qmult_div_r; lra).
    destruct (Qlt_le_dec d 0) as [Hlt | Hge]; [exact Hlt |].
    exfalso. nra. }
  unfold sleep. assert (Py.ltb d 0 = true) as -> by (apply ltb_lt; exact Hd).
  reflexivity. }
rewrite A. cbn [fst snd]. split; [reflexivity |]. split; [reflexivity |].
intros sign net c method path params json_body authenticated Hb Hw.
unfold _request. rewrite Hw, Hb, A. split; reflexivity.
Qed.

Lemma acquire_nonpositive_rate_witness :
  fst (fst (acquire 5 (RateLimiter_init 0 world0) world0))
  = Raise ZeroDivisionError
  /\ fst (fst (acquire 5 (RateLimiter_init (-3) world0) world0))
     = Raise ValueError.
Proof.
destruct (acquire_nonpositive_rate (RateLimiter_init 0 world0) world0 4)
  as (A & _); [vm_compute; discriminate |].
destruct (acquire_nonpositive_rate (RateLimiter_init (-3) world0) world0 4)
  as (B & _); [vm_compute; discriminate |].
split; [exact A | exact B].
Defined.

End ClientEdges.

Section Backoff.
Import Models Exn Client Props MoreProps.

Lemma total_slept_app (l1 l2 : list event) :
  total_slept (l1 ++ l2) == total_slept l1 + total_slept l2.
Proof.
induction l1 as [| e l1 IH]; cbn [app total_slept]; [ring |].
destruct e; rewrite IH; ring.
Qed.

Lemma pow2_succ (n : nat) : 2 ^ Z.of_nat (S n) == 2 * 2 ^ Z.of_nat n.
Proof.
rewrite Nat2Z.inj_succ. unfold Z.succ.
rewrite Qpower_plus by discriminate. ring.
Qed.

Lemma pow2_ge_1 (n : nat) : 1 <= 2 ^ Z.of_nat n.
Proof.
induction n as [| n IH]; [change (2 ^ Z.of_nat 0) with 1; lra |].
rewrite pow2_succ. lra.
Qed.

Lemma backoff_succ (c : KalshiClient) (k : nat) :
  backoff c (S k) == 2 * backoff c k.
Proof.
unfold backoff. rewrite pow2_succ. ring.
Qed.

Variable net : nat -> net_outcome.
Variable c : KalshiClient.
Variables method url : string.
Variables params json_body : option (gmap string jvalue).
Variable headers : gmap string string.
Hypothesis base_nonneg : 0 <= _base_backoff c.

Let loop := attempts net c method url params json_body headers.
Let sent := sent_request net method url params json_body headers.

Lemma attempts_sleep_bound (n : nat) :
  forall (k : nat) (last : option exn) (w : world),
  exists evs,
    log (snd (loop n k last w)) = evs ++ log w
    /\ clock (snd (loop n k last w))
       == clock w + total_slept evs
          + total_elapsed net (requests_made w) (count_sent evs)
    /\ 0 <= total_slept evs <= backoff c k * (2 ^ Z.of_nat n - 1).
Proof.
induction n as [| n IH]; intros k last w.
- exists []. unfold loop. cbn [attempts snd app total_slept count_sent
    total_elapsed].
  split; [reflexivity |]. split; [ring |].
  change (2 ^ Z.of_nat 0) with 1. lra.
- pose proof (wait_nonneg c k base_nonneg) as Wk.
  pose proof (pow2_ge_1 n) as P1. pose proof (pow2_succ n) as PS.
  assert (Stop : forall r : res json_doc,
            exists evs,
              log (snd (r, sent w)) = evs ++ log w
              /\ clock (snd (r, sent w))
                 == clock w + total_slept evs
                    + total_elapsed net (requests_made w) (count_sent evs)
              /\ 0 <= total_slept evs
                 <= backoff c k * (2 ^ Z.of_nat (S n) - 1)).
  { intros r.
    exists [Sent (clock w) (Auth.upper method) url params json_body headers].
    cbn [snd app total_slept count_sent total_elapsed].
    split; [reflexivity |].
    split; [change (clock (sent w))
              with (clock w + elapsed_of (net (requests_made w))); ring |].
    split; [lra | nra]. }
  assert (Go : forall last',
            let out :=
              match sleep (backoff c k) (sent w) with
              | (Ret _, w2) => loop n (S k) last' w2
              | (Raise e, w2) => (Raise e, w2)
              | (Diverge, w2) => (Diverge, w2)
              end in
            exists evs,
              log (snd out) = evs ++ log w
              /\ clock (snd out)
                 == clock w + total_slept evs
                    + total_elapsed net (requests_made w) (count_sent evs)
              /\ 0 <= total_slept evs
                 <= backoff c k * (2 ^ Z.of_nat (S n) - 1)).
  { intros last'. cbv zeta.
    destruct (sleep_cases (backoff c k) (sent w)) as [[_ E] | [_ E]];
      rewrite E.
    - destruct (IH (S k) last' (slept (backoff c k) (sent w)))
        as (evs & L & C & B).
      exists (evs ++ [Slept (backoff c k);
                      Sent (clock w) (Auth.upper method) url params json_body
                        headers]).
      cbn [slept log clock requests_made] in L, C.
      change (log (sent w))
        with (Sent (clock w) (Auth.upper method) url params json_body headers
              :: log w) in L.
      change (clock (sent w))
        with (clock w + elapsed_of (net (requests_made w))) in C.
      change (requests_made (sent w)) with (S (requests_made w)) in C.
      split; [rewrite L, <- app_assoc; reflexivity |].
      rewrite total_slept_app, count_sent_app.
      cbn [total_slept count_sent]. rewrite Nat.add_1_r.
      cbn [total_elapsed]. rewrite backoff_succ in B.
      split; [rewrite C; ring |]. split; [lra | nra].
    - apply (Stop (Raise ValueError)). }
  unfold loop.
  rewrite (attempt_unfold net c method url params json_body headers).
  fold loop. fold sent.
  destruct (net (requests_made w)) as [r t | e t].
  + destruct (status_code r =? 429)%Z; [apply Go |].
    destruct (400 <=? status_code r)%Z; [apply Stop |].
    destruct (status_code r =? 204)%Z; [apply Stop |].
    destruct (json r); apply Stop.
  + destruct (is_transport_error e); [apply Go | apply Stop].
Qed.

End Backoff.

Section BackoffClaim.
Import Models Exn Client Props MoreProps.

(** X14. Whatever the network does, the retry loop of a request sleeps at
    most [_base_backoff * (2 ^ _max_retries - 1)] seconds in total, 3.5
    seconds for a client as constructed; the clock moves by the time slept
    and the time the requests themselves take. *)
Theorem retry_backoff_bounded (net : nat -> net_outcome) (c : KalshiClient)
    (method url : string) (params json_body : option (gmap string jvalue))
    (headers : gmap string string) (w : world) :
  0 <= _base_backoff c ->
  let w' := snd (attempts net c method url params json_body headers
                   (_max_retries c) 0 None w) in
  exists evs,
    log w' = evs ++ log w
    /\ clock w'
       == clock w + total_slept evs
          + total_elapsed net (requests_made w) (count_sent evs)
    /\ 0 <= total_slept evs
       <= _base_backoff c * (2 ^ Z.of_nat (_max_retries c) - 1)
    /\ (_max_retries c = 3%nat -> _base_backoff c == 0.5 ->
        total_slept evs <= 3.5).
Proof.
intros Hb w'.
destruct (attempts_sleep_bound net c method url params json_body headers Hb
            (_max_retries c) 0 None w) as (evs & L & C & B).
exists evs. split; [exact L |]. split; [exact C |].
assert (E0 : backoff c 0 == _base_backoff c).
{ unfold backoff. change (2 ^ Z.of_nat 0) with 1. ring. }
rewrite E0 in B. split; [exact B |].
intros E3 E5. rewrite E3, E5 in B. vm_compute in B |- *.
destruct B as [_ B]. exact B.
Qed.

Lemma retry_backoff_bounded_witness :
  let w' := snd (attempts three_timeouts client0 "GET" "u" None None ∅ 3 0
                   None world0) in
  (exists evs, log w' = evs ++ [] /\ total_slept evs <= 3.5)
  /\ clock w' == 93.5.
Proof.
intros w'.
destruct (retry_backoff_bounded three_timeouts client0 "GET" "u" None None ∅
            world0) as (evs & L & _ & _ & B); [vm_compute; discriminate |].
split; [| vm_compute; reflexivity].
exists evs. split; [exact L |]. apply B; reflexivity.
Defined.

End BackoffClaim.

(** ** Paged listings *)

Section PagingFacts.
Import Models Exn Paging MoreProps.

Variable item : Type.
Variable page : nat -> string -> res (list item * string).

Lemma skipn_head (n : nat) : forall (l r : list (list item * string)) x,
  skipn n l = x :: r -> nth_error l n = Some x /\ skipn (S n) l = r.
Proof.
induction n as [| n IH]; intros l r x H.
- destruct l; [discriminate H |]. cbn in H. injection H as -> ->.
  split; reflexivity.
- destruct l as [| y l]; [discriminate H |]. cbn [skipn] in H.
  destruct (IH l r x H) as [A B]. split; [exact A | exact B].
Qed.

(** The loop walks through pages that announce a further page. *)
Lemma fetch_loop_prefix (pages : list (list item * string)) :
  serves page pages ->
  forall (rest tl : list (list item * string)) (n : nat) (all : list item)
         (fuel : nat),
  skipn n pages = rest ++ tl -> Forall has_next rest ->
  fetch_loop item page (length rest + fuel) n all (cursor_for pages n)
  = fetch_loop item page fuel (n + length rest)
      (all ++ concat (map fst rest)) (cursor_for pages (n + length rest)).
Proof.
intros Hs rest. induction rest as [| p rest IH]; intros tl n all fuel Hk Hn.
- cbn [length map concat Nat.add]. rewrite Nat.add_0_r, app_nil_r.
  reflexivity.
- cbn [app] in Hk. destruct (skipn_head n pages (rest ++ tl) p Hk) as [A B].
  apply Forall_cons_1 in Hn as [Hp Hn].
  cbn [length Nat.add fetch_loop]. rewrite (Hs n p A).
  destruct p as [items c']. unfold has_next in Hp. cbn [snd] in Hp.
  rewrite Hp. cbn [negb].
  assert (Ec : c' = cursor_for pages (S n))
    by (cbn [cursor_for]; rewrite A; reflexivity).
  rewrite Ec, (IH tl (S n) (all ++ items) fuel B Hn).
  cbn [map concat fst]. rewrite <- app_assoc.
  replace (n + S (length rest))%nat with (S n + length rest)%nat by lia.
  reflexivity.
Qed.

(** X15. When the server answers with pages that each announce the next one
    and a last page with an empty cursor, the listing makes one call per
    page, each with the cursor of the page before, and returns the items of
    all pages in order; a single empty page gives the empty list. *)
Theorem fetch_all_complete (init : list (list item * string))
    (last : list item) (fuel : nat) :
  serves page (init ++ [(last, "")]) -> Forall has_next init ->
  fetch_all item page (length init + S fuel)
  = Ret (concat (map fst init) ++ last).
Proof.
intros Hs Hn. unfold fetch_all.
change "" with (cursor_for (init ++ [(last, "")]) 0) at 1.
rewrite (fetch_loop_prefix _ Hs init [(last, "")] 0 [] (S fuel) eq_refl Hn).
cbn [Nat.add app fetch_loop].
rewrite (Hs (length init) (last, "")).
- reflexivity.
- rewrite nth_error_app2 by lia. rewrite Nat.sub_diag. reflexivity.
Qed.

(** X16. A listing has no page limit and keeps nothing on failure: if a call
    raises after any number of pages, the listing raises that exception and
    the items fetched so far are lost; and if every answer announces a
    further page, the listing never returns. *)
Theorem fetch_all_failure (init : list (list item * string)) (e : exn)
    (fuel : nat) :
  (serves page init -> Forall has_next init ->
   page (length init) (cursor_for init (length init)) = Raise e ->
   fetch_all item page (length init + S fuel) = Raise e)
  /\ ((forall n cursor, exists p,
         page n cursor = Ret p /\ has_next p) ->
      fetch_all item page fuel = Diverge).
Proof.
split.
- intros Hs Hn He. unfold fetch_all.
  change "" with (cursor_for init 0) at 1.
  rewrite (fetch_loop_prefix _ Hs init [] 0 [] (S fuel)
             (eq_sym (app_nil_r init)) Hn).
  cbn [Nat.add app fetch_loop]. rewrite He. reflexivity.
- intros H. unfold fetch_all. generalize 0%nat ([] : list item) "".
  induction fuel as [| fuel IH]; intros n all cursor; [reflexivity |].
  cbn [fetch_loop]. destruct (H n cursor) as ([items c'] & -> & Hp).
  unfold has_next in Hp. cbn [snd] in Hp. rewrite Hp. cbn [negb].
  apply IH.
Qed.

End PagingFacts.

Section PagingWitnesses.
Import Models Exn Paging MoreProps.

Lemma fetch_all_complete_witness :
  fetch_all nat two_pages 2 = Ret [1; 2; 3]%nat.
Proof.
apply (fetch_all_complete nat two_pages [([1; 2]%nat, "c1")] [3%nat] 0).
- intros n p H. destruct n as [| [| n]]; cbn in H.
  + injection H as <-. reflexivity.
  + injection H as <-. reflexivity.
  + destruct n; discriminate H.
- repeat constructor.
Defined.

Lemma fetch_all_failure_witness :
  fetch_all nat broken_page 2 = Raise (ConnectionError "reset")
  /\ fetch_all nat (fun _ _ => Ret ([], "more")) 7 = Diverge.
Proof.
split.
- apply (fetch_all_failure nat broken_page [([1; 2]%nat, "c1")]
           (ConnectionError "reset") 0).
  + intros n p H. destruct n as [| n]; cbn in H.
    * injection H as <-. reflexivity.
    * destruct n; discriminate H.
  + repeat constructor.
  + reflexivity.
- apply (fetch_all_failure nat (fun _ _ => Ret ([], "more")) []
           (OtherError "") 7).
  intros n cursor. eexists. split; reflexivity.
Defined.

End PagingWitnesses.

(** ** The trading cycle: ordering and safety *)

Section SortFacts.
Import Models Exn Risk Main Props MoreProps.

(** Largest expected value first. *)
Let before (a b : TradeSignal) : Prop :=
  expected_value b <= expected_value a.

Lemma insert_signal_perm (s : TradeSignal) (l : list TradeSignal) :
  Permutation (insert_signal s l) (s :: l).
Proof.
induction l as [| y l IH]; [reflexivity |].
cbn [insert_signal]. destruct (Py.ltb _ _); [| reflexivity].
rewrite IH. apply perm_swap.
Qed.

Lemma insert_signal_sorted (s : TradeSignal) (l : list TradeSignal) :
  StronglySorted before l -> StronglySorted before (insert_signal s l).
Proof.
induction l as [| y l IH]; intros H.
- cbn. repeat constructor.
- apply StronglySorted_inv in H as [Hl Hy]. cbn [insert_signal].
  destruct (Py.ltb (expected_value s) (expected_value y)) eqn:E.
  + apply ltb_lt in E. constructor; [apply IH, Hl |].
    apply (Permutation_Forall (Permutation_sym (insert_signal_perm s l))).
    constructor; [unfold before; lra | exact Hy].
  + apply ltb_ge in E. constructor; [constructor; assumption |].
    constructor; [exact E |].
    apply (Forall_impl _ _ _ Hy). unfold before. intros z Hz. lra.
Qed.

Lemma insert_signal_filter (v : Q) (s : TradeSignal) (l : list TradeSignal) :
  let same x := Qeq_bool (expected_value x) v in
  List.filter same (insert_signal s l) = List.filter same (s :: l).
Proof.
intros same. induction l as [| y l IH]; [reflexivity |].
cbn [insert_signal].
destruct (Py.ltb (expected_value s) (expected_value y)) eqn:E;
  [| reflexivity].
apply ltb_lt in E. cbn [List.filter] in IH |- *. rewrite IH.
destruct (same s) eqn:Es; [| reflexivity].
assert (same y = false) as ->; [| reflexivity].
unfold same in *. apply Qeq_bool_iff in Es.
apply not_true_iff_false. intros Ey. apply Qeq_bool_iff in Ey. lra.
Qed.

(** X17. The cycle handles the signals in the order of [sort_signals]: the
    same signals, none lost or duplicated, by decreasing expected value,
    signals of equal expected value keeping the order the strategies
    produced them in. *)
Theorem sort_signals_sorted_stable (l : list TradeSignal) :
  Permutation (sort_signals l) l
  /\ StronglySorted
       (fun a b => expected_value b <= expected_value a) (sort_signals l)
  /\ (forall v,
        List.filter (fun s => Qeq_bool (expected_value s) v) (sort_signals l)
        = List.filter (fun s => Qeq_bool (expected_value s) v) l).
Proof.
induction l as [| s l (P & S & F)].
- repeat split; constructor.
- change (sort_signals (s :: l)) with (insert_signal s (sort_signals l)).
  split; [rewrite insert_signal_perm, P; reflexivity |].
  split; [apply insert_signal_sorted, S |].
  intros v. pose proof (insert_signal_filter v s (sort_signals l)) as H.
  cbv zeta in H. rewrite H. cbn [List.filter]. rewrite (F v). reflexivity.
Qed.

End SortFacts.

Section CycleSafety.
Import Models Exn Risk Main Props MoreProps.

Variable env : cycle_env.
Variable settings : Settings.

Lemma untouched_refl (st : cycle_state) : untouched st st.
Proof.
unfold untouched. repeat split; try reflexivity; try lia.
exists []. split; reflexivity.
Qed.

Lemma untouched_trans (a b c : cycle_state) :
  untouched a b -> untouched b c -> untouched a c.
Proof.
intros (A1 & A2 & A3 & A4 & A5 & A6 & ea & A7 & A8)
       (B1 & B2 & B3 & B4 & B5 & B6 & eb & B7 & B8).
unfold untouched. repeat split; try congruence; try lia.
- destruct A5 as (? & ? & ? & ? & ?), B5 as (? & ? & ? & ? & ?); congruence.
- destruct A5 as (? & ? & ? & ? & ?), B5 as (? & ? & ? & ? & ?); congruence.
- destruct A5 as (? & ? & ? & ? & ?), B5 as (? & ? & ? & ? & ?); congruence.
- destruct A5 as (? & ? & ? & ? & ?), B5 as (? & ? & ? & ? & ?); congruence.
- destruct A5 as (? & ? & ? & ? & ?), B5 as (? & ? & ? & ? & ?); congruence.
- exists (eb ++ ea). rewrite B7, A7, app_assoc. split; [reflexivity |].
  rewrite forallb_app, A8, B8. reflexivity.
Qed.

Lemma process_signal_quiet (scan_only : bool) (s : TradeSignal)
    (st : cycle_state) :
  scan_only = true \/ dry_run settings = true ->
  fst (process_signal env settings scan_only s st) = Ret tt
  /\ untouched st (snd (process_signal env settings scan_only s st)).
Proof.
intros H. unfold process_signal.
destruct scan_only.
{ cbn [fst snd]. split; [reflexivity |].
  unfold untouched. cbn. repeat split; try lia.
  exists [LoggedSignal s]. split; reflexivity. }
destruct H as [H | H]; [discriminate H |]. rewrite H.
cbn [emit rm balance].
pose proof (validate_trade_state (today env) (rm st) s (balance st)
              (min_confidence settings) (min_expected_value settings)) as V.
destruct (validate_trade (today env) (rm st) s (balance st)
            (min_confidence settings) (min_expected_value settings))
  as [[ok why] rm1].
cbn [snd] in V. subst rm1.
assert (U1 : untouched st
               (emit (Validated s (balance st))
                  (set_rm (_reset_daily_if_needed (today env) (rm st))
                     (emit (LoggedSignal s) st)))).
{ unfold untouched. cbn. rewrite reset_positions.
  split; [reflexivity |]. split; [reflexivity |]. split; [reflexivity |].
  split; [reflexivity |]. split; [apply reset_same_limits |].
  split; [lia |].
  exists [Validated s (balance st); LoggedSignal s]. split; reflexivity. }
destruct ok; cbn [negb]; [| split; [reflexivity | exact U1]].
cbn [set_rm emit rm balance].
pose proof (build_order_state (today env)
              (_reset_daily_if_needed (today env) (rm st)) s (balance st))
  as B.
rewrite reset_idempotent in B.
destruct (build_order (today env)
            (_reset_daily_if_needed (today env) (rm st)) s (balance st))
  as [order rm2].
cbn [snd] in B. assert (rm2 = _reset_daily_if_needed (today env) (rm st))
  as -> by (destruct B; assumption).
assert (U2 : forall extra : Z, (0 <= extra)%Z ->
          untouched st
            {| rm := _reset_daily_if_needed (today env) (rm st);
               balance := balance st;
               trades_executed := (trades_executed st + extra)%Z;
               balance_calls := balance_calls st;
               order_calls := order_calls st;
               events := BuiltOrder s (balance st)
                         :: Validated s (balance st)
                         :: LoggedSignal s :: events st |}).
{ intros extra He. unfold untouched. cbn. rewrite reset_positions.
  split; [reflexivity |]. split; [reflexivity |]. split; [reflexivity |].
  split; [reflexivity |]. split; [apply reset_same_limits |].
  split; [lia |].
  exists [BuiltOrder s (balance st); Validated s (balance st);
          LoggedSignal s]. split; reflexivity. }
destruct order as [o |]; cbn [fst snd].
- split; [reflexivity |]. apply (U2 1%Z). lia.
- split; [reflexivity |].
  pose proof (U2 0%Z ltac:(lia)) as U. rewrite Z.add_0_r in U.
  destruct st; exact U.
Qed.

Lemma process_signals_quiet (scan_only : bool) (signals : list TradeSignal) :
  scan_only = true \/ dry_run settings = true ->
  forall st : cycle_state,
  fst (process_signals env settings scan_only signals st) = Ret tt
  /\ untouched st (snd (process_signals env settings scan_only signals st)).
Proof.
intros H. induction signals as [| s rest IH]; intros st.
- cbn. split; [reflexivity | apply untouched_refl].
- cbn [process_signals].
  destruct (process_signal_quiet scan_only s st H) as [R U].
  destruct (process_signal env settings scan_only s st) as [r st1].
  cbn [fst snd] in R, U. subst r.
  destruct (IH st1) as [R' U']. split; [exact R' |].
  eapply untouched_trans; eassumption.
Qed.

End CycleSafety.

Section DryRun.
Import Models Exn Risk Main Props MoreProps.

Lemma after_status_quiet (env : cycle_env) (settings : Settings)
    (scan_only : bool) (st : cycle_state) :
  scan_only = true \/ dry_run settings = true ->
  let st' := snd (after_status env settings scan_only st) in
  order_calls st' = order_calls st
  /\ (balance_calls st' = S (balance_calls st))%nat
  /\ _open_positions (rm st') = _open_positions (rm st)
  /\ same_limits (rm st') (rm st)
  /\ exists evs, events st' = evs ++ events st
                 /\ forallb (fun e => negb (places_order e)) evs = true.
Proof.
intros H. unfold after_status, get_balance.
cbn [set_balance rm balance trades_executed balance_calls order_calls events].
set (st1 := {| rm := rm st; balance := 0;
               trades_executed := trades_executed st;
               balance_calls := S (balance_calls st);
               order_calls := order_calls st;
               events := GotBalance :: events st |}).
assert (Stop : forall r : res Z,
          let st' := snd (r, st1) in
          order_calls st' = order_calls st
          /\ (balance_calls st' = S (balance_calls st))%nat
          /\ _open_positions (rm st') = _open_positions (rm st)
          /\ same_limits (rm st') (rm st)
          /\ exists evs, events st' = evs ++ events st
               /\ forallb (fun e => negb (places_order e)) evs = true).
{ intros r. cbn. repeat split. exists [GotBalance]. split; reflexivity. }
assert (Go : forall (f : bool) (b : Q),
          f = true \/ dry_run settings = true ->
          let st2 := {| rm := rm st; balance := b;
                        trades_executed := trades_executed st;
                        balance_calls := S (balance_calls st);
                        order_calls := order_calls st;
                        events := GotBalance :: events st |} in
          let st' :=
            snd (match collect_signals (strategy_runs env) st2 with
                 | ([], st3) => (Ret 0%Z, st3)
                 | (all_signals, st3) =>
                     match
                       process_signals env settings f
                         (sort_signals all_signals) st3
                     with
                     | (Ret _, st4) => (Ret (trades_executed st4), st4)
                     | (Raise e, st4) => (Raise e, st4)
                     | (Diverge, st4) => (Diverge, st4)
                     end
                 end) in
          order_calls st' = order_calls st
          /\ (balance_calls st' = S (balance_calls st))%nat
          /\ _open_positions (rm st') = _open_positions (rm st)
          /\ same_limits (rm st') (rm st)
          /\ exists evs, events st' = evs ++ events st
               /\ forallb (fun e => negb (places_order e)) evs = true).
{ intros f b Hf st2. rewrite collect_signals_spec.
  cbn [st2 rm balance trades_executed balance_calls order_calls events].
  set (st3 := {| rm := rm st; balance := b;
                 trades_executed := trades_executed st;
                 balance_calls := S (balance_calls st);
                 order_calls := order_calls st;
                 events := map RanStrategy (rev (strategy_runs env))
                           ++ GotBalance :: events st |}).
  assert (Q3 : forallb (fun e => negb (places_order e))
                 (map RanStrategy (rev (strategy_runs env)) ++ [GotBalance])
               = true).
  { rewrite forallb_app. apply andb_true_iff. split; [| reflexivity].
    induction (rev (strategy_runs env)); [reflexivity | assumption]. }
  assert (E3 : events st3
               = (map RanStrategy (rev (strategy_runs env)) ++ [GotBalance])
                 ++ events st)
    by (cbn; rewrite <- app_assoc; reflexivity).
  destruct (signals_of (strategy_runs env)) as [| s l].
  - cbn [snd]. cbn [st3 order_calls balance_calls rm]. repeat split.
    eexists. split; [exact E3 | exact Q3].
  - destruct (process_signals_quiet env settings f (sort_signals (s :: l))
                Hf st3) as [R U].
    destruct (process_signals env settings f (sort_signals (s :: l)) st3)
      as [r st4]. cbn [fst snd] in R, U. subst r. cbn [snd].
    destruct U as (U1 & U2 & _ & U4 & U5 & _ & evs & U7 & U8).
    cbn [st3 order_calls balance_calls rm] in U1, U2, U4, U5.
    split; [exact U1 |]. split; [exact U2 |]. split; [exact U4 |].
    split; [exact U5 |].
    exists (evs ++ map RanStrategy (rev (strategy_runs env)) ++ [GotBalance]).
    rewrite U7, E3, <- !app_assoc. split; [reflexivity |].
    rewrite forallb_app, U8, Q3. reflexivity. }
destruct (balances env (balance_calls st)) as [b | e |].
- apply (Go scan_only b H).
- destruct (is_api_error e); [| apply Stop].
  apply (Go true 0). left. reflexivity.
- apply Stop.
Qed.

(** X18. A dry-run cycle, like a scan-only one, places no order: whatever
    the exchange, the strategies and the balance do, it makes no
    [create_order] call and records no trade, makes at most one balance
    call, and leaves the exposure map and the limits of the risk manager as
    they were. *)
Theorem dry_run_places_no_order (env : cycle_env) (settings : Settings)
    (risk_manager : RiskManager) (scan_only : bool) :
  scan_only = true \/ dry_run settings = true ->
  let st := snd (run_trading_cycle env settings risk_manager scan_only) in
  order_calls st = 0%nat
  /\ (balance_calls st <= 1)%nat
  /\ forallb (fun e => negb (places_order e)) (events st) = true
  /\ _open_positions (rm st) = _open_positions risk_manager
  /\ same_limits (rm st) risk_manager.
Proof.
intros H.
set (st0 := emit GotExchangeStatus (initial_state risk_manager)).
assert (Stop : forall r : res Z,
          let st := snd (r, st0) in
          order_calls st = 0%nat
          /\ (balance_calls st <= 1)%nat
          /\ forallb (fun e => negb (places_order e)) (events st) = true
          /\ _open_positions (rm st) = _open_positions risk_manager
          /\ same_limits (rm st) risk_manager).
{ intros r. cbn. repeat split. lia. }
assert (Go : forall f, f = true \/ dry_run settings = true ->
          let st := snd (after_status env settings f st0) in
          order_calls st = 0%nat
          /\ (balance_calls st <= 1)%nat
          /\ forallb (fun e => negb (places_order e)) (events st) = true
          /\ _open_positions (rm st) = _open_positions risk_manager
          /\ same_limits (rm st) risk_manager).
{ intros f Hf.
  destruct (after_status_quiet env settings f st0 Hf)
    as (A & B & C & D & evs & E & F).
  cbv zeta. rewrite A, B, C, E. cbn [st0 emit initial_state order_calls
    balance_calls rm events].
  split; [reflexivity |]. split; [lia |].
  split; [rewrite forallb_app, F; reflexivity |].
  split; [reflexivity | exact D]. }
unfold run_trading_cycle. fold st0.
destruct (exchange_status env) as [status | e |].
- destruct (negb (truthy (status !! "exchange_active"))); [apply Stop |].
  destruct (negb (truthy (status !! "trading_active"))).
  + apply Go. left. destruct scan_only; reflexivity.
  + apply Go, H.
- destruct (is_api_error e); [apply Go, H | apply Stop].
- apply Stop.
Qed.

Lemma dry_run_places_no_order_witness :
  let st := snd (run_trading_cycle (env_with true true) settings0 manager0
                   false) in
  order_calls st = 0%nat
  /\ _open_positions (rm st) = ∅
  /\ trades_executed st = 2%Z.
Proof.
intros st.
destruct (dry_run_places_no_order (env_with true true) settings0 manager0
            false) as (A & _ & _ & B & _); [right; reflexivity |].
split; [exact A |]. split; [exact B |]. vm_compute. reflexivity.
Defined.

End DryRun.

Section TradeCount.
Import Models Exn Risk Main Props MoreProps.

Variable env : cycle_env.
Variable settings : Settings.

Lemma place_order_count (o : OrderRequest) (st : cycle_state) :
  (trades_executed st
   <= trades_executed (snd (place_order env o st))
   <= trades_executed st + 1)%Z.
Proof.
unfold place_order, create_order.
destruct (order_results env (order_calls st)) as [u | e |].
- unfold get_balance. cbn [count_trade emit set_rm balance_calls].
  destruct (balances env (balance_calls st)) as [b | e |]; cbn; try lia.
  destruct (is_api_error e); cbn; lia.
- destruct (is_api_error e); cbn; lia.
- cbn. lia.
Qed.

Lemma process_signal_count (scan_only : bool) (s : TradeSignal)
    (st : cycle_state) :
  (trades_executed st
   <= trades_executed (snd (process_signal env settings scan_only s st))
   <= trades_executed st + 1)%Z.
Proof.
unfold process_signal. destruct scan_only; [cbn; lia |].
destruct (validate_trade _ _ _ _ _ _) as [[ok why] rm1].
destruct ok; cbn [negb]; [| cbn; lia].
destruct (build_order _ _ _ _) as [[o |] rm2]; [| cbn; lia].
destruct (dry_run settings); [cbn; lia |].
match goal with |- context [place_order env o ?x] =>
  pose proof (place_order_count o x) as P
end.
cbn [emit set_rm trades_executed] in P |- *. exact P.
Qed.

Lemma process_signals_count (scan_only : bool) (signals : list TradeSignal) :
  forall st : cycle_state,
  (trades_executed st
   <= trades_executed (snd (process_signals env settings scan_only signals
                              st))
   <= trades_executed st + Z.of_nat (length signals))%Z.
Proof.
induction signals as [| s rest IH]; intros st; [cbn; lia |].
cbn [process_signals].
pose proof (process_signal_count scan_only s st) as P.
destruct (process_signal env settings scan_only s st) as [r st1].
cbn [snd] in P.
destruct r; cbn [snd length]; try lia.
pose proof (IH st1). lia.
Qed.

Lemma after_status_count (scan_only : bool) (st : cycle_state) (n : Z)
    (st' : cycle_state) :
  trades_executed st = 0%Z ->
  after_status env settings scan_only st = (Ret n, st') ->
  n = trades_executed st'
  /\ (0 <= n <= Z.of_nat (length (signals_of (strategy_runs env))))%Z.
Proof.
intros H0. unfold after_status, get_balance.
cbn [set_balance rm balance trades_executed balance_calls order_calls events].
assert (Go : forall (f : bool) (st2 : cycle_state),
          trades_executed st2 = 0%Z ->
          match collect_signals (strategy_runs env) st2 with
          | ([], st3) => (Ret 0%Z, st3)
          | (all_signals, st3) =>
              match
                process_signals env settings f (sort_signals all_signals) st3
              with
              | (Ret _, st4) => (Ret (trades_executed st4), st4)
              | (Raise e, st4) => (Raise e, st4)
              | (Diverge, st4) => (Diverge, st4)
              end
          end = (Ret n, st') ->
          n = trades_executed st'
          /\ (0 <= n <= Z.of_nat (length (signals_of (strategy_runs env))))%Z).
{ intros f st2 H2. rewrite collect_signals_spec.
  destruct (signals_of (strategy_runs env)) as [| s l] eqn:Es.
  - intros E. injection E as <- <-. cbn. rewrite H2. split; [reflexivity | lia].
  - match goal with |- context [process_signals env settings f ?sl ?x] =>
      pose proof (process_signals_count f sl x) as P
    end.
    rewrite sort_signals_length in P. cbn [trades_executed] in P.
    destruct (process_signals env settings f (sort_signals (s :: l)) _)
      as [r st4]. cbn [snd] in P.
    destruct r; intros E; try discriminate E.
    injection E as <- <-. split; [reflexivity | lia]. }
destruct (balances env (balance_calls st)) as [b | e |].
- apply Go. exact H0.
- destruct (is_api_error e); [apply Go; exact H0 | discriminate].
- discriminate.
Qed.

End TradeCount.

Section TradeCountClaim.
Import Models Exn Risk Main Props MoreProps.

(** X19. The number of trades a cycle returns, in any mode, is the count it
    kept while handling the signals, never negative and never more than
    the number of signals the strategies produced: each signal is counted
    at most once. *)
Theorem trades_at_most_signals (env : cycle_env) (settings : Settings)
    (risk_manager : RiskManager) (scan_only : bool) (n : Z)
    (st : cycle_state) :
  run_trading_cycle env settings risk_manager scan_only = (Ret n, st) ->
  n = trades_executed st
  /\ (0 <= n <= Z.of_nat (length (signals_of (strategy_runs env))))%Z.
Proof.
unfold run_trading_cycle.
destruct (exchange_status env) as [status | e |].
- destruct (negb (truthy (status !! "exchange_active"))).
  + intros E. injection E as <- <-. cbn. split; [reflexivity | lia].
  + destruct (negb (truthy (status !! "trading_active")));
      apply after_status_count; reflexivity.
- destruct (is_api_error e); [| discriminate].
  apply after_status_count. reflexivity.
- discriminate.
Qed.

Lemma trades_at_most_signals_witness :
  exists n st,
    run_trading_cycle (env_with true true) settings0 manager0 false
    = (Ret n, st)
    /\ (0 <= n <= 2)%Z.
Proof.
destruct (run_trading_cycle (env_with true true) settings0 manager0 false)
  as [r st] eqn:E.
destruct r as [n | e |];
  [| vm_compute in E; discriminate E | vm_compute in E; discriminate E].
exists n, st. split; [reflexivity |].
destruct (trades_at_most_signals _ _ _ _ _ _ E) as [_ B].
exact B.
Defined.

End TradeCountClaim.

(** ** Order payloads *)

Section PayloadFacts.
Import Models.

(** The keys of a payload and the field each one carries. *)
Lemma payload_lookups (o : OrderRequest) :
  let p := to_api_payload o in
  p !! "ticker" = Some (JStr (o_ticker o))
  /\ p !! "side" = Some (JStr (OrderSide_value (o_side o)))
  /\ p !! "action" = Some (JStr (OrderAction_value (o_action o)))
  /\ p !! "count" = Some (JInt (o_count o))
  /\ p !! "type" = Some (JStr (OrderType_value (order_type o)))
  /\ p !! "yes_price" = JInt <$> yes_price o
  /\ p !! "no_price" = JInt <$> no_price o
  /\ p !! "buy_max_cost" = JInt <$> buy_max_cost o
  /\ p !! "client_order_id"
     = (if nonempty (client_order_id o)
        then Some (JStr (client_order_id o)) else None)
  /\ p !! "time_in_force"
     = (if nonempty (time_in_force o)
        then Some (JStr (time_in_force o)) else None)
  /\ p !! "post_only" = (if post_only o then Some (JBool true) else None).
Proof.
destruct o as [t sd a n ty yp np cid tif bmc po].
unfold to_api_payload.
cbn [o_ticker o_side o_action o_count order_type yes_price no_price
     client_order_id time_in_force buy_max_cost post_only].
destruct yp, np, bmc, po, cid, tif; cbn [nonempty fmap option_fmap option_map];
  repeat split; reflexivity.
Qed.

Lemma optional_string_inj (a b : string) :
  (if nonempty a then Some (JStr a) else None)
  = (if nonempty b then Some (JStr b) else None) -> a = b.
Proof.
destruct a, b; cbn [nonempty]; intros H;
  try discriminate H; try reflexivity.
injection H as -> ->. reflexivity.
Qed.

Lemma optional_int_inj (a b : option Z) : JInt <$> a = JInt <$> b -> a = b.
Proof.
destruct a, b; cbn; intros H; try discriminate H; try reflexivity.
injection H as ->. reflexivity.
Qed.

(** X20. The payload of an order carries every field of the order that is
    set and omits the others (a missing price or cost, an empty client
    order id or time in force, post-only off), so that it determines the
    order: two orders with the same payload are the same order. *)
Theorem to_api_payload_injective (o1 o2 : OrderRequest) :
  to_api_payload o1 = to_api_payload o2 -> o1 = o2.
Proof.
intros H.
pose proof (payload_lookups o1) as L1. pose proof (payload_lookups o2) as L2.
cbv zeta in L1, L2. rewrite <- H in L2.
destruct L1 as (A1 & A2 & A3 & A4 & A5 & A6 & A7 & A8 & A9 & A10 & A11).
destruct L2 as (B1 & B2 & B3 & B4 & B5 & B6 & B7 & B8 & B9 & B10 & B11).
rewrite A1 in B1. rewrite A2 in B2. rewrite A3 in B3. rewrite A4 in B4.
rewrite A5 in B5. rewrite A6 in B6. rewrite A7 in B7. rewrite A8 in B8.
rewrite A9 in B9. rewrite A10 in B10. rewrite A11 in B11.
apply optional_int_inj in B6, B7, B8.
apply optional_string_inj in B9, B10.
destruct o1 as [t1 s1 a1 n1 ty1 yp1 np1 c1 f1 m1 p1].
destruct o2 as [t2 s2 a2 n2 ty2 yp2 np2 c2 f2 m2 p2].
cbn [o_ticker o_side o_action o_count order_type yes_price no_price
     client_order_id time_in_force buy_max_cost post_only] in *.
injection B1 as ->. injection B4 as ->. subst.
assert (s1 = s2) as -> by (destruct s1, s2; try reflexivity; discriminate B2).
assert (a1 = a2) as -> by (destruct a1, a2; try reflexivity; discriminate B3).
assert (ty1 = ty2) as ->
  by (destruct ty1, ty2; try reflexivity; discriminate B5).
assert (p1 = p2) as -> by (destruct p1, p2; try reflexivity; discriminate B11).
reflexivity.
Qed.

Lemma to_api_payload_injective_witness :
  let o := {| o_ticker := "TEST"; o_side := NO; o_action := BUY;
              o_count := 5; order_type := LIMIT; yes_price := None;
              no_price := Some 60%Z; client_order_id := "";
              time_in_force := "gtc"; buy_max_cost := None;
              post_only := false |} in
  to_api_payload o !! "yes_price" = None
  /\ o = o.
Proof.
intros o. split; [vm_compute; reflexivity |].
apply (to_api_payload_injective o o). reflexivity.
Defined.

End PayloadFacts.

(** ** Configuration *)

Section ConfigFacts.
Import Config.

(** X21. Only the environment name [prod] selects the production endpoint:
    every other name, known or not, gets the demo endpoint, and
    [is_production] holds exactly when the production endpoint is used. *)
Theorem production_only_for_prod (kalshi_env : string) :
  (kalshi_env = "prod" ->
   api_base_url kalshi_env = "https://api.elections.kalshi.com/trade-api/v2")
  /\ (kalshi_env <> "prod" ->
      api_base_url kalshi_env = "https://demo-api.kalshi.co/trade-api/v2")
  /\ (is_production kalshi_env = true
      <-> api_base_url kalshi_env
          = "https://api.elections.kalshi.com/trade-api/v2").
Proof.
assert (P : kalshi_env = "prod" ->
            api_base_url kalshi_env
            = "https://api.elections.kalshi.com/trade-api/v2")
  by (intros ->; reflexivity).
assert (D : kalshi_env <> "prod" ->
            api_base_url kalshi_env
            = "https://demo-api.kalshi.co/trade-api/v2").
{ intros H. unfold api_base_url, API_URLS.
  rewrite lookup_insert_ne by congruence.
  destruct (decide (kalshi_env = "demo")) as [-> | Hd]; [reflexivity |].
  rewrite lookup_insert_ne by congruence. reflexivity. }
split; [exact P |]. split; [exact D |].
unfold is_production. rewrite String.eqb_eq. split; [exact P |].
intros H. destruct (decide (kalshi_env = "prod")) as [E | E]; [exact E |].
rewrite (D E) in H. discriminate H.
Qed.

Lemma production_only_for_prod_witness :
  api_base_url "production" = "https://demo-api.kalshi.co/trade-api/v2"
  /\ api_base_url "prod" = "https://api.elections.kalshi.com/trade-api/v2".
Proof.
destruct (production_only_for_prod "production") as (_ & A & _).
destruct (production_only_for_prod "prod") as (B & _).
split; [apply A; discriminate | apply B; reflexivity].
Defined.

End ConfigFacts.

(** ** The exposure ceiling over a whole cycle *)

Section ExposureCeiling.
Import Models Exn Risk Main Props MoreProps.

Variable env : cycle_env.
Variable settings : Settings.
Variable top : Q.
Hypothesis balances_le_top : forall k b, balances env k = Ret b -> b <= top.

Lemma build_order_headroom (today : string) (rm : RiskManager)
    (signal : TradeSignal) (balance : Q) (o : OrderRequest) :
  fst (build_order today rm signal balance) = Some o ->
  0 < order_cost o
  /\ order_cost o
     <= balance * (max_portfolio_exposure_pct rm / 100)
        - Py.sum_values (_open_positions rm).
Proof.
intros H.
destruct (build_order_some today rm signal balance o H)
  as (Hc & Hn & _ & _ & _ & Eo).
pose proof (position_size_within_limits today rm signal balance
              (cost_cents_of signal)) as L.
cbv zeta in L. destruct L as (_ & _ & _ & L4 & _).
rewrite Eo.
set (n := fst (calculate_position_size today rm signal balance
                 (cost_cents_of signal))) in *.
set (cost := inject_Z n * (inject_Z (cost_cents_of signal) / 100)) in *.
assert (Hpos : 0 < cost).
{ unfold cost.
  assert (0 < inject_Z n)
    by (change 0 with (inject_Z 0); rewrite <- Zlt_Qlt; exact Hn).
  assert (0 < inject_Z (cost_cents_of signal) / 100)
    by (apply cents_pos; lia).
  nra. }
split; [exact Hpos |]. apply le_max_0_pos; assumption.
Qed.

Lemma record_trade_total (today stamp : string) (rm : RiskManager)
    (t : string) (cost pnl : Q) :
  Py.sum_values (_open_positions (record_trade today stamp rm t cost pnl))
  == Py.sum_values (_open_positions rm) + cost
  /\ max_portfolio_exposure_pct (record_trade today stamp rm t cost pnl)
     = max_portfolio_exposure_pct rm.
Proof.
unfold record_trade.
cbn [set_positions set_ledger _open_positions max_portfolio_exposure_pct].
rewrite reset_positions. split.
- rewrite sum_values_insert. ring.
- destruct (reset_same_limits today rm) as (_ & _ & _ & E & _). exact E.
Qed.

Lemma place_order_manager (o : OrderRequest) (st : cycle_state) :
  let st' := snd (place_order env o st) in
  (rm st' = rm st
   \/ rm st'
      = record_trade (today env) (stamp env) (rm st) (o_ticker o)
          (order_cost o) 0)
  /\ (balance st' = balance st \/ balance st' <= top).
Proof.
unfold place_order, create_order, order_cost.
destruct (order_results env (order_calls st)) as [u | e |].
- unfold get_balance. cbn [count_trade emit set_rm balance_calls].
  destruct (balances env (balance_calls st)) as [b | e |] eqn:Eb.
  + cbn. split; [right; reflexivity |]. right.
    apply (balances_le_top _ _ Eb).
  + destruct (is_api_error e); cbn; (split; [right | left]); reflexivity.
  + cbn. split; [right | left]; reflexivity.
- destruct (is_api_error e); cbn; (split; left; reflexivity).
- cbn. split; left; reflexivity.
Qed.

Lemma process_signal_ceiling (f : bool) (s : TradeSignal) (st : cycle_state) :
  0 <= max_portfolio_exposure_pct (rm st) ->
  (f = false -> balance st <= top) ->
  let st' := snd (process_signal env settings f s st) in
  let before := Py.sum_values (_open_positions (rm st)) in
  let after := Py.sum_values (_open_positions (rm st')) in
  max_portfolio_exposure_pct (rm st') = max_portfolio_exposure_pct (rm st)
  /\ (f = false -> balance st' <= top)
  /\ before <= after
  /\ after <= Qmax before (top * (max_portfolio_exposure_pct (rm st) / 100)).
Proof.
intros Hp Hb. cbv zeta.
set (pct := max_portfolio_exposure_pct (rm st)) in *.
set (before := Py.sum_values (_open_positions (rm st))).
assert (M : before <= Qmax before (top * (pct / 100))) by apply Q.le_max_l.
unfold process_signal. destruct f.
{ cbn. fold pct before. split; [reflexivity |].
  split; [discriminate |]. split; [lra | exact M]. }
specialize (Hb eq_refl).
pose proof (validate_trade_state (today env) (rm st) s (balance st)
              (min_confidence settings) (min_expected_value settings)) as V.
destruct (validate_trade _ _ _ _ _ _) as [[ok why] rm1].
cbn [snd] in V. subst rm1.
set (rm1 := _reset_daily_if_needed (today env) (rm st)).
assert (P1 : max_portfolio_exposure_pct rm1 = pct).
{ destruct (reset_same_limits (today env) (rm st)) as (_ & _ & _ & E & _).
  exact E. }
assert (S1 : Py.sum_values (_open_positions rm1) = before).
{ unfold rm1, before. rewrite reset_positions. reflexivity. }
destruct ok; cbn [negb].
2:{ cbn. rewrite P1, S1. split; [reflexivity |]. split; [intros _; exact Hb |].
    split; [lra | exact M]. }
cbn [emit set_rm rm balance].
pose proof (build_order_state (today env) rm1 s (balance st)) as Bs.
pose proof (build_order_headroom (today env) rm1 s (balance st)) as Bh.
destruct (build_order (today env) rm1 s (balance st)) as [order rm2].
cbn [fst snd] in Bs, Bh.
assert (E2 : rm2 = rm1).
{ destruct Bs as [-> | ->]; [reflexivity |].
  unfold rm1. apply reset_idempotent. }
subst rm2.
destruct order as [o |].
2:{ cbn. rewrite P1, S1. split; [reflexivity |]. split; [intros _; exact Hb |].
    split; [lra | exact M]. }
destruct (dry_run settings).
{ cbn. rewrite P1, S1. split; [reflexivity |]. split; [intros _; exact Hb |].
  split; [lra | exact M]. }
destruct (Bh o eq_refl) as [C0 C1]. rewrite P1, S1 in C1.
match goal with |- context [place_order env o ?x] =>
  pose proof (place_order_manager o x) as Po;
  set (st1 := x) in *
end.
cbv zeta in Po. destruct Po as [Pr Pb].
cbn [st1 emit set_rm rm balance] in Pr, Pb.
split; [| split].
- destruct Pr as [-> | ->]; [exact P1 |].
  destruct (record_trade_total (today env) (stamp env) rm1 (o_ticker o)
              (order_cost o) 0) as [_ ->]. exact P1.
- intros _. destruct Pb as [-> | Pb]; [exact Hb | exact Pb].
- destruct Pr as [-> | ->].
  + rewrite S1. split; [lra | exact M].
  + destruct (record_trade_total (today env) (stamp env) rm1 (o_ticker o)
                (order_cost o) 0) as [-> _].
    rewrite S1. split; [lra |].
    apply Qle_trans with (top * (pct / 100)); [| apply Q.le_max_r].
    assert (X0 : 0 <= pct / 100) by (apply Qle_shift_div_l; lra).
    set (share := pct / 100) in *.
    assert (balance st * share <= top * share) by nra.
    lra.
Qed.

Lemma process_signals_ceiling (f : bool) (signals : list TradeSignal) :
  forall st : cycle_state,
  0 <= max_portfolio_exposure_pct (rm st) ->
  (f = false -> balance st <= top) ->
  let st' := snd (process_signals env settings f signals st) in
  let before := Py.sum_values (_open_positions (rm st)) in
  let after := Py.sum_values (_open_positions (rm st')) in
  before <= after
  /\ after <= Qmax before (top * (max_portfolio_exposure_pct (rm st) / 100)).
Proof.
induction signals as [| s rest IH]; intros st Hp Hb; cbv zeta.
{ cbn. split; [lra | apply Q.le_max_l]. }
cbn [process_signals].
pose proof (process_signal_ceiling f s st Hp Hb) as P. cbv zeta in P.
destruct (process_signal env settings f s st) as [r st1].
cbn [snd] in P. destruct P as (P1 & P2 & P3 & P4).
destruct r as [u | e |]; cbn [snd]; try (split; assumption).
assert (Hp1 : 0 <= max_portfolio_exposure_pct (rm st1))
  by (rewrite P1; exact Hp).
pose proof (IH st1 Hp1 P2) as Q1. cbv zeta in Q1. rewrite P1 in Q1.
destruct Q1 as [Q1 Q2]. split; [lra |].
set (cap := top * (max_portfolio_exposure_pct (rm st) / 100)) in *.
apply Qle_trans with (1 := Q2).
apply Q.max_lub; [exact P4 | apply Q.le_max_r].
Qed.

Lemma after_status_ceiling (f : bool) (st : cycle_state) :
  0 <= max_portfolio_exposure_pct (rm st) ->
  let st' := snd (after_status env settings f st) in
  let before := Py.sum_values (_open_positions (rm st)) in
  let after := Py.sum_values (_open_positions (rm st')) in
  before <= after
  /\ after <= Qmax before (top * (max_portfolio_exposure_pct (rm st) / 100)).
Proof.
intros Hp. cbv zeta.
set (before := Py.sum_values (_open_positions (rm st))).
set (cap := top * (max_portfolio_exposure_pct (rm st) / 100)).
assert (Same : before <= before /\ before <= Qmax before cap)
  by (split; [lra | apply Q.le_max_l]).
assert (Go : forall (g : bool) (st2 : cycle_state),
          rm st2 = rm st -> (g = false -> balance st2 <= top) ->
          let st' :=
            snd (match collect_signals (strategy_runs env) st2 with
                 | ([], st3) => (Ret 0%Z, st3)
                 | (all_signals, st3) =>
                     match
                       process_signals env settings g
                         (sort_signals all_signals) st3
                     with
                     | (Ret _, st4) => (Ret (trades_executed st4), st4)
                     | (Raise e, st4) => (Raise e, st4)
                     | (Diverge, st4) => (Diverge, st4)
                     end
                 end) in
          before <= Py.sum_values (_open_positions (rm st'))
          /\ Py.sum_values (_open_positions (rm st')) <= Qmax before cap).
{ intros g st2 Er Hb. cbv zeta. rewrite collect_signals_spec.
  set (st3 := {| rm := rm st2; balance := balance st2;
                 trades_executed := trades_executed st2;
                 balance_calls := balance_calls st2;
                 order_calls := order_calls st2;
                 events := map RanStrategy (rev (strategy_runs env))
                           ++ events st2 |}).
  destruct (signals_of (strategy_runs env)) as [| s0 more].
  { cbn [snd st3 rm]. rewrite Er. exact Same. }
  assert (Hp3 : 0 <= max_portfolio_exposure_pct (rm st3))
    by (cbn [st3 rm]; rewrite Er; exact Hp).
  assert (Hb3 : g = false -> balance st3 <= top) by exact Hb.
  pose proof (process_signals_ceiling g (sort_signals (s0 :: more)) st3
                Hp3 Hb3) as P.
  cbv zeta in P. cbn [st3 rm] in P. rewrite Er in P. fold before cap in P.
  fold st3.
  destruct (process_signals env settings g (sort_signals (s0 :: more)) st3)
    as [r st4].
  cbn [snd] in P. destruct r; cbn [snd]; exact P. }
unfold after_status, get_balance.
cbn [set_balance rm balance trades_executed balance_calls order_calls events].
destruct (balances env (balance_calls st)) as [b | e |] eqn:Eb.
- apply Go; [reflexivity |]. intros _. cbn [set_balance balance].
  apply (balances_le_top _ _ Eb).
- destruct (is_api_error e).
  + apply Go; [reflexivity | discriminate].
  + cbn [snd rm]. exact Same.
- cbn [snd rm]. exact Same.
Qed.

End ExposureCeiling.

Section ExposureCeilingClaim.
Import Models Exn Risk Main Props MoreProps.

(** X23. A trading cycle, in any mode and whatever the exchange answers,
    never lowers the total tracked exposure and never raises it above the
    configured share of the largest balance the exchange reported during
    the cycle (or above what it was, when it started higher). *)
Theorem cycle_exposure_ceiling (env : cycle_env) (settings : Settings)
    (risk_manager : RiskManager) (scan_only : bool) (top : Q) :
  0 <= max_portfolio_exposure_pct risk_manager ->
  (forall k b, balances env k = Ret b -> b <= top) ->
  let st := snd (run_trading_cycle env settings risk_manager scan_only) in
  let before := Py.sum_values (_open_positions risk_manager) in
  let after := Py.sum_values (_open_positions (rm st)) in
  before <= after
  /\ after
     <= Qmax before (top * (max_portfolio_exposure_pct risk_manager / 100)).
Proof.
intros Hp Hb. cbv zeta.
set (st0 := emit GotExchangeStatus (initial_state risk_manager)).
assert (Same : forall r : res Z,
          Py.sum_values (_open_positions risk_manager)
          <= Py.sum_values (_open_positions (rm (snd (r, st0))))
          /\ Py.sum_values (_open_positions (rm (snd (r, st0))))
             <= Qmax (Py.sum_values (_open_positions risk_manager))
                  (top * (max_portfolio_exposure_pct risk_manager / 100))).
{ intros r. cbn. split; [lra | apply Q.le_max_l]. }
assert (Go : forall f,
          Py.sum_values (_open_positions risk_manager)
          <= Py.sum_values
               (_open_positions (rm (snd (after_status env settings f st0))))
          /\ Py.sum_values
               (_open_positions (rm (snd (after_status env settings f st0))))
             <= Qmax (Py.sum_values (_open_positions risk_manager))
                  (top * (max_portfolio_exposure_pct risk_manager / 100))).
{ intros f.
  apply (after_status_ceiling env settings top Hb f st0). exact Hp. }
unfold run_trading_cycle. fold st0.
destruct (exchange_status env) as [status | e |].
- destruct (negb (truthy (status !! "exchange_active"))); [apply Same |].
  destruct (negb (truthy (status !! "trading_active"))); apply Go.
- destruct (is_api_error e); [apply Go | apply Same].
- apply Same.
Qed.

Lemma cycle_exposure_ceiling_witness :
  Py.sum_values
    (_open_positions
       (rm (snd (run_trading_cycle (env_with true true) settings_live
                   manager0 false))))
  <= Qmax 0 (1000 * (20 / 100)).
Proof.
pose proof (cycle_exposure_ceiling (env_with true true) settings_live
              manager0 false 1000) as H.
cbv zeta in H.
destruct H as [_ H].
- vm_compute. discriminate.
- intros k b E. cbn in E. injection E as <-. apply Qle_refl.
- exact H.
Defined.

End ExposureCeilingClaim.

(** ** The strategy pipeline *)

Section StrategyRun.
Import Models Exn MarketModel BaseStrategy Props MoreProps.

Variable analyze : Market -> res (option TradeSignal).

Lemma analyze_markets_spec (markets : list Market) :
  (forall m, In m markets -> analyze m <> Diverge) ->
  forall signals,
  analyze_markets analyze markets signals
  = Ret (signals ++ omap (found analyze) markets).
Proof.
induction markets as [| m rest IH]; intros T signals.
- cbn. rewrite app_nil_r. reflexivity.
- assert (Tm : analyze m <> Diverge) by (apply T; left; reflexivity).
  assert (Tr : forall m', In m' rest -> analyze m' <> Diverge)
    by (intros m' I; apply T; right; exact I).
  cbn [analyze_markets omap list_omap]. unfold found at 1.
  destruct (analyze m) as [[s |] | e |]; [| | | congruence].
  + rewrite (IH Tr). rewrite <- app_assoc. reflexivity.
  + apply (IH Tr).
  + apply (IH Tr).
Qed.

Lemma omap_length_le (A B : Type) (f : A -> option B) (l : list A) :
  (length (omap f l) <= length l)%nat.
Proof.
induction l as [| a l IH]; [cbn; lia |].
cbn [omap list_omap]. destruct (f a); cbn [length]; lia.
Qed.

End StrategyRun.

Section StrategyRunClaim.
Import Models Exn MarketModel BaseStrategy Props MoreProps.

(** X24. A strategy whose scan returns and whose analyses all come back, with
    a result or an exception, always returns: exactly the signals of the
    markets whose analysis gave one, in the order of the scan, so at most
    one per market. An analysis that raises loses only its own market. *)
Theorem run_skips_failed_analyses (scan : res (list Market))
    (analyze : Market -> res (option TradeSignal)) (markets : list Market) :
  scan = Ret markets ->
  (forall m, In m markets -> analyze m <> Diverge) ->
  run scan analyze = Ret (omap (found analyze) markets)
  /\ (length (omap (found analyze) markets) <= length markets)%nat
  /\ forall before m after e,
       markets = before ++ m :: after ->
       analyze m = Raise e ->
       run scan analyze
       = Ret (omap (found analyze) before ++ omap (found analyze) after).
Proof.
intros Hs T.
assert (R : run scan analyze = Ret (omap (found analyze) markets)).
{ unfold run. rewrite Hs. apply (analyze_markets_spec analyze markets T). }
split; [exact R |]. split; [apply omap_length_le |].
intros before m after e -> Hm. rewrite R.
rewrite omap_app. cbn [omap list_omap]. unfold found at 2. rewrite Hm.
reflexivity.
Qed.

Lemma run_skips_failed_analyses_witness :
  run (Ret [market_at "A" 40 45; market_at "B" 10 12; market_at "C" 0 0;
            market_at "D" 70 72]) toy_analyze
  = Ret [yes_signal "A" 0.1; yes_signal "D" 0.1].
Proof.
destruct (run_skips_failed_analyses
            (Ret [market_at "A" 40 45; market_at "B" 10 12;
                  market_at "C" 0 0; market_at "D" 70 72])
            toy_analyze
            [market_at "A" 40 45; market_at "B" 10 12; market_at "C" 0 0;
             market_at "D" 70 72]) as (R & _).
- reflexivity.
- intros m [<- | [<- | [<- | [<- | []]]]]; vm_compute; discriminate.
- rewrite R. vm_compute. reflexivity.
Defined.

End StrategyRunClaim.
